(** * Octane render session (blender/render/session.cpp)

    A shallow embedding of [Session]: the render loop [Session::run_render]
    with [start] and [run] around it, the controller entry points ([draw],
    [reset], [update], [set_pause], [set_samples], [set_blender_session],
    the destructor's request to stop) and the helpers they call.

    The session talks to collaborators that live outside this file of the
    program (the engine client [OctaneClient], the scene, the display
    buffer, the host [BlenderSession], the clock).  They are kept abstract:
    a world [W] with one function per call the session makes.  Every call
    that commands a collaborator is also appended to a trace, so that
    "how many times was X called" is a statement about a list.

    Time is a number of clock ticks ([Z]); the source uses [double]
    seconds. *)

From Stdlib Require Import ZArith List String Ascii Bool Lia.
From Stdlib Require Import Floats.
Import ListNotations.

Local Open Scope string_scope.
Local Open Scope list_scope.
Local Open Scope Z_scope.

(** ** Plain data *)

(** [::OctaneEngine::OctaneClient::ImageType] as used by the session. *)
Inductive ImageType := IMAGE_8BIT | IMAGE_FLOAT | IMAGE_FLOAT_TONEMAPPED.

(** [::OctaneEngine::OctaneClient::SceneExportTypes]; only [NONE] is named
    by the session. *)
Inductive SceneExportTypes := NONE | ALEMBIC | ORBX.

(** [::OctaneEngine::OctaneClient::FailReasons]; [UNKNOWN] stands for every
    value that reaches the [default:] label. *)
Inductive FailReasons := NO_CONNECTION | WRONG_VERSION | NOT_ACTIVATED | UNKNOWN.

(** [::Octane::RenderPassId] is an enum, kept as its integer value. *)
Definition RenderPassId := Z.
Definition RENDER_PASS_BEAUTY : RenderPassId := 0.

Definition SceneExportTypes_eqb (a b : SceneExportTypes) : bool :=
  match a, b with
  | NONE, NONE | ALEMBIC, ALEMBIC | ORBX, ORBX => true
  | _, _ => false
  end.

(** The statistics snapshot [params.image_stat]. *)
Record ImageStat := {
  uiCurSamples : Z;
  fSPS : float;
  ulVramUsed : Z; ulVramFree : Z; ulVramTotal : Z;
  uiMeshesCnt : Z; uiTrianglesCnt : Z;
  uiRgb32Cnt : Z; uiRgb64Cnt : Z; uiGrey8Cnt : Z; uiGrey16Cnt : Z;
  uiNetGPUs : Z; uiNetGPUsUsed : Z;
  iExpiryTime : Z
}.

Definition set_uiCurSamples (n : Z) (i : ImageStat) : ImageStat :=
  {| uiCurSamples := n; fSPS := fSPS i;
     ulVramUsed := ulVramUsed i; ulVramFree := ulVramFree i;
     ulVramTotal := ulVramTotal i;
     uiMeshesCnt := uiMeshesCnt i; uiTrianglesCnt := uiTrianglesCnt i;
     uiRgb32Cnt := uiRgb32Cnt i; uiRgb64Cnt := uiRgb64Cnt i;
     uiGrey8Cnt := uiGrey8Cnt i; uiGrey16Cnt := uiGrey16Cnt i;
     uiNetGPUs := uiNetGPUs i; uiNetGPUsUsed := uiNetGPUsUsed i;
     iExpiryTime := iExpiryTime i |}.

(** [SessionParams], the fields session.cpp reads or writes. *)
Record SessionParams := {
  interactive : bool;
  width : Z;
  height : Z;
  samples : Z;
  hdr_tonemapped : bool;
  export_scene : SceneExportTypes;
  out_of_core_enabled : bool;
  out_of_core_mem_limit : Z;
  out_of_core_gpu_headroom : Z;
  deep_image : bool;
  output_path : string;
  image_stat : ImageStat
}.

Definition set_image_stat (i : ImageStat) (p : SessionParams) : SessionParams :=
  {| interactive := interactive p; width := width p; height := height p;
     samples := samples p; hdr_tonemapped := hdr_tonemapped p;
     export_scene := export_scene p;
     out_of_core_enabled := out_of_core_enabled p;
     out_of_core_mem_limit := out_of_core_mem_limit p;
     out_of_core_gpu_headroom := out_of_core_gpu_headroom p;
     deep_image := deep_image p; output_path := output_path p;
     image_stat := i |}.

Definition set_params_samples (n : Z) (p : SessionParams) : SessionParams :=
  {| interactive := interactive p; width := width p; height := height p;
     samples := n; hdr_tonemapped := hdr_tonemapped p;
     export_scene := export_scene p;
     out_of_core_enabled := out_of_core_enabled p;
     out_of_core_mem_limit := out_of_core_mem_limit p;
     out_of_core_gpu_headroom := out_of_core_gpu_headroom p;
     deep_image := deep_image p; output_path := output_path p;
     image_stat := image_stat p |}.

(** Modelled from the spec: [BufferParams] (buffers.h is not part of the
    sources).  The frame buffer's "declared parameters (width, height, pass
    layout)", and [modified(params)], which "compares declared
    parameters". *)
Record BufferParams := {
  bp_width : Z;
  bp_height : Z;
  bp_passes : list RenderPassId
}.

Fixpoint passes_eqb (a b : list RenderPassId) : bool :=
  match a, b with
  | [], [] => true
  | x :: a', y :: b' => (x =? y) && passes_eqb a' b'
  | _, _ => false
  end.

Definition modified (self other : BufferParams) : bool :=
  negb ((bp_width self =? bp_width other)
        && (bp_height self =? bp_height other)
        && passes_eqb (bp_passes self) (bp_passes other)).

(** Modelled from the spec: [DisplayBuffer] (buffers.h is not part of the
    sources).  The session reads its public member [params]; the pixel
    storage itself belongs to the world. *)
Record DisplayBuffer := { db_params : BufferParams }.

(** The parts of [Scene] the session dereferences: [scene->camera],
    [scene->kernel->uiGPUs], [scene->passes->oct_node]. *)
Record Scene := {
  cam_width : Z;
  cam_height : Z;
  kernel_uiGPUs : Z;
  bUsePasses : bool;
  curPassType : RenderPassId
}.

Definition set_cam_size (w h : Z) (sc : Scene) : Scene :=
  {| cam_width := w; cam_height := h; kernel_uiGPUs := kernel_uiGPUs sc;
     bUsePasses := bUsePasses sc; curPassType := curPassType sc |}.

(** The host session handle [b_session]; the session only reads its
    [interactive] member and calls [update_render_img] on it. *)
Record BlenderSession := { bs_interactive : bool }.

(** Modelled from the spec: [Progress] (util_progress.h is not part of the
    sources).  "Thread-safe holder of textual status, cancellation
    flag/message, timing, and sample counters"; [updates] counts the
    [set_update] notifications. *)
Record Progress := {
  cancel : bool;
  cancel_message : string;
  status : string;
  substatus : string;
  prog_start_time : Z;
  updates : nat
}.

Definition Progress_new : Progress :=
  {| cancel := false; cancel_message := EmptyString; status := EmptyString;
     substatus := EmptyString; prog_start_time := 0; updates := 0%nat |}.

Definition progress_set_cancel (msg : string) (p : Progress) : Progress :=
  {| cancel := true; cancel_message := msg; status := status p;
     substatus := substatus p; prog_start_time := prog_start_time p;
     updates := updates p |}.

Definition progress_set_status (st sub : string) (p : Progress) : Progress :=
  {| cancel := cancel p; cancel_message := cancel_message p; status := st;
     substatus := sub; prog_start_time := prog_start_time p;
     updates := updates p |}.

Definition progress_set_start_time (t : Z) (p : Progress) : Progress :=
  {| cancel := cancel p; cancel_message := cancel_message p;
     status := status p; substatus := substatus p; prog_start_time := t;
     updates := updates p |}.

Definition progress_set_update (p : Progress) : Progress :=
  {| cancel := cancel p; cancel_message := cancel_message p;
     status := status p; substatus := substatus p;
     prog_start_time := prog_start_time p; updates := S (updates p) |}.

(** ** The session object *)

(** The members of [Session].  [display] and [scene] are pointers that may
    be null, hence [option].  [pause_cond] is the condition variable: the
    number of [notify_all] broadcasts it has received; a thread that went
    to sleep at broadcast count [n] wakes once the count differs from
    [n]. *)
Record Session := {
  params : SessionParams;
  display : option DisplayBuffer;
  scene : option Scene;
  b_session : option BlenderSession;
  progress : Progress;
  start_time : Z;
  reset_time : Z;
  paused_time : Z;
  display_outdated : bool;
  pause : bool;
  pause_cond : nat;
  pass_name : string;
  frame_idx : Z;
  total_frames : Z
}.

Definition with_params (v : SessionParams) (s : Session) : Session :=
  {| params := v; display := display s; scene := scene s;
     b_session := b_session s; progress := progress s;
     start_time := start_time s; reset_time := reset_time s;
     paused_time := paused_time s; display_outdated := display_outdated s;
     pause := pause s; pause_cond := pause_cond s; pass_name := pass_name s;
     frame_idx := frame_idx s; total_frames := total_frames s |}.

Definition with_display (v : option DisplayBuffer) (s : Session) : Session :=
  {| params := params s; display := v; scene := scene s;
     b_session := b_session s; progress := progress s;
     start_time := start_time s; reset_time := reset_time s;
     paused_time := paused_time s; display_outdated := display_outdated s;
     pause := pause s; pause_cond := pause_cond s; pass_name := pass_name s;
     frame_idx := frame_idx s; total_frames := total_frames s |}.

Definition with_scene (v : option Scene) (s : Session) : Session :=
  {| params := params s; display := display s; scene := v;
     b_session := b_session s; progress := progress s;
     start_time := start_time s; reset_time := reset_time s;
     paused_time := paused_time s; display_outdated := display_outdated s;
     pause := pause s; pause_cond := pause_cond s; pass_name := pass_name s;
     frame_idx := frame_idx s; total_frames := total_frames s |}.

Definition with_b_session (v : option BlenderSession) (s : Session) : Session :=
  {| params := params s; display := display s; scene := scene s;
     b_session := v; progress := progress s;
     start_time := start_time s; reset_time := reset_time s;
     paused_time := paused_time s; display_outdated := display_outdated s;
     pause := pause s; pause_cond := pause_cond s; pass_name := pass_name s;
     frame_idx := frame_idx s; total_frames := total_frames s |}.

Definition with_progress (v : Progress) (s : Session) : Session :=
  {| params := params s; display := display s; scene := scene s;
     b_session := b_session s; progress := v;
     start_time := start_time s; reset_time := reset_time s;
     paused_time := paused_time s; display_outdated := display_outdated s;
     pause := pause s; pause_cond := pause_cond s; pass_name := pass_name s;
     frame_idx := frame_idx s; total_frames := total_frames s |}.

Definition with_start_time (v : Z) (s : Session) : Session :=
  {| params := params s; display := display s; scene := scene s;
     b_session := b_session s; progress := progress s;
     start_time := v; reset_time := reset_time s;
     paused_time := paused_time s; display_outdated := display_outdated s;
     pause := pause s; pause_cond := pause_cond s; pass_name := pass_name s;
     frame_idx := frame_idx s; total_frames := total_frames s |}.

Definition with_reset_time (v : Z) (s : Session) : Session :=
  {| params := params s; display := display s; scene := scene s;
     b_session := b_session s; progress := progress s;
     start_time := start_time s; reset_time := v;
     paused_time := paused_time s; display_outdated := display_outdated s;
     pause := pause s; pause_cond := pause_cond s; pass_name := pass_name s;
     frame_idx := frame_idx s; total_frames := total_frames s |}.

Definition with_paused_time (v : Z) (s : Session) : Session :=
  {| params := params s; display := display s; scene := scene s;
     b_session := b_session s; progress := progress s;
     start_time := start_time s; reset_time := reset_time s;
     paused_time := v; display_outdated := display_outdated s;
     pause := pause s; pause_cond := pause_cond s; pass_name := pass_name s;
     frame_idx := frame_idx s; total_frames := total_frames s |}.

Definition with_display_outdated (v : bool) (s : Session) : Session :=
  {| params := params s; display := display s; scene := scene s;
     b_session := b_session s; progress := progress s;
     start_time := start_time s; reset_time := reset_time s;
     paused_time := paused_time s; display_outdated := v;
     pause := pause s; pause_cond := pause_cond s; pass_name := pass_name s;
     frame_idx := frame_idx s; total_frames := total_frames s |}.

Definition with_pause (v : bool) (s : Session) : Session :=
  {| params := params s; display := display s; scene := scene s;
     b_session := b_session s; progress := progress s;
     start_time := start_time s; reset_time := reset_time s;
     paused_time := paused_time s; display_outdated := display_outdated s;
     pause := v; pause_cond := pause_cond s; pass_name := pass_name s;
     frame_idx := frame_idx s; total_frames := total_frames s |}.

Definition with_pause_cond (v : nat) (s : Session) : Session :=
  {| params := params s; display := display s; scene := scene s;
     b_session := b_session s; progress := progress s;
     start_time := start_time s; reset_time := reset_time s;
     paused_time := paused_time s; display_outdated := display_outdated s;
     pause := pause s; pause_cond := v; pass_name := pass_name s;
     frame_idx := frame_idx s; total_frames := total_frames s |}.

Definition with_pass_info (n : string) (f t : Z) (s : Session) : Session :=
  {| params := params s; display := display s; scene := scene s;
     b_session := b_session s; progress := progress s;
     start_time := start_time s; reset_time := reset_time s;
     paused_time := paused_time s; display_outdated := display_outdated s;
     pause := pause s; pause_cond := pause_cond s; pass_name := n;
     frame_idx := f; total_frames := t |}.

(** ** Calls to collaborators *)

(** The commands the session issues; the trace is a list of them, most
    recent first.  [RefreshBuffer] is not a call to a collaborator: it
    marks the places where the loop calls [update_render_buffer]. *)
Inductive Call :=
| StartRender (w h : Z) (fmt : ImageType) (ooc : bool) (ooc_mem ooc_headroom : Z)
| PauseRender (b : bool)
| ServerReset (e : SceneExportTypes) (gpus : Z) (mb_frame_time_sampling : float)
              (deep : bool)
| DownloadImageBuffer (fmt : ImageType) (passId : RenderPassId)
| ClearServerErrorMessage
| ServerClear
| CameraTagUpdate
| SceneServerUpdate (inter : bool) (frame total : Z)
| DisplayReset (bp : BufferParams)
| DisplayDraw
| UpdateRenderImg
| TimeSleep
| RefreshBuffer.

(** What the world answers.  [react] is the effect of a command on the
    world; the other fields are the calls that return something.
    [poll_cancel] stands for a cancellation that another thread (or the
    host) requested since the flag was last looked at.
    [format_substatus] is the [printf] text of the statistics line. *)
Record Collaborators (W : Type) := {
  react : Call -> W -> W;
  time_dt : W -> Z * W;
  poll_cancel : W -> option string * W;
  downloadImageBuffer : ImageStat -> ImageType -> RenderPassId -> W ->
                        (bool * ImageStat) * W;
  getServerErrorMessage : W -> string * W;
  checkServerConnection : W -> bool * W;
  getFailReason : W -> FailReasons * W;
  sNetAddress : W -> string * W;
  need_update : W -> bool * W;
  display_draw : W -> bool * W;
  update_render_img : ImageStat -> W -> ImageStat * W;
  format_substatus : SessionParams -> string
}.

Arguments react {W} _ _ _.
Arguments time_dt {W} _ _.
Arguments poll_cancel {W} _ _.
Arguments downloadImageBuffer {W} _ _ _ _ _.
Arguments getServerErrorMessage {W} _ _.
Arguments checkServerConnection {W} _ _.
Arguments getFailReason {W} _ _.
Arguments sNetAddress {W} _ _.
Arguments need_update {W} _ _.
Arguments display_draw {W} _ _.
Arguments update_render_img {W} _ _ _.
Arguments format_substatus {W} _ _.

(** ** State and effects *)

Section SessionModel.

Context {W : Type} (E : Collaborators W).

(** A state is the session object, the world outside it and the trace of
    calls made so far. *)
Record St := mkSt {
  sess : Session;
  world : W;
  trace : list Call
}.

(** A computation either is undefined (a null pointer is dereferenced) or
    returns a value and a new state. *)
Definition M (A : Type) : Type := St -> option (A * St).

Definition ret {A} (a : A) : M A := fun st => Some (a, st).

Definition bind {A B} (m : M A) (f : A -> M B) : M B :=
  fun st => match m st with
            | Some (a, st') => f a st'
            | None => None
            end.

Definition undefined {A} : M A := fun _ => None.

Local Notation "x <- c ;; k" := (bind c (fun x => k))
  (at level 61, c at next level, right associativity).
Local Notation "c ;; k" := (bind c (fun _ => k))
  (at level 61, right associativity).

Definition get : M Session := fun st => Some (sess st, st).

Definition modify (f : Session -> Session) : M unit :=
  fun st => Some (tt, mkSt (f (sess st)) (world st) (trace st)).

Definition modify_progress (f : Progress -> Progress) : M unit :=
  modify (fun s => with_progress (f (progress s)) s).

Definition log (c : Call) : M unit :=
  fun st => Some (tt, mkSt (sess st) (world st) (c :: trace st)).

(** A call that returns something. *)
Definition query {A} (q : W -> A * W) : M A :=
  fun st => Some (fst (q (world st)),
                  mkSt (sess st) (snd (q (world st))) (trace st)).

(** A call that returns nothing: logged, and the world reacts. *)
Definition command (c : Call) : M unit :=
  fun st => Some (tt, mkSt (sess st) (react E c (world st)) (c :: trace st)).

(** [pause_cond.notify_all()]. *)
Definition notify_all : M unit :=
  modify (fun s => with_pause_cond (S (pause_cond s)) s).

(** Modelled from the spec: [Progress::get_cancel] (util_progress.h is not
    part of the sources).  Reads the cancellation flag, which is
    "read/written by both the worker and controller": a request that came
    in from outside since the last look is picked up here. *)
Definition get_cancel : M bool :=
  s <- get ;;
  if cancel (progress s) then ret true
  else
    r <- query (poll_cancel E) ;;
    match r with
    | Some msg => modify_progress (progress_set_cancel msg) ;; ret true
    | None => ret false
    end.

(** ** Construction *)

(** [Session::Session].  [fresh] is what [new DisplayBuffer(server)]
    returns. *)
Definition Session_new (params_ : SessionParams) (fresh : DisplayBuffer)
  : Session :=
  {| params := params_;
     display := if negb (interactive params_) then None else Some fresh;
     scene := None;
     b_session := None;
     progress := Progress_new;
     start_time := 0; reset_time := 0; paused_time := 0;
     display_outdated := false;
     pause := false;
     pause_cond := 0%nat;
     pass_name := EmptyString; frame_idx := 0; total_frames := 0 |}.

(** [Session::ready_to_reset]. *)
Definition ready_to_reset : M bool := ret true.

(** The part of [Session::set_blender_session] that touches the session:
    the handle is kept only for a host session that is not interactive. *)
Definition set_blender_session (b_session_ : BlenderSession) : M unit :=
  if negb (bs_interactive b_session_)
  then modify (with_b_session (Some b_session_))
  else ret tt.

(** ** Status text *)

Definition dquote : string := String (ascii_of_nat 34) EmptyString.

Definition fail_status (r : FailReasons) (addr : string) : string * string :=
  match r with
  | NO_CONNECTION =>
      ("Not connected",
       ("No Render-server at address " ++ dquote ++ addr ++ dquote)%string)
  | WRONG_VERSION =>
      ("Wrong version",
       ("Wrong Render-server version at address " ++ dquote ++ addr
          ++ dquote)%string)
  | NOT_ACTIVATED =>
      ("Not activated",
       ("Render-server at address " ++ dquote ++ addr ++ dquote
          ++ " is not activated")%string)
  | UNKNOWN =>
      ("Server error",
       ("Error in Render-server at address " ++ dquote ++ addr
          ++ dquote)%string)
  end.

(** [Session::update_status_time]. *)
Definition update_status_time (show_pause show_done : bool) : M unit :=
  ok <- query (checkServerConnection E) ;;
  s <- get ;;
  if ok then
    let substatus_ :=
      if 0 <? uiCurSamples (image_stat (params s))
      then format_substatus E (params s)
      else "Waiting for image..." in
    let base :=
      match b_session s with
      | Some b => if negb (bs_interactive b) then pass_name s
                  else "Interactive"
      | None => "Interactive"
      end in
    let status_ :=
      (base ++ (if show_pause then " - Paused"
                else if show_done then " - Done"
                else " - Rendering"))%string in
    modify_progress (progress_set_status status_ substatus_)
  else
    r <- query (getFailReason E) ;;
    addr <- query (sNetAddress E) ;;
    modify_progress (progress_set_status (fst (fail_status r addr))
                                         (snd (fail_status r addr))).

(** ** Pulling the image *)

(** The colour format expression that appears in [startRender] and
    [downloadImageBuffer]. *)
Definition image_type_of (p : SessionParams) : ImageType :=
  if interactive p then IMAGE_8BIT
  else if hdr_tonemapped p then IMAGE_FLOAT_TONEMAPPED
  else IMAGE_FLOAT.

(** [scene->passes->oct_node->bUsePasses ? ...->curPassType : RENDER_PASS_BEAUTY]. *)
Definition cur_pass_id : M RenderPassId :=
  s <- get ;;
  match scene s with
  | None => undefined
  | Some sc =>
      ret (if bUsePasses sc then curPassType sc else RENDER_PASS_BEAUTY)
  end.

(** [server->downloadImageBuffer(params.image_stat, fmt, passId)]. *)
Definition server_downloadImageBuffer (passId : RenderPassId) : M bool :=
  s <- get ;;
  log (DownloadImageBuffer (image_type_of (params s)) passId) ;;
  r <- query (downloadImageBuffer E (image_stat (params s))
                                  (image_type_of (params s)) passId) ;;
  modify (fun s => with_params (set_image_stat (snd r) (params s)) s) ;;
  ret (fst r).

(** [Session::update_img_sample].  The host callback holds a pointer to the
    session and may refresh its statistics. *)
Definition update_img_sample : M unit :=
  s <- get ;;
  match b_session s with
  | Some _ =>
      log UpdateRenderImg ;;
      i <- query (update_render_img E (image_stat (params s))) ;;
      modify (fun s => with_params (set_image_stat i (params s)) s)
  | None => ret tt
  end ;;
  update_status_time false false.

(** The last two lines of [Session::update_render_buffer]. *)
Definition update_render_buffer_tail : M unit :=
  c <- get_cancel ;;
  if c then ret tt
  else
    s <- get ;;
    if negb (interactive (params s)) then update_img_sample else ret tt.

(** [Session::update_render_buffer]. *)
Definition update_render_buffer : M unit :=
  c <- get_cancel ;;
  if c then ret tt
  else
    passId <- cur_pass_id ;;
    s <- get ;;
    retry <-
      (if interactive (params s) then
         got <- server_downloadImageBuffer passId ;;
         if negb got then
           s1 <- get ;;
           ret (match b_session s1 with Some _ => true | None => false end)
         else ret false
       else ret false) ;;
    if retry : bool then
      c1 <- get_cancel ;;
      if c1 then ret tt
      else
        s2 <- get ;;
        (if negb (interactive (params s2)) then update_img_sample
         else ret tt) ;;
        passId' <- cur_pass_id ;;
        _ <- server_downloadImageBuffer passId' ;;
        update_render_buffer_tail
    else update_render_buffer_tail.

(** ** Pushing the scene *)

(** [Session::update_scene_to_server]. *)
Definition update_scene_to_server (frame_idx_ total_frames_ : Z) : M unit :=
  s <- get ;;
  match scene s with
  | None => undefined
  | Some sc =>
      (if negb (width (params s) =? cam_width sc)
          || negb (height (params s) =? cam_height sc)
       then
         modify (with_scene
                   (Some (set_cam_size (width (params s)) (height (params s))
                                       sc))) ;;
         command CameraTagUpdate
       else ret tt) ;;
      need <- (if negb (SceneExportTypes_eqb (export_scene (params s)) NONE)
               then ret true
               else query (need_update E)) ;;
      if need : bool then
        modify_progress (progress_set_status "Updating Scene" EmptyString) ;;
        command (SceneServerUpdate (interactive (params s))
                                   frame_idx_ total_frames_)
      else ret tt
  end.

(** ** Controller entry points *)

(** Modelled from the spec: [DisplayBuffer::reset] (buffers.cpp is not part
    of the sources): "reallocates storage" for the new declared
    parameters. *)
Definition DisplayBuffer_reset (bp : BufferParams) : M unit :=
  command (DisplayReset bp) ;;
  modify (with_display (Some {| db_params := bp |})).

(** Modelled from the spec: [DisplayBuffer::draw] (buffers.cpp is not part
    of the sources): "renders the current buffer to screen"; the answer
    says whether there was something to draw. *)
Definition DisplayBuffer_draw : M bool :=
  log DisplayDraw ;;
  query (display_draw E).

(** [Session::draw].  The statements after the first [return] in the
    source are unreachable. *)
Definition draw (buffer_params : BufferParams) : M bool :=
  s <- get ;;
  match display s with
  | None => undefined
  | Some d =>
      if negb (modified buffer_params (db_params d))
      then DisplayBuffer_draw
      else ret false
  end.

(** [Session::reset_parameters]. *)
Definition reset_parameters (buffer_params : BufferParams) : M unit :=
  s <- get ;;
  match display s with
  | Some d =>
      if modified buffer_params (db_params d)
      then DisplayBuffer_reset buffer_params
      else ret tt
  | None => ret tt
  end ;;
  t <- query (time_dt E) ;;
  modify (with_start_time t) ;;
  modify (with_paused_time 0) ;;
  s1 <- get ;;
  if interactive (params s1)
  then modify_progress
         (progress_set_start_time (start_time s1 + paused_time s1))
  else ret tt.

(** [Session::reset]. *)
Definition reset (buffer_params : BufferParams)
                 (mb_frame_time_sampling : float) : M unit :=
  modify (with_display_outdated true) ;;
  t <- query (time_dt E) ;;
  modify (with_reset_time t) ;;
  reset_parameters buffer_params ;;
  s <- get ;;
  match scene s with
  | None => undefined
  | Some sc =>
      command (ServerReset (export_scene (params s)) (kernel_uiGPUs sc)
                           mb_frame_time_sampling (deep_image (params s)))
  end ;;
  notify_all.

(** [Session::update]. *)
Definition update (buffer_params : BufferParams) : M unit :=
  modify (with_display_outdated true) ;;
  t <- query (time_dt E) ;;
  modify (with_reset_time t) ;;
  reset_parameters buffer_params ;;
  notify_all.

(** [Session::set_samples]. *)
Definition set_samples (samples_ : Z) : M unit :=
  s <- get ;;
  if negb (samples_ =? samples (params s))
  then modify (fun s => with_params (set_params_samples samples_ (params s)) s)
  else ret tt.

(** The block of [Session::set_pause] that runs under [pause_mutex]; it
    returns the local variable [notify]. *)
Definition set_pause_locked (pause_ : bool) : M bool :=
  s <- get ;;
  if negb (Bool.eqb (pause s) pause_)
  then modify (with_pause pause_) ;; ret true
  else ret false.

(** The last statement of [Session::set_pause], after the lock is
    released. *)
Definition set_pause_notify (notify : bool) : M unit :=
  if notify then notify_all else ret tt.

(** [Session::set_pause]. *)
Definition set_pause (pause_ : bool) : M unit :=
  notify <- set_pause_locked pause_ ;;
  set_pause_notify notify.

(** The first half of [Session::~Session], run while the worker is alive:
    request cancellation, clear [pause], broadcast. *)
Definition destroy_request : M unit :=
  modify_progress (progress_set_cancel "Exiting") ;;
  modify (with_pause false) ;;
  notify_all.

(** ** The render loop *)

Definition generic_error : string :=
  "ERROR! Check console for detailed error messages.".

Definition string_empty (s : string) : bool :=
  match s with EmptyString => true | String _ _ => false end.

(** The block that follows both places where the loop looks at
    [server->getServerErrorMessage()]. *)
Definition server_error_check : M unit :=
  msg <- query (getServerErrorMessage E) ;;
  if negb (string_empty msg) then
    modify_progress (progress_set_cancel generic_error) ;;
    command ClearServerErrorMessage
  else ret tt.

(** [params.samples] is an [int] compared with the [uint32_t] sample
    count, so it is converted to unsigned first. *)
Definition to_uint32 (n : Z) : Z := n mod 2 ^ 32.

(** The expression assigned to [is_done] at the end of an iteration. *)
Definition done_now (s : Session) : bool :=
  negb (interactive (params s))
  && (to_uint32 (samples (params s)) <=? uiCurSamples (image_stat (params s))).

(** Where the worker thread is.  [AtLoopHead] is the test of the outer
    [while]; [InPauseWait] is the thread asleep in [pause_cond.wait], with
    the value of [pause_start] and the broadcast count it went to sleep
    at; [Returned] is after [run_render]. *)
Inductive WorkerPC :=
| AtLoopHead (bStarted is_done : bool)
| InPauseWait (bStarted is_done : bool) (pause_start : Z) (epoch : nat)
| Returned.

(** The first statements of [Session::run_render], up to the loop. *)
Definition run_render_begin : M WorkerPC :=
  t <- query (time_dt E) ;;
  modify (with_start_time t) ;;
  modify (with_reset_time t) ;;
  modify (with_paused_time 0) ;;
  modify (fun s => with_params
                     (set_image_stat (set_uiCurSamples 0 (image_stat (params s)))
                                     (params s)) s) ;;
  s <- get ;;
  (if interactive (params s)
   then modify_progress (progress_set_start_time (start_time s))
   else ret tt) ;;
  ret (AtLoopHead false false).

(** The second half of the loop body: [if(!is_done) {...} else {...}] and
    the assignment to [is_done]. *)
Definition render_pass (bStarted is_done : bool) : M WorkerPC :=
  if negb is_done then
    command TimeSleep ;;
    s <- get ;;
    (if negb bStarted || interactive (params s)
     then update_scene_to_server (frame_idx s) (total_frames s)
     else ret tt) ;;
    (if negb bStarted then
       s1 <- get ;;
       command (StartRender (width (params s1)) (height (params s1))
                            (image_type_of (params s1))
                            (out_of_core_enabled (params s1))
                            (out_of_core_mem_limit (params s1))
                            (out_of_core_gpu_headroom (params s1)))
     else ret tt) ;;
    server_error_check ;;
    c <- get_cancel ;;
    if c then ret Returned
    else
      log RefreshBuffer ;;
      update_render_buffer ;;
      server_error_check ;;
      update_status_time false false ;;
      modify_progress progress_set_update ;;
      s2 <- get ;;
      ret (AtLoopHead true (done_now s2))
  else
    log RefreshBuffer ;;
    update_render_buffer ;;
    update_status_time false false ;;
    s2 <- get ;;
    ret (AtLoopHead bStarted (done_now s2)).

(** After the pause block of the interactive branch:
    [if(progress.get_cancel()) break;] and then the rest of the body. *)
Definition after_pause_block (bStarted is_done : bool) : M WorkerPC :=
  c <- get_cancel ;;
  if c then ret Returned else render_pass bStarted is_done.

(** Top of the inner [while(true)] up to the wait. *)
Definition pause_wait_enter (bStarted is_done : bool) : M WorkerPC :=
  s <- get ;;
  (if pause s then command (PauseRender true) else ret tt) ;;
  pause_start <- query (time_dt E) ;;
  s1 <- get ;;
  ret (InPauseWait bStarted is_done pause_start (pause_cond s1)).

(** From the return of [pause_cond.wait] to the end of the inner loop
    body. *)
Definition pause_wait_resume (bStarted is_done : bool) (pause_start : Z)
  : M WorkerPC :=
  now <- query (time_dt E) ;;
  modify (fun s => with_paused_time (paused_time s + (now - pause_start)) s) ;;
  s <- get ;;
  modify_progress (progress_set_start_time (start_time s + paused_time s)) ;;
  update_status_time (pause s) is_done ;;
  modify_progress progress_set_update ;;
  s1 <- get ;;
  if negb (pause s1) then
    command (PauseRender false) ;;
    after_pause_block bStarted is_done
  else pause_wait_enter bStarted is_done.

(** One pass from the loop test to the next loop test, to the wait, or
    out of the loop. *)
Definition loop_head (bStarted is_done : bool) : M WorkerPC :=
  c <- get_cancel ;;
  if c then ret Returned
  else
    s <- get ;;
    if negb (interactive (params s)) then
      if is_done then
        update_status_time false false ;;
        modify_progress
          (progress_set_status (pass_name s ++ " finished")%string
                               EmptyString) ;;
        ret Returned
      else render_pass bStarted is_done
    else
      if pause s || is_done then
        update_status_time (pause s) is_done ;;
        pause_wait_enter bStarted is_done
      else after_pause_block bStarted is_done.

(** One scheduling slot of the worker thread.  Asleep and not notified, it
    stays where it is. *)
Definition worker_step (pc : WorkerPC) : M WorkerPC :=
  match pc with
  | AtLoopHead bStarted is_done => loop_head bStarted is_done
  | InPauseWait bStarted is_done pause_start epoch =>
      s <- get ;;
      if Nat.eqb (pause_cond s) epoch then ret pc
      else pause_wait_resume bStarted is_done pause_start
  | Returned => ret Returned
  end.

(** The end of [Session::run], after [run_render] has returned. *)
Definition run_end : M unit :=
  c <- get_cancel ;;
  if c then
    command ServerClear ;;
    s <- get ;;
    modify_progress (progress_set_status "Cancel"
                                         (cancel_message (progress s)))
  else modify_progress progress_set_update.

(** ** Worker and controller together *)

(** The worker thread and the shared state.  A schedule interleaves the
    worker's slots with calls of the controller, each call running to
    completion between two slots.  The slots end where the worker can be
    overtaken: at the loop test and in the wait. *)
Record Sys := mkSys {
  pc : WorkerPC;
  st : St
}.

Inductive Action :=
| Worker
| CallSetPause (pause_ : bool)
| CallSetSamples (samples_ : Z)
| CallReset (buffer_params : BufferParams) (mb_frame_time_sampling : float)
| CallUpdate (buffer_params : BufferParams)
| CallDestroy.

Definition controller (m : M unit) (y : Sys) : option Sys :=
  match m (st y) with
  | Some (_, st') => Some (mkSys (pc y) st')
  | None => None
  end.

Definition sys_step (a : Action) (y : Sys) : option Sys :=
  match a with
  | Worker =>
      match worker_step (pc y) (st y) with
      | Some (pc', st') => Some (mkSys pc' st')
      | None => None
      end
  | CallSetPause b => controller (set_pause b) y
  | CallSetSamples n => controller (set_samples n) y
  | CallReset bp mb => controller (reset bp mb) y
  | CallUpdate bp => controller (update bp) y
  | CallDestroy => controller destroy_request y
  end.

Fixpoint exec (sched : list Action) (y : Sys) : option Sys :=
  match sched with
  | [] => Some y
  | a :: rest =>
      match sys_step a y with
      | Some y' => exec rest y'
      | None => None
      end
  end.

(** ** Counting calls in a trace *)

Definition is_StartRender (c : Call) : bool :=
  match c with StartRender _ _ _ _ _ _ => true | _ => false end.
Definition is_PauseRender (b : bool) (c : Call) : bool :=
  match c with PauseRender b' => Bool.eqb b b' | _ => false end.
Definition is_any_PauseRender (c : Call) : bool :=
  match c with PauseRender _ => true | _ => false end.
Definition is_Download (c : Call) : bool :=
  match c with DownloadImageBuffer _ _ => true | _ => false end.
Definition is_ScenePush (c : Call) : bool :=
  match c with SceneServerUpdate _ _ _ => true | _ => false end.
Definition is_UpdateRenderImg (c : Call) : bool :=
  match c with UpdateRenderImg => true | _ => false end.
Definition is_RefreshBuffer (c : Call) : bool :=
  match c with RefreshBuffer => true | _ => false end.
Definition is_ServerReset (c : Call) : bool :=
  match c with ServerReset _ _ _ _ => true | _ => false end.

Definition count (f : Call -> bool) (t : list Call) : nat :=
  List.length (filter f t).

(** ** The two looks at the engine client's error message *)

(** The statements of a render pass before the first look at
    [server->getServerErrorMessage()]: the sleep, the scene update and the
    one-time [startRender]. *)
Definition pass_prefix (bStarted : bool) : M unit :=
  command TimeSleep ;;
  s <- get ;;
  (if negb bStarted || interactive (params s)
   then update_scene_to_server (frame_idx s) (total_frames s)
   else ret tt) ;;
  (if negb bStarted then
     s1 <- get ;;
     command (StartRender (width (params s1)) (height (params s1))
                          (image_type_of (params s1))
                          (out_of_core_enabled (params s1))
                          (out_of_core_mem_limit (params s1))
                          (out_of_core_gpu_headroom (params s1)))
   else ret tt).

(** The statements of a render pass before the second look: the prefix,
    the first look, the cancellation test and the buffer refresh.  The
    answer says whether the second look is reached, that is, whether the
    loop was not left at the cancellation test. *)
Definition until_second_look (bStarted : bool) : M bool :=
  pass_prefix bStarted ;;
  server_error_check ;;
  c <- get_cancel ;;
  if c then ret false
  else
    log RefreshBuffer ;;
    update_render_buffer ;;
    ret true.

(** ** Starting a run *)

(** [Session::run] up to the loop of [run_render]: the status text, the
    first look at the cancellation flag and the first statements of
    [run_render].  [progress.reset_cur_samples()] writes a counter inside
    [Progress] that the session never reads; it is not part of the state
    kept here.  A run that is skipped is past the loop at once. *)
Definition run_begin : M WorkerPC :=
  modify_progress
    (progress_set_status "Waiting for render to start" EmptyString) ;;
  c <- get_cancel ;;
  if c then ret Returned else run_render_begin.

(** The loop of [run_render] driven by the thread that called [run], for
    at most [fuel] slots. *)
Fixpoint run_render_loop (fuel : nat) (p : WorkerPC) : M WorkerPC :=
  match fuel with
  | O => ret p
  | S n =>
      match p with
      | Returned => ret Returned
      | _ => p' <- worker_step p ;; run_render_loop n p'
      end
  end.

(** [Session::run].  The answer says whether it returned within [fuel]
    slots of the loop. *)
Definition run (fuel : nat) : M bool :=
  p0 <- run_begin ;;
  p1 <- run_render_loop fuel p0 ;;
  match p1 with
  | Returned => run_end ;; ret true
  | _ => ret false
  end.

(** [Session::start] with [synchronous] set: the caller runs the loop
    itself. *)
Definition start_synchronous (pass_name_ : string)
                             (frame_idx_ total_frames_ : Z) (fuel : nat)
  : M bool :=
  modify (with_pass_info pass_name_ frame_idx_ total_frames_) ;;
  run fuel.

(** ** The end of the session *)

(** The rest of [Session::~Session], run once the worker has been joined:
    the image is written for an interactive session that has a display
    buffer and an output path, then display buffer and scene are deleted.
    The answer is the path given to [display->write], if it was
    called. *)
Definition destroy_finish : M (option string) :=
  s <- get ;;
  written <-
    (match display s with
     | Some _ =>
         if interactive (params s)
            && negb (string_empty (output_path (params s)))
         then
           modify_progress
             (progress_set_status "Writing Image" (output_path (params s))) ;;
           ret (Some (output_path (params s)))
         else ret None
     | None => ret None
     end) ;;
  modify (with_display None) ;;
  modify (with_scene None) ;;
  ret written.

(** ** Attaching the host session *)

(** Where a diagnostic line is printed. *)
Inductive Stream := to_stdout | to_stderr.

Definition newline : string := String (ascii_of_nat 10) EmptyString.

(** [Session::set_blender_session], whole.  [server_addr] is the string
    read from the host scene's settings, [connectToServer] the engine
    client's call; the answer is what was printed.  Every
    [server->getFailReason()] in the chain of tests is a call of its
    own.  [progress.set_blender_session] stores the handle inside
    [Progress], where the session does not read it. *)
Definition Session_set_blender_session
    (connectToServer : string -> W -> bool * W)
    (b_session_ : BlenderSession) (server_addr : string)
  : M (list (Stream * string)) :=
  set_blender_session b_session_ ;;
  if (String.length server_addr =? 0)%nat then
    ret [(to_stderr, ("Octane: no server address set." ++ newline)%string)]
  else
    connected <- query (connectToServer server_addr) ;;
    if connected : bool then ret []
    else
      r1 <- query (getFailReason E) ;;
      match r1 with
      | NOT_ACTIVATED =>
          ret [(to_stdout,
                ("Octane: current server activation state is: not activated."
                   ++ newline)%string)]
      | _ =>
          r2 <- query (getFailReason E) ;;
          match r2 with
          | NO_CONNECTION =>
              ret [(to_stderr,
                    ("Octane: can't connect to Octane server."
                       ++ newline)%string)]
          | _ =>
              r3 <- query (getFailReason E) ;;
              match r3 with
              | WRONG_VERSION =>
                  ret [(to_stderr,
                        ("Octane: wrong version of Octane server."
                           ++ newline)%string)]
              | _ =>
                  ret [(to_stderr,
                        ("Octane: can't connect to Octane server."
                           ++ newline)%string)]
              end
          end
      end.

End SessionModel.

Arguments count : simpl never.

(** ** A small simulated world

    A deterministic engine and host used to run the model on concrete
    inputs: every pull of the image (by the engine client or by the host
    callback) brings [sim_gain] more samples; the clock advances by one
    tick per reading and by ten per sleep; [sim_error] is the engine
    client's pending error message; a cancellation request arrives at the
    poll numbered [sim_cancel_in], if any. *)
Record SimWorld := {
  sim_clock : Z;
  sim_gain : Z;
  sim_error : string;
  sim_cancel_in : option nat;
  sim_has_image : bool
}.

Definition sim_react (c : Call) (w : SimWorld) : SimWorld :=
  match c with
  | TimeSleep =>
      {| sim_clock := sim_clock w + 10; sim_gain := sim_gain w;
         sim_error := sim_error w; sim_cancel_in := sim_cancel_in w;
         sim_has_image := sim_has_image w |}
  | ClearServerErrorMessage =>
      {| sim_clock := sim_clock w; sim_gain := sim_gain w;
         sim_error := EmptyString; sim_cancel_in := sim_cancel_in w;
         sim_has_image := sim_has_image w |}
  | _ => w
  end.

Definition sim_time_dt (w : SimWorld) : Z * SimWorld :=
  (sim_clock w,
   {| sim_clock := sim_clock w + 1; sim_gain := sim_gain w;
      sim_error := sim_error w; sim_cancel_in := sim_cancel_in w;
      sim_has_image := sim_has_image w |}).

Definition sim_poll_cancel (w : SimWorld) : option string * SimWorld :=
  match sim_cancel_in w with
  | None => (None, w)
  | Some O => (Some "Cancelled by user", w)
  | Some (S n) =>
      (None,
       {| sim_clock := sim_clock w; sim_gain := sim_gain w;
          sim_error := sim_error w; sim_cancel_in := Some n;
          sim_has_image := sim_has_image w |})
  end.

Definition sim_pull (i : ImageStat) (w : SimWorld) : ImageStat :=
  set_uiCurSamples (uiCurSamples i + sim_gain w) i.

Definition SimEngine : Collaborators SimWorld :=
  {| react := sim_react;
     time_dt := sim_time_dt;
     poll_cancel := sim_poll_cancel;
     downloadImageBuffer := fun i _ _ w => ((true, sim_pull i w), w);
     getServerErrorMessage := fun w => (sim_error w, w);
     checkServerConnection := fun w => (true, w);
     getFailReason := fun w => (UNKNOWN, w);
     sNetAddress := fun w => ("127.0.0.1", w);
     need_update := fun w => (true, w);
     display_draw := fun w => (sim_has_image w, w);
     update_render_img := fun i w => (sim_pull i w, w);
     format_substatus := fun _ => "Sample info" |}.

Definition sim_world (gain : Z) : SimWorld :=
  {| sim_clock := 0; sim_gain := gain; sim_error := EmptyString;
     sim_cancel_in := None; sim_has_image := true |}.

Definition stat0 : ImageStat :=
  {| uiCurSamples := 0; fSPS := 0%float;
     ulVramUsed := 0; ulVramFree := 0; ulVramTotal := 0;
     uiMeshesCnt := 0; uiTrianglesCnt := 0;
     uiRgb32Cnt := 0; uiRgb64Cnt := 0; uiGrey8Cnt := 0; uiGrey16Cnt := 0;
     uiNetGPUs := 0; uiNetGPUsUsed := 0; iExpiryTime := -1 |}.

Definition sim_params (inter : bool) (w h n : Z) : SessionParams :=
  {| interactive := inter; width := w; height := h; samples := n;
     hdr_tonemapped := false; export_scene := NONE;
     out_of_core_enabled := false; out_of_core_mem_limit := 0;
     out_of_core_gpu_headroom := 0; deep_image := false;
     output_path := EmptyString; image_stat := stat0 |}.

Definition sim_scene : Scene :=
  {| cam_width := 0; cam_height := 0; kernel_uiGPUs := 1;
     bUsePasses := false; curPassType := RENDER_PASS_BEAUTY |}.

Definition bp0 : BufferParams :=
  {| bp_width := 0; bp_height := 0; bp_passes := [] |}.

(** A session as the host leaves it before [start]: constructed, scene
    attached, host handle attached when the host session is not
    interactive. *)
Definition sim_session (inter : bool) (w h n : Z) : Session :=
  with_pass_info "Beauty" 1 1
    (with_b_session (if inter then None else Some {| bs_interactive := false |})
       (with_scene (Some sim_scene)
          (Session_new (sim_params inter w h n) {| db_params := bp0 |}))).

Definition sim_st (inter : bool) (w h n gain : Z) : St :=
  mkSt (sim_session inter w h n) (sim_world gain) [].

(** The system right after the first statements of [run_render]. *)
Definition sim_start (inter : bool) (w h n gain : Z) : option Sys :=
  match run_render_begin SimEngine (sim_st inter w h n gain) with
  | Some (p, s) => Some (mkSys p s)
  | None => None
  end.

Definition exec_from (o : option Sys) (sched : list Action) : option Sys :=
  match o with
  | Some y => exec SimEngine sched y
  | None => None
  end.

(** ** A world where nothing goes wrong

    The world is the clock.  Nobody cancels, the engine client reports no
    error, and every pull of the image brings [gain] more samples. *)
Definition SteadyEngine (gain : positive) : Collaborators Z :=
  {| react := fun c w => match c with TimeSleep => w + 10 | _ => w end;
     time_dt := fun w => (w, w + 1);
     poll_cancel := fun w => (None, w);
     downloadImageBuffer :=
       fun i _ _ w =>
         ((true, set_uiCurSamples (uiCurSamples i + Z.pos gain) i), w);
     getServerErrorMessage := fun w => (EmptyString, w);
     checkServerConnection := fun w => (true, w);
     getFailReason := fun w => (UNKNOWN, w);
     sNetAddress := fun w => ("127.0.0.1", w);
     need_update := fun w => (true, w);
     display_draw := fun w => (true, w);
     update_render_img :=
       fun i w => (set_uiCurSamples (uiCurSamples i + Z.pos gain) i, w);
     format_substatus := fun _ => "Sample info" |}.

Definition steady_st (inter : bool) (w h n : Z) : @St Z :=
  mkSt (sim_session inter w h n) 0 [].

(** ** A world whose clock is set back

    As the steady world, but every reading of the clock is thirty ticks
    earlier than the one before, as when the wall clock is adjusted. *)
Definition RewindingEngine : Collaborators Z :=
  {| react := fun c w => w;
     time_dt := fun w => (w, w - 30);
     poll_cancel := fun w => (None, w);
     downloadImageBuffer :=
       fun i _ _ w => ((true, set_uiCurSamples (uiCurSamples i + 25) i), w);
     getServerErrorMessage := fun w => (EmptyString, w);
     checkServerConnection := fun w => (true, w);
     getFailReason := fun w => (UNKNOWN, w);
     sNetAddress := fun w => ("127.0.0.1", w);
     need_update := fun w => (true, w);
     display_draw := fun w => (true, w);
     update_render_img :=
       fun i w => (set_uiCurSamples (uiCurSamples i + 25) i, w);
     format_substatus := fun _ => "Sample info" |}.

(** ** A world where the error comes with the image

    The world is the engine client's pending error message.  It is empty
    until the host pulls the image, which leaves an error behind;
    [clearServerErrorMessage] empties it. *)
Definition LateErrorEngine : Collaborators string :=
  {| react := fun c w => match c with
                         | ClearServerErrorMessage => EmptyString
                         | _ => w
                         end;
     time_dt := fun w => (0, w);
     poll_cancel := fun w => (None, w);
     downloadImageBuffer :=
       fun i _ _ w => ((true, set_uiCurSamples (uiCurSamples i + 25) i),
                       "device lost");
     getServerErrorMessage := fun w => (w, w);
     checkServerConnection := fun w => (true, w);
     getFailReason := fun w => (UNKNOWN, w);
     sNetAddress := fun w => ("127.0.0.1", w);
     need_update := fun w => (true, w);
     display_draw := fun w => (true, w);
     update_render_img :=
       fun i w => (set_uiCurSamples (uiCurSamples i + 25) i, "device lost");
     format_substatus := fun _ => "Sample info" |}.

(** * Proofs *)

(** ** Reasoning about computations *)

Section Reasoning.

Context {W : Type}.

(** Weakest precondition of [m] for the postcondition [Q], where [N] is
    what has to hold if [m] is undefined: [True] for partial correctness,
    [False] for total correctness. *)
Definition wpn {A} (N : Prop) (m : @M W A) (Q : A -> @St W -> Prop) (st : St)
  : Prop :=
  match m st with
  | Some (a, st') => Q a st'
  | None => N
  end.

Lemma wpn_bind {A B} N (m : M A) (f : A -> M B) Q st :
  wpn N m (fun a st' => wpn N (f a) Q st') st -> wpn N (bind m f) Q st.
Proof.
  unfold wpn, bind. destruct (m st) as [[a st']|]; auto.
Qed.

Lemma wpn_conseq {A} (N N' : Prop) (m : M A) (Q Q' : A -> St -> Prop) st :
  wpn N m Q st -> (N -> N') -> (forall a st', Q a st' -> Q' a st') ->
  wpn N' m Q' st.
Proof.
  unfold wpn. destruct (m st) as [[a st']|]; auto.
Qed.

Lemma wpn_and {A} (N N' : Prop) (m : M A) (Q1 Q2 : A -> St -> Prop) st :
  wpn N m Q1 st -> wpn N' m Q2 st ->
  wpn N m (fun a s => Q1 a s /\ Q2 a s) st.
Proof.
  unfold wpn. destruct (m st) as [[a st']|]; auto.
Qed.

Lemma wpn_elim {A} N (m : M A) Q st a st' :
  wpn N m Q st -> m st = Some (a, st') -> Q a st'.
Proof.
  unfold wpn. intros H Hm. rewrite Hm in H. exact H.
Qed.

Lemma twp_elim {A} (m : M A) Q st :
  wpn False m Q st -> exists a st', m st = Some (a, st') /\ Q a st'.
Proof.
  unfold wpn. destruct (m st) as [[a st']|]; [eauto | contradiction].
Qed.

Lemma twp_eq {A} (m : M A) st a st' :
  wpn False m (fun a0 st0 => a0 = a /\ st0 = st') st -> m st = Some (a, st').
Proof.
  unfold wpn. destruct (m st) as [[a0 st0]|]; [|contradiction].
  intros [-> ->]. reflexivity.
Qed.

Lemma wpn_ret {A} N (a : A) (Q : A -> St -> Prop) st :
  Q a st -> wpn N (ret a) Q st.
Proof. auto. Qed.

Lemma wpn_get N (Q : Session -> St -> Prop) st :
  Q (sess st) st -> wpn N get Q st.
Proof. auto. Qed.

Lemma wpn_modify N f (Q : unit -> St -> Prop) st :
  Q tt (mkSt (f (sess st)) (world st) (trace st)) -> wpn N (modify f) Q st.
Proof. auto. Qed.

Lemma wpn_modify_progress N f (Q : unit -> St -> Prop) st :
  Q tt (mkSt (with_progress (f (progress (sess st))) (sess st))
             (world st) (trace st)) ->
  wpn N (modify_progress f) Q st.
Proof. auto. Qed.

Lemma wpn_notify_all N (Q : unit -> St -> Prop) st :
  Q tt (mkSt (with_pause_cond (S (pause_cond (sess st))) (sess st))
             (world st) (trace st)) ->
  wpn N notify_all Q st.
Proof. auto. Qed.

Lemma wpn_log N c (Q : unit -> St -> Prop) st :
  Q tt (mkSt (sess st) (world st) (c :: trace st)) -> wpn N (log c) Q st.
Proof. auto. Qed.

Lemma wpn_query {A} N (q : W -> A * W) (Q : A -> St -> Prop) st :
  Q (fst (q (world st))) (mkSt (sess st) (snd (q (world st))) (trace st)) ->
  wpn N (query q) Q st.
Proof. auto. Qed.

Lemma wpn_command N E c (Q : unit -> St -> Prop) st :
  Q tt (mkSt (sess st) (react E c (world st)) (c :: trace st)) ->
  wpn N (command E c) Q st.
Proof. auto. Qed.

Lemma wpn_undefined {A} (N : Prop) (Q : A -> St -> Prop) st :
  N -> wpn N undefined Q st.
Proof. auto. Qed.

End Reasoning.

Abbreviation wp := (wpn True).
Abbreviation twp := (wpn False).

(** Case analysis on the test of a conditional, simplified first.  A test
    that computes to a constructor selects its branch; a hypothesis that
    gives the value of the test is used when there is one. *)
Ltac wp_case c :=
  let c' := eval cbn in c in
  change c with c';
  lazymatch c' with
  | true => cbv iota
  | false => cbv iota
  | Some _ => cbv iota
  | None => cbv iota
  | EmptyString => cbv iota
  | String _ _ => cbv iota
  | _ =>
      first [ match goal with H : c' = _ |- _ => rewrite H end
            | match c' with
              | context [?l] =>
                  match goal with H : l = _ |- _ => rewrite H end
              end
            | match goal with
              | H : forall w, fst (_ w) = _ |- _ => rewrite H
              end
            | destruct c' eqn:? ]
  end.

(** One structural step of a weakest-precondition goal. *)
Ltac wp_step :=
  cbv beta iota; cbn [sess world trace];
  lazymatch goal with
  | |- wpn _ (bind _ _) _ _ => apply wpn_bind
  | |- wpn _ (ret _) _ _ => apply wpn_ret
  | |- wpn _ get _ _ => apply wpn_get
  | |- wpn _ (modify_progress _) _ _ => apply wpn_modify_progress
  | |- wpn _ (modify _) _ _ => apply wpn_modify
  | |- wpn _ notify_all _ _ => apply wpn_notify_all
  | |- wpn _ (log _) _ _ => apply wpn_log
  | |- wpn _ (query _) _ _ => apply wpn_query
  | |- wpn _ (command _ _) _ _ => apply wpn_command
  | |- wpn _ undefined _ _ => apply wpn_undefined; try exact I
  | |- wpn _ (if ?c then _ else _) _ _ => wp_case c
  | |- wpn _ (match ?x with _ => _ end) _ _ => wp_case x
  end.

Ltac wp_steps := repeat wp_step.

(** ** What the worker's helpers leave alone *)

(** [p'] differs from [p] at most in the statistics snapshot. *)
Definition same_config (p p' : SessionParams) : Prop :=
  set_image_stat (image_stat p) p' = p.

Definition scene_rest (sc : Scene) : Z * bool * RenderPassId :=
  (kernel_uiGPUs sc, bUsePasses sc, curPassType sc).

(** [t] is [t0] with more calls in front, all of them accepted by [ok]. *)
Definition ext (ok : Call -> bool) (t0 t : list Call) : Prop :=
  exists new, t = new ++ t0 /\ forallb ok new = true.

Arguments ext : simpl never.

Definition sub_ok (ok1 ok2 : Call -> bool) : Prop :=
  forall c, ok1 c = true -> ok2 c = true.

(** Sets of calls. *)
Definition ok_none (c : Call) : bool := false.
Definition ok_sample (c : Call) : bool := is_UpdateRenderImg c.
Definition ok_download (c : Call) : bool := is_Download c.
Definition ok_buffer (c : Call) : bool := is_UpdateRenderImg c || is_Download c.
Definition ok_scene (c : Call) : bool :=
  match c with
  | CameraTagUpdate | SceneServerUpdate _ _ _ => true
  | _ => false
  end.
Definition ok_error (c : Call) : bool :=
  match c with ClearServerErrorMessage => true | _ => false end.
Definition ok_render (c : Call) : bool :=
  match c with
  | TimeSleep | CameraTagUpdate | SceneServerUpdate _ _ _
  | StartRender _ _ _ _ _ _ | ClearServerErrorMessage | RefreshBuffer
  | UpdateRenderImg | DownloadImageBuffer _ _ => true
  | _ => false
  end.
Definition ok_loop_head (c : Call) : bool :=
  ok_render c || is_PauseRender true c.
Definition ok_worker (c : Call) : bool := ok_render c || is_any_PauseRender c.

(** What a frame promises on top of the fields no helper of the worker
    ever writes: that the pause clock, the cancellation state or the
    statistics snapshot are left alone. *)
Record Mode := {
  keeps_clock : bool;
  keeps_cancel : bool;
  keeps_stat : bool
}.

(** What the worker thread leaves alone between [st] and [st'].  It may
    write status text and camera size, change the world and add calls
    accepted by [ok] to the trace; cancellation is never withdrawn. *)
Record frame {W} (m : Mode) (ok : Call -> bool) (st st' : @St W) : Prop := {
  fr_params : same_config (params (sess st)) (params (sess st'));
  fr_display : display (sess st') = display (sess st);
  fr_b_session : b_session (sess st') = b_session (sess st);
  fr_pause : pause (sess st') = pause (sess st);
  fr_pause_cond : pause_cond (sess st') = pause_cond (sess st);
  fr_pass_name : pass_name (sess st') = pass_name (sess st);
  fr_frame_idx : frame_idx (sess st') = frame_idx (sess st);
  fr_total_frames : total_frames (sess st') = total_frames (sess st);
  fr_start_time : start_time (sess st') = start_time (sess st);
  fr_reset_time : reset_time (sess st') = reset_time (sess st);
  fr_display_outdated :
    display_outdated (sess st') = display_outdated (sess st);
  fr_scene :
    option_map scene_rest (scene (sess st'))
    = option_map scene_rest (scene (sess st));
  fr_cancel :
    cancel (progress (sess st)) = true ->
    cancel (progress (sess st')) = true;
  fr_trace : ext ok (trace st) (trace st');
  fr_paused_time :
    keeps_clock m = true -> paused_time (sess st') = paused_time (sess st);
  fr_prog_start_time :
    keeps_clock m = true ->
    prog_start_time (progress (sess st'))
    = prog_start_time (progress (sess st));
  fr_cancel_same :
    keeps_cancel m = true ->
    cancel (progress (sess st')) = cancel (progress (sess st));
  fr_cancel_message :
    keeps_cancel m = true ->
    cancel_message (progress (sess st'))
    = cancel_message (progress (sess st));
  fr_stat :
    keeps_stat m = true ->
    image_stat (params (sess st')) = image_stat (params (sess st))
}.

Lemma ext_refl ok t : ext ok t t.
Proof. exists []. split; reflexivity. Qed.

Lemma ext_cons ok t0 t c : ext ok t0 t -> ok c = true -> ext ok t0 (c :: t).
Proof.
  intros (new & -> & Hf) Hc. exists (c :: new). split; [reflexivity|].
  cbn. rewrite Hc, Hf. reflexivity.
Qed.

Lemma ext_none t0 t : ext ok_none t0 t -> t = t0.
Proof.
  intros (new & -> & Hf). destruct new; [reflexivity | discriminate].
Qed.

Lemma count_app p (a b : list Call) :
  count p (a ++ b) = (count p a + count p b)%nat.
Proof. unfold count. rewrite filter_app, length_app. reflexivity. Qed.

Lemma count_cons p c (t : list Call) :
  count p (c :: t) = ((if p c then 1 else 0) + count p t)%nat.
Proof. unfold count. cbn. destruct (p c); reflexivity. Qed.

Lemma ext_count ok p t0 t :
  ext ok t0 t -> (forall c, ok c = true -> p c = false) ->
  count p t = count p t0.
Proof.
  intros (new & -> & Hf) Hd. rewrite count_app.
  assert (count p new = 0%nat) as ->; [|reflexivity].
  induction new as [|c new IH]; [reflexivity|].
  cbn in Hf. apply andb_true_iff in Hf as [Hc Hf].
  rewrite count_cons, (Hd c Hc), IH by assumption. reflexivity.
Qed.

Lemma same_config_refl p : same_config p p.
Proof. destruct p; reflexivity. Qed.

Lemma same_config_interactive p p' :
  same_config p p' -> interactive p' = interactive p.
Proof. intros H. rewrite <- H. reflexivity. Qed.

Lemma same_config_samples p p' :
  same_config p p' -> samples p' = samples p.
Proof. intros H. rewrite <- H. reflexivity. Qed.

Lemma frame_refl {W} m ok (st : @St W) : frame m ok st st.
Proof. constructor; auto using same_config_refl, ext_refl. Qed.

Lemma frame_interactive {W} m ok (st st' : @St W) :
  frame m ok st st' ->
  interactive (params (sess st')) = interactive (params (sess st)).
Proof. intros H. apply same_config_interactive, H. Qed.

Lemma frame_samples {W} m ok (st st' : @St W) :
  frame m ok st st' ->
  samples (params (sess st')) = samples (params (sess st)).
Proof. intros H. apply same_config_samples, H. Qed.

Lemma frame_scene_none {W} m ok (st st' : @St W) :
  frame m ok st st' ->
  scene (sess st') = None -> scene (sess st) = None.
Proof.
  intros H Hn. apply fr_scene in H. rewrite Hn in H.
  destruct (scene (sess st)); [discriminate | auto].
Qed.

Lemma frame_scene_some {W} m ok (st st' : @St W) sc :
  frame m ok st st' ->
  scene (sess st) = Some sc ->
  exists sc', scene (sess st') = Some sc' /\ scene_rest sc' = scene_rest sc.
Proof.
  intros H Hs. apply fr_scene in H. rewrite Hs in H.
  destruct (scene (sess st')) as [sc'|]; [|discriminate].
  exists sc'. split; [reflexivity|]. cbn in H. congruence.
Qed.

Lemma frame_count {W} m ok p (st st' : @St W) :
  frame m ok st st' -> (forall c, ok c = true -> p c = false) ->
  count p (trace st') = count p (trace st).
Proof. intros H. apply ext_count, H. Qed.

Lemma frame_trace_none {W} m (st st' : @St W) :
  frame m ok_none st st' -> trace st' = trace st.
Proof. intros H. apply ext_none, H. Qed.

(** A computation stays within the frame of any earlier state [st0], and
    it is defined unless [st0] has no scene. *)
Definition maintains {W} (m : Mode) (ok : Call -> bool) {A} (f : @M W A)
  : Prop :=
  forall st0 st, frame m ok st0 st ->
                 wpn (scene (sess st0) = None) f
                     (fun _ st' => frame m ok st0 st') st.

(** [ok c = true] for a given call [c]. *)
Ltac solve_ok :=
  first
    [ reflexivity
    | assumption
    | match goal with
      | H : sub_ok _ ?ok |- ?ok _ = true => apply H; reflexivity
      end ].

(** [sub_ok ok1 ok2], from the definitions or through a hypothesis. *)
Ltac solve_sub :=
  let c := fresh "c" in
  let Hc := fresh "Hc" in
  intros c Hc;
  try match goal with
      | H : sub_ok _ ?ok |- ?ok _ = true => apply H
      end;
  revert Hc; destruct c; cbn; intros; congruence.

(** Closes a goal [frame m ok st0 st'] where [st'] is an explicit update
    of a state [st] already known to be in the frame of [st0]; also the
    goal left by a null scene. *)
Ltac frame_leaf :=
  match goal with
  | H : frame ?s ?o ?a _ |- frame ?s' ?o' ?b _ =>
      unify s s'; unify o o'; unify a b;
      solve [ destruct H; constructor; unfold same_config in *; cbn in *;
              try assumption; try congruence; auto;
              try (intros; congruence);
              try (repeat (apply ext_cons; [ | solve_ok ]); assumption);
              match goal with
              | Hs : scene (sess ?x) = Some _,
                Hf : option_map _ (scene (sess ?x)) = _ |- _ =>
                  rewrite Hs in Hf; cbn in Hf; exact Hf
              end ]
  | Hn : scene (sess ?x) = None, H : frame _ _ ?a ?x
    |- scene (sess ?a) = None =>
      exact (frame_scene_none _ _ _ _ H Hn)
  end.

(** Steps over a call of a computation known to maintain the frame. *)
Ltac frame_call L :=
  cbv beta;
  match goal with
  | H : frame _ _ _ _ |- wpn _ (bind _ _) _ _ =>
      apply wpn_bind;
      eapply wpn_conseq;
      [ eapply L; [ .. | frame_leaf ];
        first [ assumption | reflexivity | solve_sub ]
      | intros; assumption
      | cbv beta; intros ]
  | H : frame _ _ _ _ |- wpn _ _ _ _ =>
      eapply wpn_conseq;
      [ eapply L; [ .. | frame_leaf ];
        first [ assumption | reflexivity | solve_sub ]
      | intros; assumption
      | cbv beta; intros ]
  end.

Section Frames.

Context {W : Type} (E : Collaborators W).

Lemma get_cancel_frame m ok :
  keeps_cancel m = false -> maintains m ok (get_cancel E).
Proof.
  intros Hm st0 st H. unfold get_cancel.
  repeat first [frame_leaf | wp_step].
Qed.

Lemma update_status_time_frame m ok show_pause show_done :
  maintains m ok (update_status_time E show_pause show_done).
Proof.
  intros st0 st H. unfold update_status_time.
  repeat first [frame_leaf | wp_step].
Qed.

Lemma cur_pass_id_frame m ok : maintains m ok (@cur_pass_id W).
Proof.
  intros st0 st H. unfold cur_pass_id.
  repeat first [frame_leaf | wp_step].
Qed.

Lemma server_downloadImageBuffer_frame m ok passId :
  keeps_stat m = false -> sub_ok ok_download ok ->
  maintains m ok (server_downloadImageBuffer E passId).
Proof.
  intros Hm Hok st0 st H. unfold server_downloadImageBuffer.
  repeat first [frame_leaf | wp_step].
Qed.

Ltac frame_calls0 :=
  first
    [ frame_call get_cancel_frame
    | frame_call cur_pass_id_frame
    | frame_call update_status_time_frame
    | frame_call server_downloadImageBuffer_frame ].

Lemma update_img_sample_frame m ok :
  keeps_stat m = false -> sub_ok ok_sample ok ->
  maintains m ok (update_img_sample E).
Proof.
  intros Hm Hok st0 st H. unfold update_img_sample.
  repeat first [frame_leaf | frame_calls0 | wp_step].
Qed.

Lemma update_render_buffer_tail_frame m ok :
  keeps_cancel m = false -> keeps_stat m = false -> sub_ok ok_sample ok ->
  maintains m ok (update_render_buffer_tail E).
Proof.
  intros Hc Hm Hok st0 st H. unfold update_render_buffer_tail.
  repeat first
    [ frame_leaf | frame_calls0 | frame_call update_img_sample_frame
    | wp_step ].
Qed.

Lemma update_render_buffer_frame m ok :
  keeps_cancel m = false -> keeps_stat m = false -> sub_ok ok_buffer ok ->
  maintains m ok (update_render_buffer E).
Proof.
  intros Hc Hm Hok st0 st H. unfold update_render_buffer.
  repeat first
    [ frame_leaf | frame_calls0 | frame_call update_img_sample_frame
    | frame_call update_render_buffer_tail_frame | wp_step ].
Qed.

Lemma update_scene_to_server_frame m ok f t :
  sub_ok ok_scene ok -> maintains m ok (update_scene_to_server E f t).
Proof.
  intros Hok st0 st H. unfold update_scene_to_server.
  repeat first [ frame_leaf | wp_step ].
Qed.

Lemma server_error_check_frame m ok :
  keeps_cancel m = false -> sub_ok ok_error ok ->
  maintains m ok (server_error_check E).
Proof.
  intros Hc Hok st0 st H. unfold server_error_check.
  repeat first [ frame_leaf | wp_step ].
Qed.

Ltac frame_calls :=
  first
    [ frame_calls0
    | frame_call update_img_sample_frame
    | frame_call update_render_buffer_frame
    | frame_call server_error_check_frame
    | frame_call update_scene_to_server_frame ].

Lemma render_pass_frame m ok bStarted is_done :
  keeps_cancel m = false -> keeps_stat m = false -> sub_ok ok_render ok ->
  maintains m ok (render_pass E bStarted is_done).
Proof.
  intros Hc Hm Hok st0 st H. unfold render_pass.
  repeat first [ frame_leaf | frame_calls | wp_step ].
Qed.

Lemma after_pause_block_frame m ok bStarted is_done :
  keeps_cancel m = false -> keeps_stat m = false -> sub_ok ok_render ok ->
  maintains m ok (after_pause_block E bStarted is_done).
Proof.
  intros Hc Hm Hok st0 st H. unfold after_pause_block.
  repeat first [ frame_leaf | frame_calls | frame_call render_pass_frame
               | wp_step ].
Qed.

Lemma pause_wait_enter_frame m ok bStarted is_done :
  sub_ok (is_PauseRender true) ok ->
  maintains m ok (pause_wait_enter E bStarted is_done).
Proof.
  intros Hok st0 st H. unfold pause_wait_enter.
  repeat first [ frame_leaf | wp_step ].
Qed.

Lemma pause_wait_resume_frame m ok bStarted is_done pause_start :
  keeps_clock m = false -> keeps_cancel m = false -> keeps_stat m = false ->
  sub_ok ok_worker ok ->
  maintains m ok (pause_wait_resume E bStarted is_done pause_start).
Proof.
  intros Hk Hc Hm Hok st0 st H. unfold pause_wait_resume.
  repeat first
    [ frame_leaf | frame_calls | frame_call after_pause_block_frame
    | frame_call pause_wait_enter_frame | wp_step ].
Qed.

Lemma loop_head_frame m ok bStarted is_done :
  keeps_cancel m = false -> keeps_stat m = false -> sub_ok ok_loop_head ok ->
  maintains m ok (loop_head E bStarted is_done).
Proof.
  intros Hc Hm Hok st0 st H. unfold loop_head.
  repeat first
    [ frame_leaf | frame_calls | frame_call render_pass_frame
    | frame_call after_pause_block_frame
    | frame_call pause_wait_enter_frame | wp_step ].
Qed.

Lemma worker_step_frame m ok pc0 :
  keeps_clock m = false -> keeps_cancel m = false -> keeps_stat m = false ->
  sub_ok ok_worker ok ->
  maintains m ok (worker_step E pc0).
Proof.
  intros Hk Hc Hm Hok st0 st H. unfold worker_step.
  repeat first
    [ frame_leaf | frame_call loop_head_frame
    | frame_call pause_wait_resume_frame | wp_step ].
Qed.

End Frames.

(** ** Buffer parameters *)

Lemma passes_eqb_eq (a b : list RenderPassId) :
  passes_eqb a b = true <-> a = b.
Proof.
  revert b. induction a as [|x a IH]; intros [|y b]; cbn;
    try (split; [discriminate | congruence]); [tauto|].
  rewrite andb_true_iff, Z.eqb_eq, IH. split.
  - intros [-> ->]. reflexivity.
  - intros H. inversion H. auto.
Qed.

Lemma modified_false_iff (a b : BufferParams) :
  modified a b = false <-> a = b.
Proof.
  unfold modified. rewrite negb_false_iff, !andb_true_iff, !Z.eqb_eq,
    passes_eqb_eq.
  destruct a, b; cbn. split.
  - intros [[-> ->] ->]. reflexivity.
  - intros H. inversion H. auto.
Qed.

Lemma modified_true_iff (a b : BufferParams) :
  modified a b = true <-> a <> b.
Proof.
  rewrite <- modified_false_iff. destruct (modified a b); split; congruence.
Qed.

Lemma modified_same (a : BufferParams) : modified a a = false.
Proof. apply modified_false_iff. reflexivity. Qed.

(** ** Comparing explicit states *)

Lemma Session_ext (s s' : Session) :
  params s = params s' -> display s = display s' -> scene s = scene s' ->
  b_session s = b_session s' -> progress s = progress s' ->
  start_time s = start_time s' -> reset_time s = reset_time s' ->
  paused_time s = paused_time s' ->
  display_outdated s = display_outdated s' -> pause s = pause s' ->
  pause_cond s = pause_cond s' -> pass_name s = pass_name s' ->
  frame_idx s = frame_idx s' -> total_frames s = total_frames s' ->
  s = s'.
Proof. destruct s, s'; cbn; intros; subst; reflexivity. Qed.

(** Closes a goal [a = a' /\ st = st'] between explicit states, using the
    case equations in the context. *)
Ltac rewrite_cases :=
  repeat match goal with
         | H : _ = _ |- _ => rewrite H
         end.

Ltac state_eq :=
  split; [ reflexivity | ];
  f_equal;
  repeat (progress (cbn; rewrite_cases));
  try reflexivity;
  try (apply Session_ext; cbn; rewrite_cases; reflexivity).

(** ** The controller's entry points *)

Section Controller.

Context {W : Type} (E : Collaborators W).

Lemma draw_mismatch bp (st : @St W) d :
  display (sess st) = Some d -> modified bp (db_params d) = true ->
  draw E bp st = Some (false, st).
Proof.
  intros Hd Hm. unfold draw, bind, get. rewrite Hd, Hm. reflexivity.
Qed.

Lemma draw_match bp (st : @St W) d :
  display (sess st) = Some d -> modified bp (db_params d) = false ->
  draw E bp st = DisplayBuffer_draw E st.
Proof.
  intros Hd Hm. unfold draw, bind, get. rewrite Hd, Hm. reflexivity.
Qed.

Lemma DisplayBuffer_draw_eq (st : @St W) :
  DisplayBuffer_draw E st
  = Some (fst (display_draw E (world st)),
          mkSt (sess st) (snd (display_draw E (world st)))
               (DisplayDraw :: trace st)).
Proof. reflexivity. Qed.

(** C3.  With a display buffer in place, [draw] answers "not ready"
    ([false]) whenever the requested parameters differ from the buffer's,
    whatever the world holds, and then nothing at all changes; when they
    agree it answers what the buffer's own draw step answers; in both
    cases the session object after the call is the one before it. *)
Theorem draw_checks_params_and_keeps_session :
  forall (bp : BufferParams) (st : @St W) (d : DisplayBuffer),
    display (sess st) = Some d ->
    (bp <> db_params d -> draw E bp st = Some (false, st))
    /\ (bp = db_params d ->
        draw E bp st = DisplayBuffer_draw E st
        /\ draw E bp st
           = Some (fst (display_draw E (world st)),
                   mkSt (sess st) (snd (display_draw E (world st)))
                        (DisplayDraw :: trace st)))
    /\ (forall r st', draw E bp st = Some (r, st') -> sess st' = sess st).
Proof.
  intros bp st d Hd. repeat split.
  - intros Hne. apply (draw_mismatch _ _ d); auto.
    apply modified_true_iff; auto.
  - apply (draw_match _ _ d); auto. apply modified_false_iff; auto.
  - rewrite (draw_match _ _ d); auto. apply modified_false_iff; auto.
  - intros r st' H. destruct (modified bp (db_params d)) eqn:Hm.
    + rewrite (draw_mismatch _ _ d) in H by auto. congruence.
    + rewrite (draw_match _ _ d), DisplayBuffer_draw_eq in H by auto.
      inversion H. reflexivity.
Qed.

(** What [reset_parameters] does to the display buffer. *)
Definition display_after_reset (bp : BufferParams) (o : option DisplayBuffer)
  : option DisplayBuffer :=
  match o with
  | Some d => if modified bp (db_params d)
              then Some {| db_params := bp |} else Some d
  | None => None
  end.

(** The world after the first lines of [reset] and [update]: the clock was
    read for [reset_time] and the display buffer reallocated if needed. *)
Definition world_after_display_reset (bp : BufferParams) (st : @St W) : W :=
  match display (sess st) with
  | Some d => if modified bp (db_params d)
              then react E (DisplayReset bp) (snd (time_dt E (world st)))
              else snd (time_dt E (world st))
  | None => snd (time_dt E (world st))
  end.

Definition trace_after_display_reset (bp : BufferParams) (st : @St W)
  : list Call :=
  match display (sess st) with
  | Some d => if modified bp (db_params d)
              then DisplayReset bp :: trace st else trace st
  | None => trace st
  end.

(** The session object both [reset] and [update] leave behind. *)
Definition session_after_update (bp : BufferParams) (st : @St W) : Session :=
  let now := fst (time_dt E (world_after_display_reset bp st)) in
  let s1 :=
    with_paused_time 0
      (with_start_time now
         (with_display (display_after_reset bp (display (sess st)))
            (with_reset_time (fst (time_dt E (world st)))
               (with_display_outdated true (sess st))))) in
  let s2 :=
    if interactive (params s1)
    then with_progress (progress_set_start_time (now + 0) (progress s1)) s1
    else s1 in
  with_pause_cond (S (pause_cond s2)) s2.

Lemma with_display_same (s : Session) : with_display (display s) s = s.
Proof. destruct s; reflexivity. Qed.

Lemma update_eq bp (st : @St W) :
  update E bp st
  = Some (tt, mkSt (session_after_update bp st)
                   (snd (time_dt E (world_after_display_reset bp st)))
                   (trace_after_display_reset bp st)).
Proof.
  apply twp_eq.
  unfold session_after_update, world_after_display_reset,
    trace_after_display_reset, display_after_reset.
  unfold update, reset_parameters, DisplayBuffer_reset.
  wp_steps; state_eq.
Qed.

Lemma reset_eq bp mb (st : @St W) sc :
  scene (sess st) = Some sc ->
  reset E bp mb st
  = Some (tt,
          mkSt (session_after_update bp st)
               (react E (ServerReset (export_scene (params (sess st)))
                                     (kernel_uiGPUs sc) mb
                                     (deep_image (params (sess st))))
                      (snd (time_dt E (world_after_display_reset bp st))))
               (ServerReset (export_scene (params (sess st)))
                            (kernel_uiGPUs sc) mb
                            (deep_image (params (sess st)))
                  :: trace_after_display_reset bp st)).
Proof.
  intros Hs.
  apply twp_eq.
  unfold session_after_update, world_after_display_reset,
    trace_after_display_reset, display_after_reset.
  unfold reset, reset_parameters, DisplayBuffer_reset.
  wp_steps; state_eq.
Qed.

Lemma session_after_update_display bp (st : @St W) :
  display (session_after_update bp st)
  = display_after_reset bp (display (sess st)).
Proof.
  unfold session_after_update. cbn.
  destruct (interactive (params (sess st))); reflexivity.
Qed.

Lemma display_after_reset_params bp d :
  exists d', display_after_reset bp (Some d) = Some d' /\ db_params d' = bp.
Proof.
  unfold display_after_reset. destruct (modified bp (db_params d)) eqn:Hm.
  - eexists; split; reflexivity.
  - exists d. split; [reflexivity|]. symmetry. apply modified_false_iff; auto.
Qed.

(** C6.  In a session that has a display buffer and a scene, [reset] with
    new buffer parameters completes, and a [draw] with the same parameters
    right after it finds the buffer declared with exactly these
    parameters: the comparison reports no mismatch and [draw] goes on to
    the buffer's own draw step. *)
Theorem draw_after_reset_sees_new_params :
  forall (bp : BufferParams) (mb : float) (st : @St W) d sc,
    display (sess st) = Some d ->
    scene (sess st) = Some sc ->
    exists st' d',
      reset E bp mb st = Some (tt, st')
      /\ display (sess st') = Some d'
      /\ db_params d' = bp
      /\ modified bp (db_params d') = false
      /\ draw E bp st' = DisplayBuffer_draw E st'.
Proof.
  intros bp mb st d sc Hd Hs.
  destruct (display_after_reset_params bp d) as (d' & Hd' & Hp).
  eexists; exists d'. split; [apply (reset_eq _ _ _ sc Hs)|].
  assert (Hdisp : display (session_after_update bp st) = Some d').
  { rewrite session_after_update_display, Hd. exact Hd'. }
  cbn [sess]. repeat split; auto.
  - rewrite Hp. apply modified_same.
  - apply (draw_match _ _ d'); cbn [sess]; auto.
    rewrite Hp. apply modified_same.
Qed.

(** C7.  With a scene attached, [update] and [reset] both complete and
    leave the same session object: display marked outdated, reset time
    read from the clock, start time read from the clock again, paused time
    zero, display buffer redeclared when the parameters changed, one
    broadcast on the condition variable.  The only difference is the
    engine client's reset, which [reset] calls with the export mode, the
    GPU mask, the sampling hint and the deep-image flag, and [update] does
    not call. *)
Theorem update_is_reset_without_engine_reset :
  forall (bp : BufferParams) (mb : float) (st : @St W) sc,
    scene (sess st) = Some sc ->
    exists su sr,
      update E bp st = Some (tt, su)
      /\ reset E bp mb st = Some (tt, sr)
      /\ sess sr = sess su
      /\ trace sr
         = ServerReset (export_scene (params (sess st))) (kernel_uiGPUs sc)
                       mb (deep_image (params (sess st))) :: trace su
      /\ world sr
         = react E (ServerReset (export_scene (params (sess st)))
                                (kernel_uiGPUs sc) mb
                                (deep_image (params (sess st))))
                 (world su)
      /\ count is_ServerReset (trace su) = count is_ServerReset (trace st)
      /\ display_outdated (sess su) = true
      /\ reset_time (sess su) = fst (time_dt E (world st))
      /\ start_time (sess su)
         = fst (time_dt E (world_after_display_reset bp st))
      /\ paused_time (sess su) = 0
      /\ display (sess su) = display_after_reset bp (display (sess st))
      /\ pause_cond (sess su) = S (pause_cond (sess st)).
Proof.
  intros bp mb st sc Hs.
  do 2 eexists. split; [apply update_eq|].
  split; [apply (reset_eq _ _ _ sc Hs)|].
  cbn [sess trace world].
  repeat split.
  - unfold trace_after_display_reset.
    destruct (display (sess st)) as [d|]; [|reflexivity].
    destruct (modified bp (db_params d)); reflexivity.
  - unfold session_after_update; cbn.
    destruct (interactive (params (sess st))); reflexivity.
  - unfold session_after_update; cbn.
    destruct (interactive (params (sess st))); reflexivity.
  - unfold session_after_update; cbn.
    destruct (interactive (params (sess st))); reflexivity.
  - unfold session_after_update; cbn.
    destruct (interactive (params (sess st))); reflexivity.
  - apply session_after_update_display.
  - unfold session_after_update; cbn.
    destruct (interactive (params (sess st))); reflexivity.
Qed.

End Controller.

(** ** Cancellation and the buffer refresh *)

(** Steps over a call with a proved specification [L]. *)
Ltac wp_call L :=
  cbv beta iota; cbn [sess world trace];
  lazymatch goal with
  | |- wpn _ (bind _ _) _ _ => apply wpn_bind
  | _ => idtac
  end;
  eapply wpn_conseq; [ simple eapply L | try tauto | cbv beta ].

(** Finishes a goal about the trace from the equations collected along
    the way. *)
Ltac finish_traces :=
  intros;
  repeat match goal with
         | H : ?P -> _, H' : ?P |- _ => specialize (H H')
         | H : false = false -> _ |- _ => specialize (H eq_refl)
         end;
  repeat match goal with
         | H : trace _ = _ |- _ => rewrite H; clear H; cbn [trace]
         end;
  rewrite ?count_cons; cbn; solve [ reflexivity | congruence ].

(** Closes a branch whose tests contradict each other. *)
Ltac absurd_branch :=
  exfalso;
  repeat match goal with
         | H : false = false -> _ |- _ => specialize (H eq_refl)
         | H : sess _ = _ |- _ => rewrite H in *; clear H
         end;
  cbn in *;
  try match goal with
      | H : negb ?x = true, H' : ?x = true |- _ => rewrite H' in H
      | H : negb ?x = false, H' : ?x = false |- _ => rewrite H' in H
      end;
  cbn in *; congruence.

Section Cancellation.

Context {W : Type} (E : Collaborators W).

Lemma maintains_wp m ok {A} (f : @M W A) :
  maintains m ok f ->
  forall st, wp f (fun _ st' => frame m ok st st') st.
Proof.
  intros H st. eapply wpn_conseq; [apply (H st st), frame_refl | auto | auto].
Qed.

Lemma maintains_twp m ok {A} (f : @M W A) :
  maintains m ok f ->
  forall st, scene (sess st) <> None ->
             twp f (fun _ st' => frame m ok st st') st.
Proof.
  intros H st Hs.
  eapply wpn_conseq; [apply (H st st), frame_refl | auto | auto].
Qed.

Lemma get_cancel_set (st : @St W) :
  cancel (progress (sess st)) = true -> get_cancel E st = Some (true, st).
Proof.
  intros H. apply twp_eq. unfold get_cancel. wp_steps.
  split; [reflexivity | destruct st; reflexivity].
Qed.

Lemma get_cancel_quiet (st : @St W) :
  cancel (progress (sess st)) = false ->
  fst (poll_cancel E (world st)) = None ->
  get_cancel E st
  = Some (false, mkSt (sess st) (snd (poll_cancel E (world st))) (trace st)).
Proof.
  intros H Hp. apply twp_eq. unfold get_cancel. wp_steps. auto.
Qed.

Lemma get_cancel_arrives (st : @St W) msg :
  cancel (progress (sess st)) = false ->
  fst (poll_cancel E (world st)) = Some msg ->
  get_cancel E st
  = Some (true,
          mkSt (with_progress (progress_set_cancel msg (progress (sess st)))
                              (sess st))
               (snd (poll_cancel E (world st))) (trace st)).
Proof.
  intros H Hp. apply twp_eq. unfold get_cancel. wp_steps. auto.
Qed.

(** What [get_cancel] returns is the flag it leaves behind; it never
    touches the trace, and a negative answer leaves the session as it
    was. *)
Lemma get_cancel_result (st : @St W) :
  twp (get_cancel E)
      (fun c st' => cancel (progress (sess st')) = c
                    /\ trace st' = trace st
                    /\ (c = false -> sess st' = sess st)) st.
Proof.
  unfold get_cancel. wp_steps; cbn; repeat split; auto; discriminate.
Qed.

Definition quiet_mode : Mode :=
  {| keeps_clock := true; keeps_cancel := true; keeps_stat := false |}.

(** The tail of [update_render_buffer]: when cancellation is visible at
    its check, the host is not notified. *)
Lemma update_render_buffer_tail_cancel (st : @St W) :
  wp (update_render_buffer_tail E)
     (fun _ st' => cancel (progress (sess st')) = true ->
                   trace st' = trace st) st.
Proof.
  unfold update_render_buffer_tail.
  wp_call get_cancel_result. intros c st1 (Hc & Ht & Hs).
  wp_steps; try congruence.
  wp_call (maintains_wp quiet_mode ok_sample (update_img_sample E)).
  - apply update_img_sample_frame; [reflexivity | intros c0 Hc0; exact Hc0].
  - intros _ st2 Hf Hc2. apply fr_cancel_same in Hf; [|reflexivity].
    congruence.
Qed.

Lemma update_render_buffer_no_notice_if_cancelled (st : @St W) :
  wp (update_render_buffer E)
     (fun _ st' => cancel (progress (sess st')) = true ->
                   count is_UpdateRenderImg (trace st')
                   = count is_UpdateRenderImg (trace st)) st.
Proof.
  unfold update_render_buffer, cur_pass_id, server_downloadImageBuffer.
  repeat first
    [ wp_call get_cancel_result; intros ? ? (? & ? & ?)
    | wp_call update_render_buffer_tail_cancel; intros ? ? ?
    | wp_step ].
  all: cbn [sess world trace] in *.
  all: first [ finish_traces | absurd_branch ].
Qed.

End Cancellation.

Section CancellationClaims.

Context {W : Type} (E : Collaborators W).

(** C10.  [update_render_buffer] called with cancellation already
    requested returns at once and leaves everything as it was: no
    [downloadImageBuffer], no host notification, same statistics.  The
    flag is looked at again after the download step: in an offline session
    where the request arrives between the two looks, the call returns with
    the request recorded and nothing else done.  And in any call that
    ends with cancellation requested, the host was not notified. *)
Theorem update_render_buffer_honours_cancel :
  forall (st : @St W),
    (cancel (progress (sess st)) = true ->
     update_render_buffer E st = Some (tt, st))
    /\ (forall msg sc,
          cancel (progress (sess st)) = false ->
          interactive (params (sess st)) = false ->
          scene (sess st) = Some sc ->
          fst (poll_cancel E (world st)) = None ->
          fst (poll_cancel E (snd (poll_cancel E (world st)))) = Some msg ->
          update_render_buffer E st
          = Some (tt,
                  mkSt (with_progress
                          (progress_set_cancel msg (progress (sess st)))
                          (sess st))
                       (snd (poll_cancel E (snd (poll_cancel E (world st)))))
                       (trace st)))
    /\ (forall r st',
          update_render_buffer E st = Some (r, st') ->
          cancel (progress (sess st')) = true ->
          count is_UpdateRenderImg (trace st')
          = count is_UpdateRenderImg (trace st)).
Proof.
  intros st. repeat split.
  - intros Hc. unfold update_render_buffer, bind.
    rewrite (get_cancel_set E st Hc). reflexivity.
  - intros msg sc Hc Hi Hs Hp1 Hp2.
    apply twp_eq.
    unfold update_render_buffer, update_render_buffer_tail, cur_pass_id,
      get_cancel.
    wp_steps. auto.
  - intros r st' Hr Hc.
    exact (wpn_elim _ _ _ _ _ _
             (update_render_buffer_no_notice_if_cancelled E st) Hr Hc).
Qed.

(** Whether the session has a display buffer. *)
Definition has_display (s : Session) : bool :=
  match display s with Some _ => true | None => false end.

Lemma draw_undefined_iff bp (st : @St W) :
  draw E bp st = None <-> display (sess st) = None.
Proof.
  unfold draw, bind, get. destruct (display (sess st)) as [d|].
  - split; [|discriminate].
    destruct (negb (modified bp (db_params d))); discriminate.
  - split; reflexivity.
Qed.

Ltac display_leaf :=
  unfold has_display; cbn; rewrite_cases; reflexivity.

Lemma reset_has_display bp mb (st : @St W) :
  wp (reset E bp mb)
     (fun _ st' => has_display (sess st') = has_display (sess st)) st.
Proof.
  unfold reset, reset_parameters, DisplayBuffer_reset.
  wp_steps; display_leaf.
Qed.

Lemma update_has_display bp (st : @St W) :
  wp (update E bp)
     (fun _ st' => has_display (sess st') = has_display (sess st)) st.
Proof.
  unfold update, reset_parameters, DisplayBuffer_reset.
  wp_steps; display_leaf.
Qed.

Definition loose_mode : Mode :=
  {| keeps_clock := false; keeps_cancel := false; keeps_stat := false |}.

Lemma worker_step_loose pc0 (st : @St W) :
  wp (worker_step E pc0) (fun _ st' => frame loose_mode ok_worker st st') st.
Proof.
  apply maintains_wp, worker_step_frame; try reflexivity.
  intros c Hc; exact Hc.
Qed.

Lemma set_pause_has_display b (st : @St W) :
  wp (set_pause b)
     (fun _ st' => has_display (sess st') = has_display (sess st)) st.
Proof.
  unfold set_pause, set_pause_locked, set_pause_notify.
  wp_steps; display_leaf.
Qed.

Lemma set_samples_has_display n (st : @St W) :
  wp (set_samples n)
     (fun _ st' => has_display (sess st') = has_display (sess st)) st.
Proof. unfold set_samples. wp_steps; display_leaf. Qed.

Lemma destroy_request_has_display (st : @St W) :
  wp destroy_request
     (fun _ st' => has_display (sess st') = has_display (sess st)) st.
Proof. unfold destroy_request. wp_steps; display_leaf. Qed.

Lemma controller_has_display (m : M unit) (y y' : @Sys W) :
  wp m (fun _ st' => has_display (sess st') = has_display (sess (st y)))
     (st y) ->
  controller m y = Some y' ->
  has_display (sess (st y')) = has_display (sess (st y)).
Proof.
  unfold controller, wpn. destruct (m (st y)) as [[u st']|]; [|discriminate].
  intros H [= <-]. exact H.
Qed.

Lemma sys_step_has_display a (y y' : @Sys W) :
  sys_step E a y = Some y' ->
  has_display (sess (st y')) = has_display (sess (st y)).
Proof.
  destruct a; cbn [sys_step].
  - destruct (worker_step E (pc y) (st y)) as [[pc' st']|] eqn:Hw;
      [|discriminate].
    intros [= <-]. cbn.
    pose proof (wpn_elim _ _ _ _ _ _ (worker_step_loose (pc y) (st y)) Hw)
      as Hf.
    unfold has_display. rewrite (fr_display _ _ _ _ Hf). reflexivity.
  - apply controller_has_display, set_pause_has_display.
  - apply controller_has_display, set_samples_has_display.
  - apply controller_has_display, reset_has_display.
  - apply controller_has_display, update_has_display.
  - apply controller_has_display, destroy_request_has_display.
Qed.

Lemma exec_has_display sched (y y' : @Sys W) :
  exec E sched y = Some y' ->
  has_display (sess (st y')) = has_display (sess (st y)).
Proof.
  revert y. induction sched as [|a sched IH]; intros y; cbn.
  - intros [= <-]. reflexivity.
  - destruct (sys_step E a y) as [y1|] eqn:H1; [|discriminate].
    intros H. rewrite (IH _ H). apply (sys_step_has_display a); assumption.
Qed.

(** C9.  The constructor leaves the display buffer null exactly when the
    session is not interactive; [draw] dereferences it, so [draw] is
    undefined exactly when it is null; and no call of the controller or
    slot of the worker turns a null display buffer into an allocated one
    or back.  Hence, after any history, [draw] is defined on a session
    exactly when it was constructed interactive. *)
Theorem draw_defined_iff_constructed_interactive :
  forall (p : SessionParams) (fresh : DisplayBuffer)
         (sched : list Action) (y y' : @Sys W) (bp : BufferParams),
    display (sess (st y)) = display (Session_new p fresh) ->
    exec E sched y = Some y' ->
    (display (Session_new p fresh) = None <-> interactive p = false)
    /\ (draw E bp (st y') = None <-> display (sess (st y')) = None)
    /\ (draw E bp (st y') = None <-> interactive p = false).
Proof.
  intros p fresh sched y y' bp Hd Hx.
  assert (Hnew : display (Session_new p fresh) = None
                 <-> interactive p = false).
  { cbn. destruct (interactive p); cbn; split; congruence. }
  split; [exact Hnew|]. split; [apply draw_undefined_iff|].
  rewrite draw_undefined_iff, <- Hnew, <- Hd.
  pose proof (exec_has_display _ _ _ Hx) as Hh. unfold has_display in Hh.
  destruct (display (sess (st y'))), (display (sess (st y)));
    split; congruence.
Qed.

End CancellationClaims.

(** ** Leaving the loop *)

Section LoopExit.

Context {W : Type} (E : Collaborators W).

Lemma wp_trivial {A} (m : @M W A) st : wp m (fun _ _ => True) st.
Proof. unfold wpn. destruct (m st) as [[a st']|]; exact I. Qed.

Definition strict_mode : Mode :=
  {| keeps_clock := true; keeps_cancel := true; keeps_stat := true |}.

Definition stat_mode : Mode :=
  {| keeps_clock := true; keeps_cancel := false; keeps_stat := true |}.

(** With cancellation requested, the loop test fails and nothing else
    happens. *)
Lemma loop_head_cancelled bStarted is_done (st : @St W) :
  cancel (progress (sess st)) = true ->
  loop_head E bStarted is_done st = Some (Returned, st).
Proof.
  intros Hc. unfold loop_head, bind. rewrite (get_cancel_set E st Hc).
  reflexivity.
Qed.

(** The offline exit: the loop is left from its head, with no call to any
    collaborator; unless cancellation came in, the status names the pass
    as finished. *)
Lemma offline_exit bStarted (st : @St W) :
  interactive (params (sess st)) = false ->
  twp (loop_head E bStarted true)
      (fun pc' st' =>
         pc' = Returned
         /\ frame stat_mode ok_none st st'
         /\ (cancel (progress (sess st')) = false ->
             status (progress (sess st'))
             = (pass_name (sess st) ++ " finished")%string)) st.
Proof.
  intros Hi. unfold loop_head, get_cancel, update_status_time.
  pose proof (frame_refl stat_mode ok_none st) as Hf.
  wp_steps; (split; [reflexivity|]); (split; [frame_leaf|]); cbn;
    intros; try congruence; auto.
Qed.

(** The flag carried to the next loop test is the done predicate of the
    state the pass ends in. *)
Lemma render_pass_sets_is_done bStarted is_done (st : @St W) :
  wp (render_pass E bStarted is_done)
     (fun pc' st' => forall b' d', pc' = AtLoopHead b' d' ->
                                   d' = done_now (sess st')) st.
Proof.
  unfold render_pass.
  repeat first [ wp_step | wp_call (@wp_trivial); intros ? ? _ ];
    intros b' d' [=]; subst; reflexivity.
Qed.

(** The world after the queries of [update_status_time]: the connection
    check, and the fail reason and server address when it fails. *)
Definition status_world (w : W) : W :=
  if fst (checkServerConnection E w)
  then snd (checkServerConnection E w)
  else snd (sNetAddress E
              (snd (getFailReason E (snd (checkServerConnection E w))))).

(** The offline exit, exactly: the session is as it was except for the
    status text, the trace is as it was, and the world has answered the
    cancellation poll and the queries of [update_status_time]. *)
Lemma offline_exit_exact bStarted (st : @St W) :
  interactive (params (sess st)) = false ->
  cancel (progress (sess st)) = false ->
  fst (poll_cancel E (world st)) = None ->
  loop_head E bStarted true st
  = Some (Returned,
          mkSt (with_progress
                  (progress_set_status
                     (pass_name (sess st) ++ " finished")%string EmptyString
                     (progress (sess st)))
                  (sess st))
               (status_world (snd (poll_cancel E (world st))))
               (trace st)).
Proof.
  intros Hi Hc Hp. apply twp_eq.
  unfold loop_head, get_cancel, update_status_time, status_world.
  wp_steps; state_eq.
Qed.

(** C1 (amended).  In an offline session, once the done predicate has been
    found to hold at the end of an iteration, the loop makes no further
    buffer refresh: the next pass through the loop head leaves the loop,
    with no [startRender] and nothing else added to the trace, and the
    statistics as they were.  When cancellation is neither requested nor
    arriving, the state it stops in is exactly the one it had, with the
    status "<pass> finished" and a world that has answered the
    cancellation poll and the queries of [update_status_time]
    ([checkServerConnection], and the fail reason and server address if
    the connection is down); when cancellation was requested before,
    nothing changes at all.  The flag that decides this is the done
    predicate evaluated at the end of the render pass. *)
Theorem offline_done_stops_without_refresh :
  forall (bStarted : bool) (st : @St W),
    interactive (params (sess st)) = false ->
    (exists st',
        worker_step E (AtLoopHead bStarted true) st = Some (Returned, st')
        /\ trace st' = trace st
        /\ count is_RefreshBuffer (trace st') = count is_RefreshBuffer (trace st)
        /\ count is_StartRender (trace st') = count is_StartRender (trace st)
        /\ image_stat (params (sess st')) = image_stat (params (sess st))
        /\ (cancel (progress (sess st')) = false ->
            status (progress (sess st'))
            = (pass_name (sess st) ++ " finished")%string))
    /\ (cancel (progress (sess st)) = false ->
        fst (poll_cancel E (world st)) = None ->
        worker_step E (AtLoopHead bStarted true) st
        = Some (Returned,
                mkSt (with_progress
                        (progress_set_status
                           (pass_name (sess st) ++ " finished")%string
                           EmptyString (progress (sess st)))
                        (sess st))
                     (status_world (snd (poll_cancel E (world st))))
                     (trace st)))
    /\ (cancel (progress (sess st)) = true ->
        worker_step E (AtLoopHead bStarted true) st = Some (Returned, st))
    /\ (forall b d st0 b' d' st1,
          render_pass E b d st0 = Some (AtLoopHead b' d', st1) ->
          d' = done_now (sess st1)).
Proof.
  intros b st Hi. split; [|split; [|split]].
  - destruct (twp_elim _ _ _ (offline_exit b st Hi))
      as (pc' & st' & Hr & -> & Hf & Hs).
    exists st'. cbn [worker_step]. split; [exact Hr|].
    pose proof (frame_trace_none _ _ _ Hf) as Ht. cbn in Ht.
    split; [exact Ht|]. rewrite Ht. repeat split.
    + apply fr_stat in Hf; [exact Hf | reflexivity].
    + intros Hc. apply Hs, Hc.
  - intros Hc Hp. cbn [worker_step]. apply offline_exit_exact; assumption.
  - intros Hc. cbn [worker_step]. apply loop_head_cancelled, Hc.
  - intros b0 d st0 b' d' st1 Hr.
    exact (wpn_elim _ _ _ _ _ _ (render_pass_sets_is_done b0 d st0) Hr
             b' d' eq_refl).
Qed.

End LoopExit.

(** ** Pausing *)

(** Assumptions on the world used for runs that are expected to go
    through: nobody requests cancellation, the engine client reports no
    error, every notification of the host brings at least one more
    sample. *)
Definition never_cancels {W} (E : Collaborators W) : Prop :=
  forall w, fst (poll_cancel E w) = None.

Definition never_fails {W} (E : Collaborators W) : Prop :=
  forall w, fst (getServerErrorMessage E w) = EmptyString.

Definition host_delivers {W} (E : Collaborators W) : Prop :=
  forall i w, uiCurSamples i < uiCurSamples (fst (update_render_img E i w)).

Section Pause.

Context {W : Type} (E : Collaborators W).

Lemma set_pause_same flag (st : @St W) :
  pause (sess st) = flag -> set_pause flag st = Some (tt, st).
Proof.
  intros H. unfold set_pause, set_pause_locked, set_pause_notify, bind, get,
    modify, notify_all, ret.
  rewrite H, Bool.eqb_reflx. destruct st; reflexivity.
Qed.

Lemma set_pause_changes flag (st : @St W) :
  pause (sess st) <> flag ->
  set_pause flag st
  = Some (tt, mkSt (with_pause_cond (S (pause_cond (sess st)))
                                    (with_pause flag (sess st)))
                   (world st) (trace st)).
Proof.
  intros H. unfold set_pause, set_pause_locked, set_pause_notify, bind, get,
    modify, notify_all, ret.
  destruct (Bool.eqb (pause (sess st)) flag) eqn:He.
  - apply Bool.eqb_prop in He. contradiction.
  - reflexivity.
Qed.

(** The worker is asleep in the wait and no broadcast has come since. *)
Definition asleep (y : @Sys W) : Prop :=
  exists b d t, pc y = InPauseWait b d t (pause_cond (sess (st y))).

Lemma worker_step_asleep (y : @Sys W) :
  asleep y -> sys_step E Worker y = Some y.
Proof.
  intros (b & d & t & Hpc). cbn. rewrite Hpc. unfold worker_step, bind, get.
  rewrite Nat.eqb_refl. destruct y; cbn in *. subst. reflexivity.
Qed.

(** An interactive loop that finds [pause] set tells the engine client to
    pause, once, and goes to sleep. *)
Lemma pause_entry b d (st : @St W) :
  never_cancels E ->
  interactive (params (sess st)) = true ->
  pause (sess st) = true ->
  cancel (progress (sess st)) = false ->
  twp (loop_head E b d)
      (fun pc' st' =>
         (exists t, pc' = InPauseWait b d t (pause_cond (sess st')))
         /\ frame strict_mode (is_PauseRender true) st st'
         /\ trace st' = PauseRender true :: trace st) st.
Proof.
  intros Hn Hi Hp Hc. unfold never_cancels in Hn.
  unfold loop_head, get_cancel, update_status_time, pause_wait_enter.
  pose proof (frame_refl strict_mode (is_PauseRender true) st) as Hf.
  wp_steps;
    (split; [eexists; reflexivity|]); (split; [frame_leaf | reflexivity]).
Qed.

(** The state of affairs while the controller keeps saying "pause":
    either the worker has not looked yet, or it has told the engine client
    once and sleeps. *)
Definition pausing (any0 true0 cond0 : nat) (y : @Sys W) : Prop :=
  interactive (params (sess (st y))) = true
  /\ pause (sess (st y)) = true
  /\ cancel (progress (sess (st y))) = false
  /\ pause_cond (sess (st y)) = cond0
  /\ ((exists b d, pc y = AtLoopHead b d)
      /\ count is_any_PauseRender (trace (st y)) = any0
      /\ count (is_PauseRender true) (trace (st y)) = true0
      \/ asleep y
         /\ count is_any_PauseRender (trace (st y)) = S any0
         /\ count (is_PauseRender true) (trace (st y)) = S true0).

Definition slept (any0 true0 cond0 : nat) (y : @Sys W) : Prop :=
  pausing any0 true0 cond0 y /\ asleep y.

Lemma pausing_worker any0 true0 cond0 (y : @Sys W) :
  never_cancels E ->
  pausing any0 true0 cond0 y ->
  exists y', sys_step E Worker y = Some y' /\ slept any0 true0 cond0 y'.
Proof.
  intros Hn (Hi & Hp & Hc & Hk & [((b & d & Hpc) & Ha & Ht) | (Hs & Ha & Ht)]).
  - destruct (twp_elim _ _ _ (pause_entry b d (st y) Hn Hi Hp Hc))
      as (pc' & st' & Hr & (t & ->) & Hf & Htr).
    exists (mkSys (InPauseWait b d t (pause_cond (sess st'))) st').
    cbn. rewrite Hpc. cbn. rewrite Hr. split; [reflexivity|].
    assert (Hs : asleep (mkSys (InPauseWait b d t (pause_cond (sess st')))
                               st'))
      by (exists b, d, t; reflexivity).
    split; [|exact Hs]. unfold pausing; cbn [st].
    split; [rewrite (frame_interactive _ _ _ _ Hf); exact Hi|].
    split; [rewrite (fr_pause _ _ _ _ Hf); exact Hp|].
    split; [rewrite (fr_cancel_same _ _ _ _ Hf eq_refl); exact Hc|].
    split; [rewrite (fr_pause_cond _ _ _ _ Hf); exact Hk|].
    right. split; [exact Hs|].
    rewrite Htr, !count_cons. cbn. rewrite Ha, Ht. auto.
  - exists y. split; [apply worker_step_asleep, Hs|].
    split; [|exact Hs]. unfold pausing. repeat split; auto.
Qed.

Lemma pausing_set_pause any0 true0 cond0 (y : @Sys W) :
  pausing any0 true0 cond0 y ->
  sys_step E (CallSetPause true) y = Some y.
Proof.
  intros (Hi & Hp & _). cbn. unfold controller.
  rewrite (set_pause_same true (st y) Hp). destruct y; reflexivity.
Qed.

Lemma slept_run any0 true0 cond0 sched (y : @Sys W) :
  Forall (fun a => a = Worker \/ a = CallSetPause true) sched ->
  slept any0 true0 cond0 y ->
  exec E sched y = Some y.
Proof.
  intros Hall [Hy Hs].
  induction Hall as [|a sched [-> | ->] Hall IH]; cbn [exec].
  - reflexivity.
  - rewrite (worker_step_asleep y Hs). exact IH.
  - rewrite (pausing_set_pause _ _ _ y Hy). exact IH.
Qed.

Lemma pausing_run any0 true0 cond0 sched (y : @Sys W) :
  never_cancels E ->
  Forall (fun a => a = Worker \/ a = CallSetPause true) sched ->
  pausing any0 true0 cond0 y ->
  exists y', exec E sched y = Some y'
             /\ pausing any0 true0 cond0 y'
             /\ (In Worker sched -> asleep y').
Proof.
  intros Hn Hall. revert y.
  induction Hall as [|a sched [-> | ->] Hall IH]; intros y Hy.
  - exists y. cbn. split; [reflexivity|]. split; [exact Hy|]. intros [].
  - destruct (pausing_worker _ _ _ y Hn Hy) as (y1 & H1 & Hy1).
    exists y1. cbn [exec]. rewrite H1.
    split; [apply (slept_run _ _ _ sched y1 Hall Hy1)|].
    split; [apply Hy1 | intros _; apply Hy1].
  - destruct (IH y Hy) as (y' & Hx & Hy' & Hin).
    exists y'. cbn [exec]. rewrite (pausing_set_pause _ _ _ y Hy).
    split; [exact Hx|]. split; [exact Hy'|].
    intros [H | H]; [discriminate | auto].
Qed.

(** C4 (amended).  [set_pause(flag)] with [flag] equal to the current
    pause state changes nothing and broadcasts nothing, in every state;
    with a different [flag] it stores it and broadcasts once.  In an
    interactive session whose loop is at its head, not paused and not
    cancelled, [set_pause(true)] followed by any interleaving of worker
    slots and further [set_pause(true)] calls, each call running to
    completion between two slots, with at least one worker slot, ends
    with exactly one more [pauseRender] call to the engine client (a
    [pauseRender(true)]) and exactly one more broadcast. *)
Theorem set_pause_acts_only_on_change :
  forall (flag : bool) (y : @Sys W) b d (sched : list Action),
    never_cancels E ->
    pc y = AtLoopHead b d ->
    interactive (params (sess (st y))) = true ->
    pause (sess (st y)) = false ->
    cancel (progress (sess (st y))) = false ->
    Forall (fun a => a = Worker \/ a = CallSetPause true) sched ->
    In Worker sched ->
    (forall st0 : @St W,
        (pause (sess st0) = flag -> set_pause flag st0 = Some (tt, st0))
        /\ (pause (sess st0) <> flag ->
            set_pause flag st0
            = Some (tt, mkSt (with_pause_cond (S (pause_cond (sess st0)))
                                              (with_pause flag (sess st0)))
                             (world st0) (trace st0))))
    /\ exists y',
        exec E (CallSetPause true :: sched) y = Some y'
        /\ count is_any_PauseRender (trace (st y'))
           = S (count is_any_PauseRender (trace (st y)))
        /\ count (is_PauseRender true) (trace (st y'))
           = S (count (is_PauseRender true) (trace (st y)))
        /\ pause (sess (st y')) = true
        /\ pause_cond (sess (st y')) = S (pause_cond (sess (st y))).
Proof.
  intros flag y b d sched Hn Hpc Hi Hp Hc Hall Hin. split.
  - intros st0. split; [apply set_pause_same | apply set_pause_changes].
  - set (y1 := mkSys (pc y)
                     (mkSt (with_pause_cond (S (pause_cond (sess (st y))))
                                            (with_pause true (sess (st y))))
                           (world (st y)) (trace (st y)))).
    assert (H1 : sys_step E (CallSetPause true) y = Some y1).
    { cbn. unfold controller. rewrite set_pause_changes; [reflexivity|].
      rewrite Hp. discriminate. }
    assert (Hy1 : pausing (count is_any_PauseRender (trace (st y)))
                          (count (is_PauseRender true) (trace (st y)))
                          (S (pause_cond (sess (st y)))) y1).
    { unfold pausing, y1; cbn. repeat split; auto.
      left. repeat split; eauto. }
    destruct (pausing_run _ _ _ sched y1 Hn Hall Hy1)
      as (y' & Hx & (_ & Hp' & _ & Hk' & Hcase) & Hs).
    exists y'. cbn [exec]. rewrite H1. split; [exact Hx|].
    destruct Hcase as [((b' & d' & Hpc') & _) | (_ & Ha & Ht)].
    + destruct (Hs Hin) as (b2 & d2 & t2 & Hpc2). congruence.
    + auto.
Qed.

End Pause.

(** ** Resuming *)

Section Resume.

Context {W : Type} (E : Collaborators W).

Definition clock_mode : Mode :=
  {| keeps_clock := true; keeps_cancel := false; keeps_stat := false |}.

Lemma ok_render_no_pause b c : ok_render c = true -> is_PauseRender b c = false.
Proof. destruct c; cbn; congruence. Qed.

Lemma ok_loop_head_no_resume c :
  ok_loop_head c = true -> is_PauseRender false c = false.
Proof. destruct c as [| [] | | | | | | | | | | |]; cbn; congruence. Qed.

(** The computations below the pause block end at the loop head or out of
    the loop, never in the wait. *)
Definition not_waiting (p : WorkerPC) : Prop :=
  match p with InPauseWait _ _ _ _ => False | _ => True end.

Lemma render_pass_not_waiting b d (st : @St W) :
  wp (render_pass E b d) (fun pc' _ => not_waiting pc') st.
Proof.
  unfold render_pass.
  repeat first [ wp_step | wp_call (@wp_trivial); intros ? ? _ ]; exact I.
Qed.

Lemma after_pause_block_not_waiting b d (st : @St W) :
  wp (after_pause_block E b d) (fun pc' _ => not_waiting pc') st.
Proof.
  unfold after_pause_block.
  wp_call (@wp_trivial). intros c st' _.
  wp_step; [ wp_step; exact I | apply render_pass_not_waiting ].
Qed.

(** Waking up with [pause] cleared: the time slept is added to
    [paused_time], the engine client is told to resume, once, and the loop
    goes on below the pause block. *)
Lemma pause_wait_resume_cleared b d t0 (st : @St W) :
  pause (sess st) = false ->
  wpn (scene (sess st) = None) (pause_wait_resume E b d t0)
      (fun pc' st' =>
         paused_time (sess st')
         = paused_time (sess st) + (fst (time_dt E (world st)) - t0)
         /\ prog_start_time (progress (sess st'))
            = start_time (sess st) + paused_time (sess st')
         /\ pause (sess st') = false
         /\ count (is_PauseRender false) (trace st')
            = S (count (is_PauseRender false) (trace st))
         /\ count (is_PauseRender true) (trace st')
            = count (is_PauseRender true) (trace st)
         /\ not_waiting pc') st.
Proof.
  intros Hp. unfold pause_wait_resume, update_status_time.
  wp_steps.
  all: eapply wpn_conseq;
    [ eapply wpn_and;
      [ eapply (after_pause_block_frame E clock_mode ok_render);
        [ reflexivity | reflexivity | intros c Hc; exact Hc
        | apply frame_refl ]
      | apply after_pause_block_not_waiting ]
    | cbn; auto
    | cbv beta ].
  all: intros pc' st' [Hf Hw]; cbn [sess world trace] in Hf.
  all: pose proof (fr_paused_time _ _ _ _ Hf eq_refl) as H1;
    pose proof (fr_prog_start_time _ _ _ _ Hf eq_refl) as H2;
    pose proof (fr_pause _ _ _ _ Hf) as H3;
    pose proof (fr_start_time _ _ _ _ Hf) as H4;
    pose proof (frame_count _ _ (is_PauseRender false) _ _ Hf
                  (ok_render_no_pause false)) as H5;
    pose proof (frame_count _ _ (is_PauseRender true) _ _ Hf
                  (ok_render_no_pause true)) as H6;
    cbn in H1, H2, H3, H4, H5, H6; rewrite count_cons in H5, H6;
    cbn in H5, H6.
  all: repeat split; try assumption; try congruence.
Qed.

(** Waking up with [pause] still set (a broadcast that was not an
    unpause): the engine client is not told to resume. *)
Lemma pause_wait_resume_still_paused b d t0 (st : @St W) :
  pause (sess st) = true ->
  wp (pause_wait_resume E b d t0)
     (fun _ st' => count (is_PauseRender false) (trace st')
                   = count (is_PauseRender false) (trace st)) st.
Proof.
  intros Hp. unfold pause_wait_resume, update_status_time, pause_wait_enter.
  wp_steps; cbn; rewrite ?count_cons; reflexivity.
Qed.

(** What a worker slot can add to the number of resume commands. *)
Lemma worker_step_resumes pc0 (st : @St W) :
  wp (worker_step E pc0)
     (fun _ st' =>
        count (is_PauseRender false) (trace st')
        = count (is_PauseRender false) (trace st)
        \/ (exists b d t e,
               pc0 = InPauseWait b d t e
               /\ pause_cond (sess st) <> e
               /\ pause (sess st) = false
               /\ count (is_PauseRender false) (trace st')
                  = S (count (is_PauseRender false) (trace st)))) st.
Proof.
  destruct pc0 as [b d | b d t e |]; cbn [worker_step].
  - eapply wpn_conseq;
      [ apply (maintains_wp loose_mode ok_loop_head),
          (loop_head_frame E loose_mode ok_loop_head);
          [ reflexivity | reflexivity | intros c Hc; exact Hc ]
      | auto | ].
    intros pc' st' Hf. left.
    apply (frame_count _ _ _ _ _ Hf ok_loop_head_no_resume).
  - wp_step. wp_step. wp_step; [ wp_step; left; reflexivity | ].
    destruct (pause (sess st)) eqn:Hp.
    + eapply wpn_conseq; [ apply pause_wait_resume_still_paused, Hp | auto | ].
      intros pc' st' H. left. exact H.
    + eapply wpn_conseq;
        [ apply pause_wait_resume_cleared, Hp | auto | ].
      intros pc' st' (_ & _ & _ & H & _). right.
      exists b, d, t, e. repeat split; auto.
      apply Nat.eqb_neq. assumption.
  - wp_step. left. reflexivity.
Qed.

Lemma worker_step_woken b d t e (st : @St W) :
  pause_cond (sess st) <> e ->
  worker_step E (InPauseWait b d t e) st = pause_wait_resume E b d t st.
Proof.
  intros H. unfold worker_step, bind, get.
  destruct (Nat.eqb_spec (pause_cond (sess st)) e); [contradiction|].
  reflexivity.
Qed.

(** An interactive loop that finds [pause] set: the value it keeps in
    [pause_start] is the reading of the clock taken right before the
    wait, in the world [w] the thread had reached then. *)
Lemma pause_entry_clock b d (st : @St W) :
  fst (poll_cancel E (world st)) = None ->
  interactive (params (sess st)) = true ->
  pause (sess st) = true ->
  cancel (progress (sess st)) = false ->
  twp (loop_head E b d)
      (fun pc' st' =>
         (exists w,
             pc' = InPauseWait b d (fst (time_dt E w)) (pause_cond (sess st'))
             /\ world st' = snd (time_dt E w))
         /\ frame strict_mode (is_PauseRender true) st st'
         /\ trace st' = PauseRender true :: trace st) st.
Proof.
  intros Hn Hi Hp Hc.
  unfold loop_head, get_cancel, update_status_time, pause_wait_enter.
  pose proof (frame_refl strict_mode (is_PauseRender true) st) as Hf.
  wp_steps;
    (split; [eexists; split; reflexivity|]);
    (split; [frame_leaf | reflexivity]).
Qed.


End Resume.

(** ** Engine errors *)

Section EngineErrors.

Context {W : Type} (E : Collaborators W).

Lemma server_error_check_seen (st : @St W) :
  fst (getServerErrorMessage E (world st)) <> EmptyString ->
  server_error_check E st
  = Some (tt,
          mkSt (with_progress
                  (progress_set_cancel generic_error (progress (sess st)))
                  (sess st))
               (react E ClearServerErrorMessage
                      (snd (getServerErrorMessage E (world st))))
               (ClearServerErrorMessage :: trace st)).
Proof.
  intros H. unfold server_error_check, bind, query, modify_progress, modify,
    command. cbn.
  destruct (fst (getServerErrorMessage E (world st))); [contradiction|].
  reflexivity.
Qed.

Lemma server_error_check_clean (st : @St W) :
  fst (getServerErrorMessage E (world st)) = EmptyString ->
  server_error_check E st
  = Some (tt, mkSt (sess st) (snd (getServerErrorMessage E (world st)))
                   (trace st)).
Proof.
  intros H. unfold server_error_check, bind, query. cbn. rewrite H.
  reflexivity.
Qed.

(** What a stretch of the loop can have done about engine errors: either
    it cleared no error message, or it cleared one, and then cancellation
    is requested with the generic message and the worker is not in the
    wait. *)
Definition error_outcome (st : @St W) (pc' : WorkerPC) (st' : @St W) : Prop :=
  count ok_error (trace st') = count ok_error (trace st)
  \/ (count ok_error (trace st') = S (count ok_error (trace st))
      /\ cancel (progress (sess st')) = true
      /\ cancel_message (progress (sess st')) = generic_error
      /\ not_waiting pc').

Lemma ok_none_no_error c : ok_none c = true -> ok_error c = false.
Proof. unfold ok_none. discriminate. Qed.

Lemma ok_scene_no_error c : ok_scene c = true -> ok_error c = false.
Proof. destruct c; cbn; congruence. Qed.

Lemma ok_buffer_no_error c : ok_buffer c = true -> ok_error c = false.
Proof. unfold ok_buffer. destruct c; cbn; congruence. Qed.

Lemma ok_pause_no_error b c : is_PauseRender b c = true -> ok_error c = false.
Proof. destruct c; cbn; congruence. Qed.

(** Steps over a call through its frame lemma [L], taken from the current
    state. *)
Ltac wp_frame L :=
  cbv beta iota; cbn [sess world trace];
  lazymatch goal with
  | |- wpn _ (bind _ _) _ _ => apply wpn_bind
  | _ => idtac
  end;
  eapply wpn_conseq;
  [ simple eapply L; [ .. | apply frame_refl ];
    first [ reflexivity | intros ? Hc; exact Hc ]
  | try tauto
  | cbv beta; intros ? ? ? ].

(** Collects, from every frame in the context, how many error messages
    were cleared and what became of the cancellation state. *)
Ltac error_facts :=
  repeat match goal with
         | H : frame _ ok_none _ _ |- _ =>
             let Hc := fresh "Hcount" in
             pose proof (frame_count _ _ ok_error _ _ H ok_none_no_error)
               as Hc;
             try (let Hk := fresh "Hkeep" in
                  pose proof (fr_cancel_same _ _ _ _ H eq_refl) as Hk;
                  cbn in Hk);
             try (let Hm := fresh "Hmsg" in
                  pose proof (fr_cancel_message _ _ _ _ H eq_refl) as Hm;
                  cbn in Hm);
             cbn [sess world trace] in Hc; rewrite ?count_cons in Hc;
             cbn in Hc; clear H
         | H : frame _ ok_scene _ _ |- _ =>
             let Hc := fresh "Hcount" in
             pose proof (frame_count _ _ ok_error _ _ H ok_scene_no_error)
               as Hc;
             cbn [sess world trace] in Hc; rewrite ?count_cons in Hc;
             cbn in Hc; clear H
         | H : frame _ ok_buffer _ _ |- _ =>
             let Hc := fresh "Hcount" in
             pose proof (frame_count _ _ ok_error _ _ H ok_buffer_no_error)
               as Hc;
             cbn [sess world trace] in Hc; rewrite ?count_cons in Hc;
             cbn in Hc; clear H
         | H : frame _ (is_PauseRender true) _ _ |- _ =>
             let Hc := fresh "Hcount" in
             pose proof (frame_count _ _ ok_error _ _ H
                           (ok_pause_no_error true)) as Hc;
             cbn [sess world trace] in Hc; rewrite ?count_cons in Hc;
             cbn in Hc; clear H
         end.

Ltac error_leaf :=
  error_facts; unfold error_outcome;
  cbn [sess world trace]; rewrite ?count_cons; cbn;
  first [ left; congruence
        | right; repeat split; solve [ congruence | exact I | auto ] ].

Lemma render_pass_errors bStarted is_done (st : @St W) :
  wp (render_pass E bStarted is_done)
     (fun pc' st' => error_outcome st pc' st') st.
Proof.
  unfold render_pass, server_error_check, get_cancel.
  repeat first
    [ wp_step
    | wp_frame (update_scene_to_server_frame E strict_mode ok_scene)
    | wp_frame (update_render_buffer_frame E clock_mode ok_buffer)
    | wp_frame (update_status_time_frame E strict_mode ok_none) ].
  all: error_leaf.
Qed.

(** Carries the outcome of the render pass back to the state the stretch
    started in. *)
Ltac error_chain :=
  error_facts; unfold error_outcome in *;
  cbn [sess world trace] in *; rewrite ?count_cons in *; cbn in *;
  match goal with
  | H : _ \/ _ |- _ => destruct H as [H | (? & ? & ? & ?)]
  end;
  [ left; congruence
  | right; repeat split; solve [ congruence | assumption ] ].

Lemma after_pause_block_errors bStarted is_done (st : @St W) :
  wp (after_pause_block E bStarted is_done)
     (fun pc' st' => error_outcome st pc' st') st.
Proof.
  unfold after_pause_block, get_cancel.
  repeat first [ wp_step | wp_call render_pass_errors; intros ? ? ? ].
  all: first [ error_chain | error_leaf ].
Qed.

Lemma loop_head_errors bStarted is_done (st : @St W) :
  wp (loop_head E bStarted is_done)
     (fun pc' st' => error_outcome st pc' st') st.
Proof.
  unfold loop_head, after_pause_block, get_cancel.
  repeat first
    [ wp_step
    | wp_call render_pass_errors; intros ? ? ?
    | wp_frame (update_status_time_frame E strict_mode ok_none)
    | wp_frame (pause_wait_enter_frame E strict_mode (is_PauseRender true)) ].
  all: first [ error_chain | error_leaf ].
Qed.

Lemma pause_wait_resume_errors bStarted is_done t0 (st : @St W) :
  wp (pause_wait_resume E bStarted is_done t0)
     (fun pc' st' => error_outcome st pc' st') st.
Proof.
  unfold pause_wait_resume, after_pause_block, get_cancel.
  repeat first
    [ wp_step
    | wp_call render_pass_errors; intros ? ? ?
    | wp_frame (update_status_time_frame E strict_mode ok_none)
    | wp_frame (pause_wait_enter_frame E strict_mode (is_PauseRender true)) ].
  all: first [ error_chain | error_leaf ].
Qed.

Lemma worker_step_errors pc0 (st : @St W) :
  wp (worker_step E pc0) (fun pc' st' => error_outcome st pc' st') st.
Proof.
  destruct pc0 as [b d | b d t e |]; cbn [worker_step].
  - apply loop_head_errors.
  - wp_step. wp_step. wp_step.
    + wp_step. left. reflexivity.
    + apply pause_wait_resume_errors.
  - wp_step. left. reflexivity.
Qed.

Lemma run_end_cancelled (st : @St W) :
  cancel (progress (sess st)) = true ->
  run_end E st
  = Some (tt,
          mkSt (with_progress
                  (progress_set_status "Cancel"
                                       (cancel_message (progress (sess st)))
                                       (progress (sess st)))
                  (sess st))
               (react E ServerClear (world st)) (ServerClear :: trace st)).
Proof.
  intros Hc. unfold run_end, bind. rewrite (get_cancel_set E st Hc).
  reflexivity.
Qed.

(** The state right after a look that found an error message: cancellation
    is requested with the generic text and the message is cleared. *)
Definition error_seen (s : @St W) : @St W :=
  mkSt (with_progress (progress_set_cancel generic_error (progress (sess s)))
                      (sess s))
       (react E ClearServerErrorMessage
              (snd (getServerErrorMessage E (world s))))
       (ClearServerErrorMessage :: trace s).

(** What follows the first look in a render pass. *)
Definition after_first_look : @M W WorkerPC :=
  bind (get_cancel E)
       (fun c =>
          if c then ret Returned
          else
            bind (log RefreshBuffer)
                 (fun _ =>
                    bind (update_render_buffer E)
                         (fun _ =>
                            bind (server_error_check E)
                                 (fun _ =>
                                    bind (update_status_time E false false)
                                         (fun _ =>
                                            bind (modify_progress
                                                    progress_set_update)
                                                 (fun _ =>
                                                    bind get
                                                         (fun s2 =>
                                                            ret (AtLoopHead
                                                                   true
                                                                   (done_now s2))))))))).

(** What follows the second look. *)
Definition after_second_look : @M W WorkerPC :=
  bind (update_status_time E false false)
       (fun _ =>
          bind (modify_progress progress_set_update)
               (fun _ =>
                  bind get (fun s2 => ret (AtLoopHead true (done_now s2))))).

Lemma bind_some {A B} (m : @M W A) (k : A -> @M W B) st a s :
  m st = Some (a, s) -> bind m k st = k a s.
Proof. intros H. unfold bind. rewrite H. reflexivity. Qed.

Lemma bind_assoc {A B C} (m : @M W A) (f : A -> @M W B) (g : B -> @M W C)
      st :
  bind (bind m f) g st = bind m (fun a => bind (f a) g) st.
Proof. unfold bind. destruct (m st) as [[a s]|]; reflexivity. Qed.

Lemma bind_ext {A B} (m : @M W A) (f g : A -> @M W B) st :
  (forall a s, f a s = g a s) -> bind m f st = bind m g st.
Proof. intros H. unfold bind. destruct (m st) as [[a s]|]; auto. Qed.

(** A render pass is its prefix, the first look, and what follows. *)
Lemma render_pass_split b (st : @St W) :
  render_pass E b false st
  = bind (pass_prefix E b)
         (fun _ => bind (server_error_check E) (fun _ => after_first_look))
         st.
Proof.
  unfold render_pass, pass_prefix, after_first_look. cbn [negb].
  rewrite bind_assoc. apply bind_ext. intros [] s0.
  rewrite bind_assoc. apply bind_ext. intros a s1.
  rewrite bind_assoc. apply bind_ext. intros [] s2.
  reflexivity.
Qed.

(** A render pass that gets past the cancellation test is what comes
    before the second look, the second look, and what follows. *)
Lemma render_pass_split_second b (st : @St W) :
  render_pass E b false st
  = bind (until_second_look E b)
         (fun reached =>
            if reached : bool
            then bind (server_error_check E) (fun _ => after_second_look)
            else ret Returned)
         st.
Proof.
  rewrite render_pass_split. unfold until_second_look, after_first_look,
    after_second_look.
  rewrite bind_assoc. apply bind_ext. intros [] s0.
  rewrite bind_assoc. apply bind_ext. intros [] s1.
  rewrite bind_assoc. apply bind_ext. intros c s2.
  destruct c; [reflexivity|].
  rewrite bind_assoc. apply bind_ext. intros [] s3.
  rewrite bind_assoc. apply bind_ext. intros [] s4.
  reflexivity.
Qed.

(** The first look finds an error: the loop is left at the cancellation
    test that follows, with nothing else done. *)
Lemma first_look_error (s : @St W) :
  fst (getServerErrorMessage E (world s)) <> EmptyString ->
  bind (server_error_check E) (fun _ => after_first_look) s
  = Some (Returned, error_seen s).
Proof.
  intros He. rewrite (bind_some _ _ _ _ _ (server_error_check_seen s He)).
  fold (error_seen s). unfold after_first_look.
  rewrite (bind_some _ _ _ _ _ (get_cancel_set E (error_seen s) eq_refl)).
  reflexivity.
Qed.

(** The second look finds an error: the pass ends at the loop test with
    cancellation requested under the generic text; after the look only
    the status text is written and only status queries are made. *)
Lemma second_look_error (s : @St W) :
  fst (getServerErrorMessage E (world s)) <> EmptyString ->
  exists d' st',
    bind (server_error_check E) (fun _ => after_second_look) s
    = Some (AtLoopHead true d', st')
    /\ cancel (progress (sess st')) = true
    /\ cancel_message (progress (sess st')) = generic_error
    /\ trace st' = ClearServerErrorMessage :: trace s.
Proof.
  intros He. rewrite (bind_some _ _ _ _ _ (server_error_check_seen s He)).
  fold (error_seen s).
  assert (H : twp after_second_look
                  (fun pc' st' =>
                     (exists d', pc' = AtLoopHead true d')
                     /\ cancel (progress (sess st')) = true
                     /\ cancel_message (progress (sess st')) = generic_error
                     /\ trace st' = ClearServerErrorMessage :: trace s)
                  (error_seen s)).
  { unfold after_second_look, update_status_time.
    wp_steps; cbn; repeat split; eauto. }
  destruct (twp_elim _ _ _ H) as (pc' & st' & Hr & (d' & ->) & G).
  exists d', st'. split; [exact Hr | exact G].
Qed.

(** C8.  The loop looks at the engine client's error message in two
    places of a render pass, and at each of them a non-empty message
    becomes a cancellation.  At the first look (after the scene update and
    [startRender]): cancellation is requested with the generic text, the
    message is cleared, and the pass ends out of the loop with nothing
    else done, no buffer refresh in particular.  At the second look
    (after the buffer refresh): cancellation is requested with the generic
    text and the message is cleared, the pass ends at the loop test with
    only the status text refreshed, and the next loop test leaves the loop
    with no further call.  In both cases [run] then ends on its
    cancellation path, with [server->clear()] and the status "Cancel"
    and the generic text.  And whenever a worker slot has cleared an
    error message, cancellation is requested under that text and the loop
    is left in this slot or at the next loop test. *)
Theorem engine_error_becomes_cancellation :
  forall (b : bool) (st : @St W),
    (forall s1,
        pass_prefix E b st = Some (tt, s1) ->
        fst (getServerErrorMessage E (world s1)) <> EmptyString ->
        render_pass E b false st = Some (Returned, error_seen s1)
        /\ cancel (progress (sess (error_seen s1))) = true
        /\ cancel_message (progress (sess (error_seen s1))) = generic_error
        /\ run_end E (error_seen s1)
           = Some (tt,
                   mkSt (with_progress
                           (progress_set_status "Cancel" generic_error
                              (progress (sess (error_seen s1))))
                           (sess (error_seen s1)))
                        (react E ServerClear (world (error_seen s1)))
                        (ServerClear :: trace (error_seen s1))))
    /\ (forall s2,
          until_second_look E b st = Some (true, s2) ->
          fst (getServerErrorMessage E (world s2)) <> EmptyString ->
          exists d' st',
            render_pass E b false st = Some (AtLoopHead true d', st')
            /\ cancel (progress (sess st')) = true
            /\ cancel_message (progress (sess st')) = generic_error
            /\ trace st' = ClearServerErrorMessage :: trace s2
            /\ worker_step E (AtLoopHead true d') st' = Some (Returned, st')
            /\ run_end E st'
               = Some (tt,
                       mkSt (with_progress
                               (progress_set_status "Cancel" generic_error
                                                    (progress (sess st')))
                               (sess st'))
                            (react E ServerClear (world st'))
                            (ServerClear :: trace st')))
    /\ (forall pc0 st0 pc' st',
          worker_step E pc0 st0 = Some (pc', st') ->
          count ok_error (trace st') <> count ok_error (trace st0) ->
          cancel (progress (sess st')) = true
          /\ cancel_message (progress (sess st')) = generic_error
          /\ (pc' = Returned \/ worker_step E pc' st' = Some (Returned, st'))).
Proof.
  intros b st. split; [|split].
  - intros s1 Hpre He.
    split.
    { rewrite render_pass_split, (bind_some _ _ _ _ _ Hpre).
      apply first_look_error, He. }
    split; [reflexivity|]. split; [reflexivity|].
    rewrite (run_end_cancelled (error_seen s1) eq_refl). reflexivity.
  - intros s2 Hpre He.
    destruct (second_look_error s2 He) as (d' & st' & Hr & Hc & Hm & Ht).
    exists d', st'.
    split.
    { rewrite render_pass_split_second, (bind_some _ _ _ _ _ Hpre).
      exact Hr. }
    split; [exact Hc|]. split; [exact Hm|]. split; [exact Ht|].
    split; [cbn [worker_step]; apply loop_head_cancelled, Hc|].
    rewrite (run_end_cancelled st' Hc), Hm. reflexivity.
  - intros pc0 st0 pc' st' Hr Hne.
    destruct (wpn_elim _ _ _ _ _ _ (worker_step_errors pc0 st0) Hr)
      as [Heq | (_ & Hc & Hm & Hw)]; [contradiction|].
    split; [exact Hc|]. split; [exact Hm|].
    destruct pc' as [b' d | b' d t e |]; [right | contradiction | left; auto].
    cbn [worker_step]. apply loop_head_cancelled, Hc.
Qed.

End EngineErrors.

(** ** The offline run *)

Section OfflineRun.

Context {W : Type} (E : Collaborators W).

(** Proves [frame m ok st st'] for a state [st'] written out as an update
    of [st]. *)
Ltac frame_explicit :=
  constructor; unfold same_config; cbn;
  rewrite_cases; cbn;
  try reflexivity;
  try (intros; congruence);
  try (repeat (apply ext_cons; [ | reflexivity ]); apply ext_refl);
  try (destruct (params _); reflexivity).

(** One iteration of an offline loop that is not done, in a world where
    nothing goes wrong: the scene is pushed and the render started if this
    is the first iteration, the buffer is refreshed once, which notifies
    the host once and calls no [downloadImageBuffer], and the sample count
    has grown. *)
Lemma offline_iteration b (st : @St W) sc bs :
  never_cancels E -> never_fails E -> host_delivers E ->
  interactive (params (sess st)) = false ->
  scene (sess st) = Some sc ->
  b_session (sess st) = Some bs ->
  cancel (progress (sess st)) = false ->
  twp (loop_head E b false)
      (fun pc' st' =>
         pc' = AtLoopHead true (done_now (sess st'))
         /\ frame quiet_mode ok_render st st'
         /\ uiCurSamples (image_stat (params (sess st)))
            < uiCurSamples (image_stat (params (sess st')))
         /\ count is_StartRender (trace st')
            = ((if b then 0 else 1) + count is_StartRender (trace st))%nat
         /\ count is_Download (trace st') = count is_Download (trace st)
         /\ count is_RefreshBuffer (trace st')
            = S (count is_RefreshBuffer (trace st))
         /\ count is_UpdateRenderImg (trace st')
            = S (count is_UpdateRenderImg (trace st))
         /\ (count is_ScenePush (trace st')
             <= (if b then 0 else 1) + count is_ScenePush (trace st))%nat) st.
Proof.
  intros Hn Hfl Hd Hi Hs Hb Hc. unfold never_cancels, never_fails in *.
  unfold loop_head, render_pass, update_render_buffer,
    update_render_buffer_tail, update_img_sample, update_scene_to_server,
    server_error_check, cur_pass_id, update_status_time, get_cancel.
  destruct b; wp_steps.
  all: split; [reflexivity|].
  all: split; [frame_explicit|].
  all: split;
    [ cbn [sess params image_stat with_progress with_params with_scene
           set_image_stat]; apply Hd | ].
  all: cbn [sess world trace]; rewrite ?count_cons;
    cbn [is_StartRender is_Download is_RefreshBuffer is_UpdateRenderImg
         is_ScenePush].
  all: repeat split; lia.
Qed.

(** The offline exit in a world where nobody cancels. *)
Lemma offline_exit_quiet b (st : @St W) :
  never_cancels E ->
  interactive (params (sess st)) = false ->
  cancel (progress (sess st)) = false ->
  twp (loop_head E b true)
      (fun pc' st' =>
         pc' = Returned
         /\ frame strict_mode ok_none st st'
         /\ status (progress (sess st'))
            = (pass_name (sess st) ++ " finished")%string) st.
Proof.
  intros Hn Hi Hc. unfold never_cancels in Hn.
  unfold loop_head, update_status_time, get_cancel.
  wp_steps; (split; [reflexivity|]); (split; [frame_explicit | reflexivity]).
Qed.

(** An offline session ready to render: scene and host attached, no
    cancellation requested. *)
Definition offline_ready (st : @St W) : Prop :=
  interactive (params (sess st)) = false
  /\ (exists sc, scene (sess st) = Some sc)
  /\ (exists bs, b_session (sess st) = Some bs)
  /\ cancel (progress (sess st)) = false.

(** Samples still missing. *)
Definition remaining (st : @St W) : Z :=
  to_uint32 (samples (params (sess st)))
  - uiCurSamples (image_stat (params (sess st))).

Lemma offline_ready_frame ok (st st' : @St W) :
  frame quiet_mode ok st st' -> offline_ready st -> offline_ready st'.
Proof.
  intros Hf (Hi & (sc & Hs) & (bs & Hb) & Hc). unfold offline_ready.
  rewrite (frame_interactive _ _ _ _ Hf), (fr_b_session _ _ _ _ Hf),
    (fr_cancel_same _ _ _ _ Hf eq_refl).
  destruct (frame_scene_some _ _ _ _ sc Hf Hs) as (sc' & Hs' & _).
  eauto 10.
Qed.

Lemma done_now_remaining (st : @St W) :
  interactive (params (sess st)) = false ->
  (done_now (sess st) = true <-> remaining st <= 0).
Proof.
  intros Hi. unfold done_now, remaining. rewrite Hi. cbn.
  rewrite Z.leb_le. lia.
Qed.

Lemma exec_worker_cons n (y : @Sys W) pc' st' :
  worker_step E (pc y) (st y) = Some (pc', st') ->
  exec E (repeat Worker (S n)) y = exec E (repeat Worker n) (mkSys pc' st').
Proof. intros H. cbn. rewrite H. reflexivity. Qed.

(** An offline run in a world where nothing goes wrong: it ends, after as
    many iterations as it takes the host to deliver the samples. *)
Lemma offline_run k :
  never_cancels E -> never_fails E -> host_delivers E ->
  forall b (s0 : @St W),
    offline_ready s0 ->
    remaining s0 <= Z.of_nat k ->
    exists n y,
      exec E (repeat Worker (S (S n))) (mkSys (AtLoopHead b false) s0) = Some y
      /\ pc y = Returned
      /\ cancel (progress (sess (st y))) = false
      /\ done_now (sess (st y)) = true
      /\ status (progress (sess (st y)))
         = (pass_name (sess s0) ++ " finished")%string
      /\ count is_StartRender (trace (st y))
         = ((if b then 0 else 1) + count is_StartRender (trace s0))%nat
      /\ count is_Download (trace (st y)) = count is_Download (trace s0)
      /\ count is_RefreshBuffer (trace (st y))
         = (S n + count is_RefreshBuffer (trace s0))%nat
      /\ count is_UpdateRenderImg (trace (st y))
         = (S n + count is_UpdateRenderImg (trace s0))%nat
      /\ (count is_ScenePush (trace (st y))
          <= (if b then 0 else 1) + count is_ScenePush (trace s0))%nat.
Proof.
  intros Hn Hfl Hd. induction k as [|k IH]; intros b s0 Hr Hk.
  all: pose proof Hr as (Hi & (sc & Hs) & (bs & Hb) & Hc).
  all: destruct (twp_elim _ _ _
                   (offline_iteration b s0 sc bs Hn Hfl Hd Hi Hs Hb Hc))
    as (pc1 & st1 & Hstep & -> & Hf & Hgrow & H1 & H2 & H3 & H4 & H5).
  all: pose proof (offline_ready_frame _ _ _ Hf Hr) as Hr1.
  all: pose proof Hr1 as (Hi1 & _ & _ & Hc1).
  all: assert (Hrem : remaining st1 < remaining s0)
    by (unfold remaining; rewrite (frame_samples _ _ _ _ Hf); lia).
  all: destruct (done_now (sess st1)) eqn:Hdone.
  all: try (apply (done_now_remaining st1 Hi1) in Hdone as Hle).
  all: try (assert (Hgt : ~ remaining st1 <= 0)
             by (rewrite <- (done_now_remaining st1 Hi1); congruence)).
  all: try lia.
  1, 2:
    destruct (twp_elim _ _ _ (offline_exit_quiet true st1 Hn Hi1 Hc1))
      as (pc2 & st2 & Hexit & -> & Hf2 & Hst);
    exists 0%nat, (mkSys Returned st2);
    rewrite (exec_worker_cons 1 (mkSys (AtLoopHead b false) s0) _ _ Hstep);
    rewrite (exec_worker_cons 0 (mkSys (AtLoopHead true true) st1) _ _ Hexit);
    cbn [exec repeat pc st];
    pose proof (frame_trace_none _ _ _ Hf2) as Ht2;
    pose proof (fr_cancel_same _ _ _ _ Hf2 eq_refl) as Hc2;
    pose proof (fr_stat _ _ _ _ Hf2 eq_refl) as Hs2;
    pose proof (frame_samples _ _ _ _ Hf2) as Hm2;
    pose proof (frame_interactive _ _ _ _ Hf2) as Hi2;
    rewrite Ht2, Hst, (fr_pass_name _ _ _ _ Hf);
    repeat split; try assumption; try congruence; try lia;
    unfold done_now in *; rewrite Hi2, Hs2, Hm2; assumption.
  destruct (IH true st1 Hr1 ltac:(lia))
    as (n & y & Hx & Hp & Hcy & Hdy & Hsy & G1 & G2 & G3 & G4 & G5).
  exists (S n), y.
  rewrite (exec_worker_cons (S (S n)) (mkSys (AtLoopHead b false) s0) _ _
             Hstep).
  rewrite (fr_pass_name _ _ _ _ Hf) in Hsy.
  repeat split; try assumption; try lia.
Qed.


End OfflineRun.

(** ** What needs a scene, what needs a display buffer *)

Definition is_DisplayReset (c : Call) : bool :=
  match c with DisplayReset _ => true | _ => false end.
Definition is_CameraTagUpdate (c : Call) : bool :=
  match c with CameraTagUpdate => true | _ => false end.
Definition is_ServerClear (c : Call) : bool :=
  match c with ServerClear => true | _ => false end.

Lemma wp_none {W A} (m : @M W A) st :
  wp m (fun _ _ => False) st -> m st = None.
Proof. unfold wpn. destruct (m st) as [[a st']|]; [contradiction | auto]. Qed.

Section NullPointers.

Context {W : Type} (E : Collaborators W).

Lemma reset_without_scene bp mb (st : @St W) :
  scene (sess st) = None -> reset E bp mb st = None.
Proof.
  intros Hs. apply wp_none.
  unfold reset, reset_parameters, DisplayBuffer_reset.
  wp_steps.
Qed.

(** X16.  [update] never dereferences a null pointer: it completes in
    every state, with or without scene or display buffer.  [reset] is
    undefined exactly when no scene is attached (it reads
    [scene->kernel->uiGPUs]).  In a session without display buffer
    [update] makes no call at all and leaves the buffer null. *)
Theorem update_total_reset_needs_scene :
  forall (st : @St W) (bp : BufferParams) (mb : float),
    (exists st', update E bp st = Some (tt, st'))
    /\ (reset E bp mb st = None <-> scene (sess st) = None)
    /\ (display (sess st) = None ->
        exists st',
          update E bp st = Some (tt, st')
          /\ trace st' = trace st
          /\ display (sess st') = None).
Proof.
  intros st bp mb. split; [|split].
  - rewrite update_eq. eauto.
  - split.
    + destruct (scene (sess st)) as [sc|] eqn:Hs; [|reflexivity].
      rewrite (reset_eq E bp mb st sc Hs). discriminate.
    + apply reset_without_scene.
  - intros Hd. rewrite update_eq. eexists. split; [reflexivity|].
    cbn. unfold trace_after_display_reset, session_after_update. rewrite Hd.
    split; [reflexivity|].
    cbn. destruct (interactive (params (sess st))); cbn; rewrite ?Hd; reflexivity.
Qed.

End NullPointers.

(** ** Reallocating the display buffer *)

Section Reallocation.

Context {W : Type} (E : Collaborators W).

Lemma reset_parameters_display bp (st : @St W) :
  twp (reset_parameters E bp)
      (fun _ st' =>
         trace st' = trace_after_display_reset bp st
         /\ display (sess st')
            = display_after_reset bp (display (sess st))) st.
Proof.
  unfold reset_parameters, DisplayBuffer_reset, trace_after_display_reset,
    display_after_reset.
  wp_steps; cbn; rewrite_cases; auto.
Qed.

Lemma display_after_reset_settled bp o :
  display_after_reset bp (display_after_reset bp o)
  = display_after_reset bp o.
Proof.
  unfold display_after_reset. destruct o as [d|]; [|reflexivity].
  destruct (modified bp (db_params d)) eqn:Hm; cbn.
  - rewrite modified_same. reflexivity.
  - rewrite Hm. reflexivity.
Qed.

(** X18.  [reset_parameters] reallocates the display buffer exactly when
    there is one and the requested parameters are reported modified; the
    buffer it leaves reports the requested parameters unmodified, so a
    second call with the same parameters makes no call and leaves the
    buffer as it is.  A null display buffer stays null. *)
Theorem reset_parameters_reallocates_only_on_change :
  forall (st : @St W) (bp : BufferParams),
    exists st1 st2,
      reset_parameters E bp st = Some (tt, st1)
      /\ reset_parameters E bp st1 = Some (tt, st2)
      /\ count is_DisplayReset (trace st1)
         = (count is_DisplayReset (trace st)
            + match display (sess st) with
              | Some d => if modified bp (db_params d) then 1 else 0
              | None => 0
              end)%nat
      /\ (forall d1, display (sess st1) = Some d1 ->
                     modified bp (db_params d1) = false)
      /\ (display (sess st1) = None <-> display (sess st) = None)
      /\ trace st2 = trace st1
      /\ display (sess st2) = display (sess st1).
Proof.
  intros st bp.
  destruct (twp_elim _ _ _ (reset_parameters_display bp st))
    as ([] & st1 & H1 & Ht1 & Hd1).
  destruct (twp_elim _ _ _ (reset_parameters_display bp st1))
    as ([] & st2 & H2 & Ht2 & Hd2).
  exists st1, st2. split; [exact H1|]. split; [exact H2|].
  rewrite Hd1 in Hd2. rewrite display_after_reset_settled in Hd2.
  split; [|split; [|split; [|split]]].
  - rewrite Ht1. unfold trace_after_display_reset.
    destruct (display (sess st)) as [d|]; [|lia].
    destruct (modified bp (db_params d)); [|lia].
    rewrite count_cons. cbn. lia.
  - intros d1. rewrite Hd1. unfold display_after_reset.
    destruct (display (sess st)) as [d|]; [|discriminate].
    destruct (modified bp (db_params d)) eqn:Hm; intros [= <-]; cbn.
    + apply modified_same.
    + exact Hm.
  - rewrite Hd1. unfold display_after_reset.
    destruct (display (sess st)) as [d|]; [|tauto].
    destruct (modified bp (db_params d)); split; discriminate.
  - rewrite Ht2. unfold trace_after_display_reset. rewrite Hd1.
    unfold display_after_reset.
    destruct (display (sess st)) as [d|]; [|reflexivity].
    destruct (modified bp (db_params d)) eqn:Hm; cbn.
    + rewrite modified_same. reflexivity.
    + rewrite Hm. reflexivity.
  - rewrite Hd2, Hd1. reflexivity.
Qed.

End Reallocation.

(** ** A run that was cancelled before it began *)

Section RunCancelled.

Context {W : Type} (E : Collaborators W).

Lemma run_render_loop_returned fuel (st : @St W) :
  run_render_loop E fuel Returned st = Some (Returned, st).
Proof. destruct fuel; reflexivity. Qed.

(** X1.  [run] on a session whose cancellation was requested before it
    began skips [run_render]: the clock is not read, nothing is rendered,
    the only call is [server->clear()], and the status ends as "Cancel"
    with the cancellation message as its detail. *)
Theorem run_cancelled_before_start_only_clears :
  forall (fuel : nat) (st : @St W),
    cancel (progress (sess st)) = true ->
    run E fuel st
    = Some (true,
            mkSt (with_progress
                    (progress_set_status "Cancel"
                                         (cancel_message (progress (sess st)))
                                         (progress (sess st)))
                    (sess st))
                 (react E ServerClear (world st))
                 (ServerClear :: trace st)).
Proof.
  intros fuel st Hc. apply twp_eq.
  unfold run, run_begin.
  wp_step. wp_step. wp_step.
  unfold get_cancel at 1. wp_steps.
  unfold wpn at 1.
  rewrite run_render_loop_returned. cbv beta iota.
  unfold run_end, get_cancel. wp_steps.
  state_eq.
Qed.

End RunCancelled.

(** ** Attaching the host session *)

Section HostSession.

Context {W : Type} (E : Collaborators W).

(** X20.  [set_blender_session] always returns, prints at most one line,
    and prints none exactly when the address is not empty and the
    connection succeeded.  With an empty address no connection is
    attempted.  A line goes to stdout only when the fail reason first
    read is [NOT_ACTIVATED].  The host handle is stored only for a host
    session that is not interactive; a failed connection requests no
    cancellation and leaves the trace alone. *)
Theorem set_blender_session_prints_at_most_one_line :
  forall (connectToServer : string -> W -> bool * W)
         (b : BlenderSession) (addr : string) (st : @St W),
    exists out st',
      Session_set_blender_session E connectToServer b addr st
      = Some (out, st')
      /\ (List.length out <= 1)%nat
      /\ (out = [] <->
          addr <> EmptyString
          /\ fst (connectToServer addr (world st)) = true)
      /\ (addr = EmptyString -> world st' = world st)
      /\ (forall line, In (to_stdout, line) out ->
            fst (getFailReason E (snd (connectToServer addr (world st))))
            = NOT_ACTIVATED)
      /\ b_session (sess st')
         = (if bs_interactive b then b_session (sess st) else Some b)
      /\ progress (sess st') = progress (sess st)
      /\ trace st' = trace st.
Proof.
  intros connectToServer b addr st.
  apply twp_elim.
  unfold Session_set_blender_session, set_blender_session.
  destruct (bs_interactive b) eqn:Hb; destruct addr as [|a addr];
    wp_steps; cbn.
  all: repeat split; auto; try lia; try discriminate; try congruence.
  all: try (intros [H _]; congruence).
  all: try (intros [_ H]; congruence).
  all: try (intros line [H | []]; congruence).
Qed.

End HostSession.

(** ** Pushing the scene *)

Section ScenePush.

Context {W : Type} (E : Collaborators W).

Lemma update_scene_to_server_camera f t (st : @St W) sc :
  scene (sess st) = Some sc ->
  twp (update_scene_to_server E f t)
      (fun _ st' =>
         (exists sc',
             scene (sess st') = Some sc'
             /\ cam_width sc' = width (params (sess st'))
             /\ cam_height sc' = height (params (sess st'))
             /\ scene_rest sc' = scene_rest sc)
         /\ params (sess st') = params (sess st)
         /\ count is_CameraTagUpdate (trace st')
            = (count is_CameraTagUpdate (trace st)
               + if ((width (params (sess st)) =? cam_width sc)%Z
                     && (height (params (sess st)) =? cam_height sc)%Z)%bool
                 then 0 else 1)%nat
         /\ (export_scene (params (sess st)) <> NONE ->
             count is_ScenePush (trace st')
             = S (count is_ScenePush (trace st)))) st.
Proof.
  intros Hs. unfold update_scene_to_server.
  destruct (width (params (sess st)) =? cam_width sc) eqn:Hw;
    destruct (height (params (sess st)) =? cam_height sc) eqn:Hh;
    destruct (export_scene (params (sess st))) eqn:He;
    wp_steps.
  all: cbn [sess world trace]; rewrite ?count_cons; cbn.
  all: rewrite ?Z.eqb_eq in *.
  all: split; [ eexists; split; [ first [ reflexivity | eassumption ] | ] | ].
  all: repeat split; cbn; try reflexivity; try congruence; try lia.
Qed.

(** X14.  With a scene attached, [update_scene_to_server] leaves the
    camera with the session's width and height and tags it for update
    exactly when one of them differed; nothing else of the scene that the
    session reads changes.  When the export type is not [NONE] the scene
    is pushed, whatever [need_update] would say.  A second call right
    after tags nothing. *)
Theorem update_scene_to_server_syncs_camera :
  forall (f t f2 t2 : Z) (st : @St W) (sc : Scene),
    scene (sess st) = Some sc ->
    exists st1 st2 sc1,
      update_scene_to_server E f t st = Some (tt, st1)
      /\ scene (sess st1) = Some sc1
      /\ cam_width sc1 = width (params (sess st))
      /\ cam_height sc1 = height (params (sess st))
      /\ scene_rest sc1 = scene_rest sc
      /\ count is_CameraTagUpdate (trace st1)
         = (count is_CameraTagUpdate (trace st)
            + if ((width (params (sess st)) =? cam_width sc)%Z
                  && (height (params (sess st)) =? cam_height sc)%Z)%bool
              then 0 else 1)%nat
      /\ (export_scene (params (sess st)) <> NONE ->
          count is_ScenePush (trace st1) = S (count is_ScenePush (trace st)))
      /\ update_scene_to_server E f2 t2 st1 = Some (tt, st2)
      /\ count is_CameraTagUpdate (trace st2)
         = count is_CameraTagUpdate (trace st1).
Proof.
  intros f t f2 t2 st sc Hs.
  destruct (twp_elim _ _ _ (update_scene_to_server_camera f t st sc Hs))
    as ([] & st1 & H1 & (sc1 & Hs1 & Hw1 & Hh1 & Hr1) & Hp1 & Hc1 & He1).
  destruct (twp_elim _ _ _ (update_scene_to_server_camera f2 t2 st1 sc1 Hs1))
    as ([] & st2 & H2 & _ & _ & Hc2 & _).
  exists st1, st2, sc1.
  rewrite Hp1 in Hw1, Hh1.
  repeat split; try assumption.
  rewrite Hc2, Hp1, <- Hw1, <- Hh1, !Z.eqb_refl. cbn. lia.
Qed.

End ScenePush.

(** ** What a buffer refresh calls *)

Section RefreshCalls.

Context {W : Type} (E : Collaborators W).

Definition always_downloads : Prop :=
  forall i f p w, fst (fst (downloadImageBuffer E i f p w)) = true.

Lemma update_render_buffer_calls (st : @St W) :
  wp (update_render_buffer E)
     (fun _ st' =>
        (interactive (params (sess st)) = true ->
         count is_UpdateRenderImg (trace st')
         = count is_UpdateRenderImg (trace st)
         /\ (count is_Download (trace st')
             <= 2 + count is_Download (trace st))%nat
         /\ (always_downloads \/ b_session (sess st) = None ->
             (count is_Download (trace st')
              <= 1 + count is_Download (trace st))%nat)
         /\ (cancel (progress (sess st')) = false ->
             (1 + count is_Download (trace st)
              <= count is_Download (trace st'))%nat))
        /\ (interactive (params (sess st)) = false ->
            count is_Download (trace st') = count is_Download (trace st)
            /\ (count is_UpdateRenderImg (trace st')
                <= 1 + count is_UpdateRenderImg (trace st))%nat
            /\ (cancel (progress (sess st')) = false ->
                b_session (sess st) <> None ->
                count is_UpdateRenderImg (trace st')
                = S (count is_UpdateRenderImg (trace st))))) st.
Proof.
  unfold update_render_buffer, update_render_buffer_tail, update_img_sample,
    update_status_time, cur_pass_id, server_downloadImageBuffer, get_cancel.
  destruct (interactive (params (sess st))) eqn:Hi;
    destruct (b_session (sess st)) eqn:Hb;
    wp_steps.
  all: cbn [sess world trace]; rewrite ?count_cons;
    cbn [is_Download is_UpdateRenderImg].
  all: split; intros Hi'; try discriminate.
  all: cbn.
  all: repeat split; intros; try lia; try congruence.
  all: try match goal with
           | H : always_downloads \/ _ |- _ =>
               destruct H as [H | H]; [ | discriminate ]
           end.
  all: try match goal with
           | H : always_downloads, H1 : negb (fst (fst _)) = true |- _ =>
               rewrite H in H1; discriminate
           end.
Qed.

(** X15.  [update_render_buffer] either pulls or notifies, by the
    session's mode.  Interactive: the host callback is never called;
    [downloadImageBuffer] is called at most twice, at most once when it
    succeeds or when no host session is attached, and at least once in a
    call that does not end cancelled.  Offline: [downloadImageBuffer] is
    never called and the host is notified at most once, exactly once
    when a host session is attached and the call does not end
    cancelled. *)
Theorem update_render_buffer_pulls_or_notifies :
  forall (st : @St W) (r : unit) (st' : @St W),
    update_render_buffer E st = Some (r, st') ->
    (interactive (params (sess st)) = true ->
     count is_UpdateRenderImg (trace st')
     = count is_UpdateRenderImg (trace st)
     /\ (count is_Download (trace st')
         <= 2 + count is_Download (trace st))%nat
     /\ (always_downloads \/ b_session (sess st) = None ->
         (count is_Download (trace st')
          <= 1 + count is_Download (trace st))%nat)
     /\ (cancel (progress (sess st')) = false ->
         (1 + count is_Download (trace st)
          <= count is_Download (trace st'))%nat))
    /\ (interactive (params (sess st)) = false ->
        count is_Download (trace st') = count is_Download (trace st)
        /\ (count is_UpdateRenderImg (trace st')
            <= 1 + count is_UpdateRenderImg (trace st))%nat
        /\ (cancel (progress (sess st')) = false ->
            b_session (sess st) <> None ->
            count is_UpdateRenderImg (trace st')
            = S (count is_UpdateRenderImg (trace st)))).
Proof.
  intros st r st' Hr.
  exact (wpn_elim _ _ _ _ _ _ (update_render_buffer_calls st) Hr).
Qed.

End RefreshCalls.

(** ** What a worker slot can lead to *)

(** Steps over a call through its frame lemma [L], taken from the current
    state. *)
Ltac wp_framed L :=
  cbv beta iota; cbn [sess world trace];
  lazymatch goal with
  | |- wpn _ (bind _ _) _ _ => apply wpn_bind
  | _ => idtac
  end;
  eapply wpn_conseq;
  [ simple eapply L; [ .. | apply frame_refl ];
    first [ reflexivity
          | let c := fresh "c" in
            let Hok := fresh "Hok" in
            intros c Hok; exact Hok ]
  | try tauto
  | cbv beta; intros ? ? ? ].

(** Turns every frame in the context into what it says about the number
    of calls selected by [p] and about the session's mode. *)
Ltac count_facts p :=
  repeat match goal with
         | H : frame _ ?ok _ _ |- _ =>
             let Hc := fresh "Hcount" in
             assert (Hc := frame_count _ _ p _ _ H
                             ltac:(let c := fresh "c" in
                                   intros c; destruct c; cbv; congruence));
             cbn [sess world trace] in Hc; rewrite ?count_cons in Hc;
             cbn in Hc;
             let Hi := fresh "Hinter" in
             pose proof (frame_interactive _ _ _ _ H) as Hi;
             cbn [sess world trace] in Hi;
             clear H
         end.

(** How a stretch of the loop that began with the flags [b] ([bStarted])
    and [d] ([is_done]) can end.  Out of the loop: cancellation is
    requested, or the session is offline and was done.  At the loop head:
    the render has been started if it was or if a pass was made, and the
    done flag is the done predicate of the final state.  In the wait: the
    flags are as they were and the thread sleeps at the current broadcast
    count.  [startRender] was called in a pass made with [bStarted]
    clear, and nowhere else. *)
Definition starts_now (b d : bool) : nat :=
  if negb d && negb b then 1 else 0.

Definition outcome {W} (b d : bool) (st : @St W) (pc' : WorkerPC)
                   (st' : @St W) : Prop :=
  match pc' with
  | Returned =>
      (cancel (progress (sess st')) = true
       \/ (interactive (params (sess st)) = false /\ d = true))
      /\ (count is_StartRender (trace st)
          <= count is_StartRender (trace st')
          <= count is_StartRender (trace st) + (if b then 0 else 1))%nat
  | AtLoopHead b' d' =>
      b' = b || negb d
      /\ d' = done_now (sess st')
      /\ count is_StartRender (trace st')
         = (count is_StartRender (trace st) + starts_now b d)%nat
  | InPauseWait b' d' _ e =>
      b' = b /\ d' = d /\ e = pause_cond (sess st')
      /\ count is_StartRender (trace st') = count is_StartRender (trace st)
  end.

Ltac outcome_leaf :=
  count_facts is_StartRender; unfold outcome, starts_now;
  cbn [sess world trace]; rewrite ?count_cons; cbn;
  repeat split;
  solve [ reflexivity | lia | left; reflexivity | left; assumption
        | right; split; congruence ].

Section Outcomes.

Context {W : Type} (E : Collaborators W).

Lemma render_pass_outcome b d (st : @St W) :
  wp (render_pass E b d) (fun pc' st' => outcome b d st pc' st') st.
Proof.
  unfold render_pass, server_error_check, get_cancel.
  destruct b, d.
  all: repeat first
    [ wp_step
    | wp_framed (update_scene_to_server_frame E strict_mode ok_scene)
    | wp_framed (update_render_buffer_frame E clock_mode ok_buffer)
    | wp_framed (update_status_time_frame E strict_mode ok_none) ].
  all: outcome_leaf.
Qed.

Ltac outcome_chain :=
  count_facts is_StartRender;
  match goal with
  | H : outcome _ _ _ ?p _ |- outcome _ _ _ ?p _ =>
      destruct p; unfold outcome, starts_now in *;
      cbn [sess world trace] in *; rewrite ?count_cons in *; cbn in *;
      intuition (first [ congruence | lia ])
  end.

Lemma after_pause_block_outcome b d (st : @St W) :
  wp (after_pause_block E b d) (fun pc' st' => outcome b d st pc' st') st.
Proof.
  unfold after_pause_block, get_cancel.
  repeat first [ wp_step | wp_call render_pass_outcome; intros ? ? ? ].
  all: first [ outcome_chain | outcome_leaf ].
Qed.

Lemma pause_wait_enter_outcome b d (st : @St W) :
  wp (pause_wait_enter E b d) (fun pc' st' => outcome b d st pc' st') st.
Proof.
  unfold pause_wait_enter. wp_steps; outcome_leaf.
Qed.

Lemma loop_head_outcome b d (st : @St W) :
  wp (loop_head E b d) (fun pc' st' => outcome b d st pc' st') st.
Proof.
  unfold loop_head, get_cancel.
  destruct (interactive (params (sess st))) eqn:Hi, d.
  all: repeat first
    [ wp_step
    | wp_call render_pass_outcome; intros ? ? ?
    | wp_call after_pause_block_outcome; intros ? ? ?
    | wp_call pause_wait_enter_outcome; intros ? ? ?
    | wp_framed (update_status_time_frame E strict_mode ok_none) ].
  all: first [ outcome_chain | outcome_leaf ].
Qed.

Lemma pause_wait_resume_outcome b d t0 (st : @St W) :
  wp (pause_wait_resume E b d t0) (fun pc' st' => outcome b d st pc' st') st.
Proof.
  unfold pause_wait_resume.
  repeat first
    [ wp_step
    | wp_call after_pause_block_outcome; intros ? ? ?
    | wp_call pause_wait_enter_outcome; intros ? ? ?
    | wp_framed (update_status_time_frame E strict_mode ok_none) ].
  all: first [ outcome_chain | outcome_leaf ].
Qed.

(** The flags a program point carries. *)
Definition flags (p : WorkerPC) : option (bool * bool) :=
  match p with
  | AtLoopHead b d | InPauseWait b d _ _ => Some (b, d)
  | Returned => None
  end.

(** A worker slot: the thread stays asleep, or stays returned, or makes a
    stretch of the loop. *)
Lemma worker_step_outcome pc0 (st : @St W) :
  wp (worker_step E pc0)
     (fun pc' st' =>
        (pc' = pc0 /\ st' = st)
        \/ (exists b d, flags pc0 = Some (b, d) /\ outcome b d st pc' st')) st.
Proof.
  destruct pc0 as [b d | b d t e |]; cbn [worker_step].
  - eapply wpn_conseq; [ apply loop_head_outcome | auto | ].
    intros pc' st' H. right. exists b, d. auto.
  - wp_step. wp_step. wp_step.
    + wp_step. left. destruct st; auto.
    + eapply wpn_conseq; [ apply pause_wait_resume_outcome | auto | ].
      intros pc' st' H. right. exists b, d. auto.
  - wp_step. left. auto.
Qed.

End Outcomes.

(** ** What the controller's calls leave alone *)

Definition ok_controller (c : Call) : bool :=
  match c with
  | DisplayReset _ | ServerReset _ _ _ _ => true
  | _ => false
  end.

(** Between [st] and [st'] the session's mode and output path are kept,
    cancellation is not withdrawn, the broadcast count has not gone down,
    and the only calls made are to reallocate the display buffer or to
    reset the engine client. *)
Record ctl_keeps {W} (st st' : @St W) : Prop := {
  ck_interactive :
    interactive (params (sess st')) = interactive (params (sess st));
  ck_cancel :
    cancel (progress (sess st)) = true ->
    cancel (progress (sess st')) = true;
  ck_pause_cond : (pause_cond (sess st) <= pause_cond (sess st'))%nat;
  ck_output_path :
    output_path (params (sess st')) = output_path (params (sess st));
  ck_trace : ext ok_controller (trace st) (trace st')
}.

Ltac ctl_leaf :=
  constructor; cbn; rewrite_cases; cbn;
  first [ reflexivity | lia | tauto
        | intros; congruence
        | repeat (apply ext_cons; [ | reflexivity ]); apply ext_refl ].

Section Schedules.

Context {W : Type} (E : Collaborators W).

Lemma set_pause_keeps b (st : @St W) :
  wp (set_pause b) (fun _ st' => ctl_keeps st st') st.
Proof.
  unfold set_pause, set_pause_locked, set_pause_notify. wp_steps; ctl_leaf.
Qed.

Lemma set_samples_keeps n (st : @St W) :
  wp (set_samples n) (fun _ st' => ctl_keeps st st') st.
Proof. unfold set_samples. wp_steps; ctl_leaf. Qed.

Lemma reset_keeps bp mb (st : @St W) :
  wp (reset E bp mb) (fun _ st' => ctl_keeps st st') st.
Proof.
  unfold reset, reset_parameters, DisplayBuffer_reset. wp_steps; ctl_leaf.
Qed.

Lemma update_keeps bp (st : @St W) :
  wp (update E bp) (fun _ st' => ctl_keeps st st') st.
Proof.
  unfold update, reset_parameters, DisplayBuffer_reset. wp_steps; ctl_leaf.
Qed.

Lemma destroy_request_keeps (st : @St W) :
  wp destroy_request (fun _ st' => ctl_keeps st st') st.
Proof. unfold destroy_request. wp_steps; ctl_leaf. Qed.

Lemma controller_keeps (m : M unit) (y y' : @Sys W) :
  wp m (fun _ st' => ctl_keeps (st y) st') (st y) ->
  controller m y = Some y' ->
  pc y' = pc y /\ ctl_keeps (st y) (st y').
Proof.
  unfold controller, wpn. destruct (m (st y)) as [[u st']|]; [|discriminate].
  intros H [= <-]. auto.
Qed.

Lemma controller_step a (y y' : @Sys W) :
  a <> Worker -> sys_step E a y = Some y' ->
  pc y' = pc y /\ ctl_keeps (st y) (st y').
Proof.
  destruct a; cbn [sys_step]; intros Ha; [contradiction | ..].
  - apply controller_keeps, set_pause_keeps.
  - apply controller_keeps, set_samples_keeps.
  - apply controller_keeps, reset_keeps.
  - apply controller_keeps, update_keeps.
  - apply controller_keeps, destroy_request_keeps.
Qed.

Lemma ok_controller_no_start c :
  ok_controller c = true -> is_StartRender c = false.
Proof. destruct c; cbn; congruence. Qed.

(** A worker slot seen from the system. *)
Lemma worker_slot (y y' : @Sys W) :
  sys_step E Worker y = Some y' ->
  y' = y
  \/ (exists b d, flags (pc y) = Some (b, d)
                  /\ outcome b d (st y) (pc y') (st y')).
Proof.
  cbn [sys_step].
  destruct (worker_step E (pc y) (st y)) as [[pc' st']|] eqn:Hw;
    [|discriminate].
  intros [= <-]. cbn [pc st].
  destruct (wpn_elim _ _ _ _ _ _ (worker_step_outcome E (pc y) (st y)) Hw)
    as [[-> ->] | H]; [left; destruct y; reflexivity | right; exact H].
Qed.

Lemma worker_slot_frame (y y' : @Sys W) :
  sys_step E Worker y = Some y' ->
  frame loose_mode ok_worker (st y) (st y').
Proof.
  cbn [sys_step].
  destruct (worker_step E (pc y) (st y)) as [[pc' st']|] eqn:Hw;
    [|discriminate].
  intros [= <-]. cbn [pc st].
  exact (wpn_elim _ _ _ _ _ _ (worker_step_loose E (pc y) (st y)) Hw).
Qed.

Lemma exec_invariant (I : @Sys W -> Prop) :
  (forall a y y', I y -> sys_step E a y = Some y' -> I y') ->
  forall sched y y', I y -> exec E sched y = Some y' -> I y'.
Proof.
  intros Hstep sched. induction sched as [|a sched IH]; intros y y' Hy; cbn.
  - intros [= <-]. exact Hy.
  - destruct (sys_step E a y) as [y1|] eqn:H1; [|discriminate].
    apply IH. apply (Hstep a y y1 Hy H1).
Qed.

Lemma action_cases (a : Action) : a = Worker \/ a <> Worker.
Proof. destruct a; [left; reflexivity | right; discriminate ..]. Qed.

(** *** [startRender] *)

Definition start_inv (c0 : nat) (y : @Sys W) : Prop :=
  match flags (pc y) with
  | Some (b, _) =>
      count is_StartRender (trace (st y)) = (c0 + if b then 1 else 0)%nat
  | None =>
      (c0 <= count is_StartRender (trace (st y)) <= c0 + 1)%nat
  end.

Lemma start_inv_step c0 a (y y' : @Sys W) :
  start_inv c0 y -> sys_step E a y = Some y' -> start_inv c0 y'.
Proof.
  intros Hy Hs. destruct (action_cases a) as [-> | Ha].
  - destruct (worker_slot y y' Hs) as [-> | (b & d & Hf & Ho)]; [exact Hy|].
    unfold start_inv in *. rewrite Hf in Hy.
    destruct (pc y') as [b' d' | b' d' t e |]; cbn [flags outcome] in *.
    + destruct Ho as (-> & _ & Hc). rewrite Hc, Hy.
      unfold starts_now. destruct b, d; cbn; lia.
    + destruct Ho as (-> & _ & _ & Hc). rewrite Hc. exact Hy.
    + destruct Ho as (_ & Hc). destruct b; lia.
  - destruct (controller_step a y y' Ha Hs) as [Hpc Hk].
    unfold start_inv. rewrite Hpc.
    rewrite (ext_count _ is_StartRender _ _ (ck_trace _ _ Hk)
               ok_controller_no_start).
    exact Hy.
Qed.

(** *** Leaving an interactive loop *)

Definition viewport_inv (y : @Sys W) : Prop :=
  interactive (params (sess (st y))) = true
  /\ match flags (pc y) with
     | Some (_, d) => d = false
     | None => cancel (progress (sess (st y))) = true
     end.

Lemma viewport_inv_step a (y y' : @Sys W) :
  viewport_inv y -> sys_step E a y = Some y' -> viewport_inv y'.
Proof.
  intros [Hi Hy] Hs. destruct (action_cases a) as [-> | Ha].
  - pose proof (frame_interactive _ _ _ _ (worker_slot_frame y y' Hs)) as Hi'.
    rewrite Hi in Hi'.
    destruct (worker_slot y y' Hs) as [-> | (b & d & Hf & Ho)];
      [split; assumption|].
    split; [exact Hi'|]. rewrite Hf in Hy. subst d.
    destruct (pc y') as [b' d' | b' d' t e |]; cbn [flags outcome] in *.
    + destruct Ho as (_ & -> & _). unfold done_now. rewrite Hi'. reflexivity.
    + destruct Ho as (_ & -> & _). reflexivity.
    + destruct Ho as ([Hc | [Hc _]] & _); [exact Hc | congruence].
  - destruct (controller_step a y y' Ha Hs) as [Hpc Hk].
    unfold viewport_inv. rewrite Hpc, (ck_interactive _ _ Hk).
    split; [exact Hi|].
    destruct (flags (pc y)) as [[b d]|]; [exact Hy|].
    apply (ck_cancel _ _ Hk), Hy.
Qed.

(** *** Sleeping threads and broadcasts *)

(** A sleeping thread went to sleep at a broadcast count that has been
    reached. *)
Definition wait_ok (y : @Sys W) : Prop :=
  match pc y with
  | InPauseWait _ _ _ e => (e <= pause_cond (sess (st y)))%nat
  | _ => True
  end.

Lemma wait_ok_step a (y y' : @Sys W) :
  wait_ok y -> sys_step E a y = Some y' -> wait_ok y'.
Proof.
  intros Hy Hs. destruct (action_cases a) as [-> | Ha].
  - destruct (worker_slot y y' Hs) as [-> | (b & d & Hf & Ho)]; [exact Hy|].
    unfold wait_ok.
    destruct (pc y') as [b' d' | b' d' t e |]; cbn [outcome] in *; auto.
    destruct Ho as (_ & _ & -> & _). lia.
  - destruct (controller_step a y y' Ha Hs) as [Hpc Hk].
    unfold wait_ok in *. rewrite Hpc.
    destruct (pc y); auto. pose proof (ck_pause_cond _ _ Hk). lia.
Qed.

(** *** Calls no schedule makes *)

Lemma exec_count (p : Call -> bool) sched (y y' : @Sys W) :
  (forall c, ok_worker c = true -> p c = false) ->
  (forall c, ok_controller c = true -> p c = false) ->
  exec E sched y = Some y' ->
  count p (trace (st y')) = count p (trace (st y)).
Proof.
  intros Hw Hc Hx.
  apply (exec_invariant
           (fun z => count p (trace (st z)) = count p (trace (st y)))
           ) with (sched := sched) (y := y); [|reflexivity|exact Hx].
  intros a z z' Hz Hs. rewrite <- Hz.
  destruct (action_cases a) as [-> | Ha].
  - apply (frame_count _ _ _ _ _ (worker_slot_frame z z' Hs) Hw).
  - destruct (controller_step a z z' Ha Hs) as [_ Hk].
    apply (ext_count _ _ _ _ (ck_trace _ _ Hk) Hc).
Qed.

(** X4.  From the first loop test of [run_render] on, whatever the worker
    and the controller do ([set_pause], [set_samples], [reset], [update],
    the destructor's request, in any interleaving), [startRender] is
    called at most once; and while the worker is in the loop it has been
    called exactly when [bStarted] is set. *)
Theorem startRender_at_most_once_per_run :
  forall (sched : list Action) (d0 : bool) (st0 : @St W) (y : @Sys W),
    exec E sched (mkSys (AtLoopHead false d0) st0) = Some y ->
    (count is_StartRender (trace st0)
     <= count is_StartRender (trace (st y))
     <= S (count is_StartRender (trace st0)))%nat
    /\ (forall b d,
          flags (pc y) = Some (b, d) ->
          count is_StartRender (trace (st y))
          = (count is_StartRender (trace st0) + if b then 1 else 0)%nat).
Proof.
  intros sched d0 st0 y Hx.
  assert (Hy : start_inv (count is_StartRender (trace st0)) y).
  { apply (exec_invariant (start_inv (count is_StartRender (trace st0))))
      with (sched := sched) (y := mkSys (AtLoopHead false d0) st0);
      [ intros a z z'; apply start_inv_step | | exact Hx ].
    unfold start_inv. cbn. lia. }
  unfold start_inv in Hy. split.
  - destruct (flags (pc y)) as [[b d]|]; [destruct b|]; lia.
  - intros b d Hf. rewrite Hf in Hy. exact Hy.
Qed.

(** X5.  An interactive loop never finishes by itself: along any
    schedule its done flag stays clear, and if the worker has left the
    loop, cancellation has been requested. *)
Theorem interactive_loop_ends_only_by_cancel :
  forall (sched : list Action) (b : bool) (st0 : @St W) (y : @Sys W),
    interactive (params (sess st0)) = true ->
    exec E sched (mkSys (AtLoopHead b false) st0) = Some y ->
    (pc y = Returned -> cancel (progress (sess (st y))) = true)
    /\ (forall b' d', flags (pc y) = Some (b', d') -> d' = false)
    /\ interactive (params (sess (st y))) = true.
Proof.
  intros sched b st0 y Hi Hx.
  assert (Hy : viewport_inv y).
  { apply (exec_invariant viewport_inv)
      with (sched := sched) (y := mkSys (AtLoopHead b false) st0);
      [ intros a z z'; apply viewport_inv_step | | exact Hx ].
    split; [exact Hi | reflexivity]. }
  destruct Hy as [Hi' Hy]. split; [|split; [|exact Hi']].
  - intros Hp. rewrite Hp in Hy. exact Hy.
  - intros b' d' Hf. rewrite Hf in Hy. exact Hy.
Qed.

(** *** The destructor and a live worker *)

Lemma pause_wait_resume_exiting b d t0 (st : @St W) :
  pause (sess st) = false ->
  cancel (progress (sess st)) = true ->
  twp (pause_wait_resume E b d t0)
      (fun pc' st' =>
         pc' = Returned
         /\ cancel (progress (sess st')) = true
         /\ cancel_message (progress (sess st'))
            = cancel_message (progress (sess st))
         /\ pause (sess st') = false
         /\ trace st' = PauseRender false :: trace st) st.
Proof.
  intros Hp Hc.
  unfold pause_wait_resume, update_status_time, after_pause_block,
    get_cancel.
  wp_steps; cbn; auto.
Qed.

Definition after_destroy_request (st : @St W) : @St W :=
  mkSt (with_pause_cond
          (S (pause_cond (sess st)))
          (with_pause false
             (with_progress (progress_set_cancel "Exiting"
                                                 (progress (sess st)))
                            (sess st))))
       (world st) (trace st).

Lemma destroy_request_eq (st : @St W) :
  destroy_request st = Some (tt, after_destroy_request st).
Proof. reflexivity. Qed.

Lemma worker_after_destroy_request (y : @Sys W) :
  wait_ok y ->
  exists st',
    worker_step E (pc y) (after_destroy_request (st y)) = Some (Returned, st')
    /\ cancel (progress (sess st')) = true
    /\ cancel_message (progress (sess st')) = "Exiting"
    /\ pause (sess st') = false
    /\ count is_StartRender (trace st')
       = count is_StartRender (trace (st y)).
Proof.
  intros Hy. unfold wait_ok in Hy.
  destruct (pc y) as [b d | b d t e |].
  - exists (after_destroy_request (st y)). cbn [worker_step].
    rewrite loop_head_cancelled by reflexivity. auto.
  - rewrite worker_step_woken by (cbn; lia).
    destruct (twp_elim _ _ _
                (pause_wait_resume_exiting b d t
                   (after_destroy_request (st y)) eq_refl eq_refl))
      as (pc' & st' & Hr & -> & Hc & Hm & Hp & Ht).
    exists st'. rewrite Hr, Ht, count_cons. cbn in *. auto.
  - exists (after_destroy_request (st y)). cbn. auto.
Qed.


(** *** What the worker leaves to the controller *)

(** X12.  What a worker slot never does: it does not touch the display
    buffer pointer, the host handle, the pause flag, the broadcast count,
    [start_time], [reset_time], [display_outdated] or the session
    parameters other than the statistics; it does not withdraw
    cancellation; and the calls it makes are among sleep, scene push,
    [startRender], [pauseRender], error clearing and the buffer refresh:
    never [server->reset], [server->clear] or a display reallocation. *)
Theorem worker_leaves_controller_state_alone :
  forall (pc0 : WorkerPC) (st : @St W) (pc' : WorkerPC) (st' : @St W),
    worker_step E pc0 st = Some (pc', st') ->
    display (sess st') = display (sess st)
    /\ b_session (sess st') = b_session (sess st)
    /\ pause (sess st') = pause (sess st)
    /\ pause_cond (sess st') = pause_cond (sess st)
    /\ start_time (sess st') = start_time (sess st)
    /\ reset_time (sess st') = reset_time (sess st)
    /\ display_outdated (sess st') = display_outdated (sess st)
    /\ interactive (params (sess st')) = interactive (params (sess st))
    /\ samples (params (sess st')) = samples (params (sess st))
    /\ width (params (sess st')) = width (params (sess st))
    /\ height (params (sess st')) = height (params (sess st))
    /\ output_path (params (sess st')) = output_path (params (sess st))
    /\ (cancel (progress (sess st)) = true ->
        cancel (progress (sess st')) = true)
    /\ (exists new, trace st' = new ++ trace st
                    /\ forallb ok_worker new = true)
    /\ count is_ServerReset (trace st') = count is_ServerReset (trace st)
    /\ count is_ServerClear (trace st') = count is_ServerClear (trace st)
    /\ count is_DisplayReset (trace st') = count is_DisplayReset (trace st).
Proof.
  intros pc0 st pc' st' Hw.
  pose proof (wpn_elim _ _ _ _ _ _ (worker_step_loose E pc0 st) Hw) as Hf.
  pose proof (frame_count _ _ is_ServerReset _ _ Hf
                ltac:(intros c; destruct c; cbv; congruence)).
  pose proof (frame_count _ _ is_ServerClear _ _ Hf
                ltac:(intros c; destruct c; cbv; congruence)).
  pose proof (frame_count _ _ is_DisplayReset _ _ Hf
                ltac:(intros c; destruct c; cbv; congruence)).
  destruct Hf as [Hp ? ? ? ? ? ? ? ? ? ? ? ? ? ? ? ? ? ?].
  unfold same_config in Hp.
  repeat split; try assumption; rewrite <- Hp; reflexivity.
Qed.

End Schedules.

(** ** Woken while paused *)

Section PausedWakeUps.

Context {W : Type} (E : Collaborators W).

Lemma pause_wait_resume_paused b d t0 (st : @St W) :
  pause (sess st) = true ->
  twp (pause_wait_resume E b d t0)
      (fun pc' st' =>
         (exists t1, pc' = InPauseWait b d t1 (pause_cond (sess st')))
         /\ trace st' = PauseRender true :: trace st
         /\ paused_time (sess st')
            = paused_time (sess st) + (fst (time_dt E (world st)) - t0)
         /\ prog_start_time (progress (sess st'))
            = start_time (sess st) + paused_time (sess st')
         /\ start_time (sess st') = start_time (sess st)
         /\ cancel (progress (sess st')) = cancel (progress (sess st))
         /\ pause (sess st') = true
         /\ pause_cond (sess st') = pause_cond (sess st)) st.
Proof.
  intros Hp. unfold pause_wait_resume, update_status_time, pause_wait_enter.
  wp_steps; cbn; rewrite_cases; repeat split; eauto.
Qed.

(** X9.  A worker woken from the pause wait while [pause] is still set
    (by [reset], [update] or any other broadcast, cancelled or not) only
    adds the time slept to [paused_time], refreshes the status, calls
    [pauseRender(true)] again and goes back to sleep at the current
    broadcast count: nothing is rendered and cancellation is not looked
    at. *)
Theorem woken_while_paused_sleeps_again :
  forall (b d : bool) (t0 : Z) (e : nat) (st0 : @St W),
    pause (sess st0) = true ->
    pause_cond (sess st0) <> e ->
    exists t1 st',
      worker_step E (InPauseWait b d t0 e) st0
      = Some (InPauseWait b d t1 (pause_cond (sess st')), st')
      /\ trace st' = PauseRender true :: trace st0
      /\ paused_time (sess st')
         = paused_time (sess st0) + (fst (time_dt E (world st0)) - t0)
      /\ prog_start_time (progress (sess st'))
         = start_time (sess st0) + paused_time (sess st')
      /\ cancel (progress (sess st')) = cancel (progress (sess st0))
      /\ pause_cond (sess st') = pause_cond (sess st0).
Proof.
  intros b d t0 e st0 Hp0 He.
  destruct (twp_elim _ _ _ (pause_wait_resume_paused b d t0 st0 Hp0))
    as (pc' & st' & Hr & (t1 & ->) & Ht & Hpt & Hps & _ & Hc & _ & Hk).
  exists t1, st'. rewrite worker_step_woken by exact He.
  repeat split; assumption.
Qed.

(** X21.  [update] during a pause restarts the clocks ([paused_time]
    becomes 0) and wakes the worker, which finds [pause] still set: it
    goes back to sleep, and [paused_time] is then the whole time since
    the wait began, the part before the [update] included. *)
Theorem update_during_pause_keeps_counting_pause_time :
  forall (b d : bool) (t0 : Z) (bp : BufferParams) (y : @Sys W),
    pc y = InPauseWait b d t0 (pause_cond (sess (st y))) ->
    pause (sess (st y)) = true ->
    exists y1 y2,
      sys_step E (CallUpdate bp) y = Some y1
      /\ sys_step E Worker y1 = Some y2
      /\ asleep y2
      /\ trace (st y2) = PauseRender true :: trace (st y1)
      /\ paused_time (sess (st y1)) = 0
      /\ paused_time (sess (st y2))
         = fst (time_dt E (world (st y1))) - t0
      /\ prog_start_time (progress (sess (st y2)))
         = start_time (sess (st y1))
           + (fst (time_dt E (world (st y1))) - t0).
Proof.
  intros b d t0 bp y Hpc Hp.
  set (st1 := mkSt (session_after_update E bp (st y))
                   (snd (time_dt E (world_after_display_reset E bp (st y))))
                   (trace_after_display_reset bp (st y))).
  assert (Hp1 : pause (sess st1) = true).
  { unfold st1, session_after_update. cbn.
    destruct (interactive (params (sess (st y)))); exact Hp. }
  assert (Hk1 : pause_cond (sess st1) = S (pause_cond (sess (st y)))).
  { unfold st1, session_after_update. cbn.
    destruct (interactive (params (sess (st y)))); reflexivity. }
  assert (Ht1 : paused_time (sess st1) = 0).
  { unfold st1, session_after_update. cbn.
    destruct (interactive (params (sess (st y)))); reflexivity. }
  destruct (twp_elim _ _ _ (pause_wait_resume_paused b d t0 st1 Hp1))
    as (pc' & st' & Hr & (t1 & ->) & Ht & Hpt & Hps & Hs & _ & _ & Hk).
  exists (mkSys (pc y) st1),
         (mkSys (InPauseWait b d t1 (pause_cond (sess st'))) st').
  split; [cbn; unfold controller; rewrite update_eq; reflexivity|].
  split.
  { cbn [sys_step pc st]. rewrite Hpc, worker_step_woken, Hr;
      [reflexivity | lia]. }
  split; [exists b, d, t1; reflexivity|].
  cbn [st]. rewrite Hpt, Hps, Hpt, Ht1. repeat split; auto; lia.
Qed.

End PausedWakeUps.

(** ** A synchronous offline run, from [start] to the end of [run] *)

Section SynchronousRun.

Context {W : Type} (E : Collaborators W).

(** The loop driven by the caller makes the same slots as the worker
    thread. *)
Lemma run_render_loop_exec fuel p (s : @St W) :
  run_render_loop E fuel p s
  = match exec E (repeat Worker fuel) (mkSys p s) with
    | Some y => Some (pc y, st y)
    | None => None
    end.
Proof.
  revert p s. induction fuel as [|n IH]; intros p s; [reflexivity|].
  cbn [repeat exec sys_step run_render_loop pc st].
  destruct p as [b d | b d t e |].
  - unfold bind at 1. cbn [worker_step].
    destruct (loop_head E b d s) as [[p' s']|]; [apply IH | reflexivity].
  - unfold bind at 1.
    destruct (worker_step E (InPauseWait b d t e) s) as [[p' s']|];
      [apply IH | reflexivity].
  - cbn [worker_step]. unfold ret at 1 2. rewrite <- IH.
    destruct n; reflexivity.
Qed.

Lemma run_render_loop_more fuel k p (s s' : @St W) :
  run_render_loop E fuel p s = Some (Returned, s') ->
  run_render_loop E (fuel + k) p s = Some (Returned, s').
Proof.
  revert p s. induction fuel as [|n IH]; intros p s.
  - cbn. intros [= -> ->]. apply run_render_loop_returned.
  - cbn [Nat.add run_render_loop].
    destruct p as [b d | b d t e |]; try exact (fun H => H).
    + unfold bind. destruct (worker_step E (AtLoopHead b d) s) as [[p' s1]|];
        [apply IH | discriminate].
    + unfold bind.
      destruct (worker_step E (InPauseWait b d t e) s) as [[p' s1]|];
        [apply IH | discriminate].
Qed.

Lemma run_begin_offline (s : @St W) :
  never_cancels E ->
  interactive (params (sess s)) = false ->
  cancel (progress (sess s)) = false ->
  twp (run_begin E)
      (fun p s' =>
         p = AtLoopHead false false
         /\ trace s' = trace s
         /\ interactive (params (sess s')) = false
         /\ scene (sess s') = scene (sess s)
         /\ b_session (sess s') = b_session (sess s)
         /\ cancel (progress (sess s')) = false
         /\ pass_name (sess s') = pass_name (sess s)
         /\ samples (params (sess s')) = samples (params (sess s))
         /\ uiCurSamples (image_stat (params (sess s'))) = 0) s.
Proof.
  intros Hn Hi Hc. unfold never_cancels in Hn.
  unfold run_begin, run_render_begin, get_cancel.
  wp_steps; cbn; rewrite_cases; repeat split; auto.
Qed.

Lemma run_end_quiet (s : @St W) :
  never_cancels E ->
  cancel (progress (sess s)) = false ->
  run_end E s
  = Some (tt, mkSt (with_progress (progress_set_update (progress (sess s)))
                                  (sess s))
                   (snd (poll_cancel E (world s))) (trace s)).
Proof.
  intros Hn Hc. unfold never_cancels in Hn. apply twp_eq.
  unfold run_end, get_cancel. wp_steps. auto.
Qed.

(** [start] in a world where nobody cancels: the pass information is
    stored, [run] goes into the loop, and once the loop has returned
    without cancellation [run] signals one update. *)
Definition after_quiet_run_end (s : @St W) : @St W :=
  mkSt (with_progress (progress_set_update (progress (sess s))) (sess s))
       (snd (poll_cancel E (world s))) (trace s).

Lemma start_synchronous_through name f t fuel (s s1 s2 : @St W) :
  never_cancels E ->
  run_begin E (mkSt (with_pass_info name f t (sess s)) (world s) (trace s))
  = Some (AtLoopHead false false, s1) ->
  run_render_loop E fuel (AtLoopHead false false) s1 = Some (Returned, s2) ->
  cancel (progress (sess s2)) = false ->
  start_synchronous E name f t fuel s = Some (true, after_quiet_run_end s2).
Proof.
  intros Hn Hb Hx Hc.
  unfold start_synchronous, run.
  unfold bind at 1. cbn [modify].
  unfold bind at 1. rewrite Hb.
  unfold bind at 1. rewrite Hx.
  unfold bind. rewrite (run_end_quiet s2 Hn Hc). reflexivity.
Qed.

Lemma ok_worker_no_clear c : ok_worker c = true -> is_ServerClear c = false.
Proof. destruct c; cbv; congruence. Qed.

Lemma ok_controller_no_clear c :
  ok_controller c = true -> is_ServerClear c = false.
Proof. destruct c; cbv; congruence. Qed.

(** X2.  [start] with [synchronous] set on an offline session with scene
    and host attached, in a world where nobody cancels, the engine client
    reports no error and the host keeps delivering samples: the call
    returns (for some number of loop slots, and with the same result for
    any larger number), the status is "<pass_name_> finished" for the
    name given to [start], the done predicate holds, [startRender] was
    called once, the scene pushed at most once, and neither
    [downloadImageBuffer] nor [server->clear()] was called. *)
Theorem synchronous_offline_start_renders_to_completion :
  forall (name : string) (f t : Z) (s : @St W) (sc : Scene)
         (bs : BlenderSession),
    never_cancels E -> never_fails E -> host_delivers E ->
    interactive (params (sess s)) = false ->
    scene (sess s) = Some sc ->
    b_session (sess s) = Some bs ->
    cancel (progress (sess s)) = false ->
    exists fuel s',
      start_synchronous E name f t fuel s = Some (true, s')
      /\ (forall k,
            start_synchronous E name f t (fuel + k) s = Some (true, s'))
      /\ status (progress (sess s')) = (name ++ " finished")%string
      /\ cancel (progress (sess s')) = false
      /\ done_now (sess s') = true
      /\ count is_StartRender (trace s') = S (count is_StartRender (trace s))
      /\ (count is_ScenePush (trace s') <= S (count is_ScenePush (trace s)))%nat
      /\ count is_Download (trace s') = count is_Download (trace s)
      /\ count is_ServerClear (trace s') = count is_ServerClear (trace s).
Proof.
  intros name f t s sc bs Hn Hfl Hd Hi Hs Hb Hc.
  set (s0 := mkSt (with_pass_info name f t (sess s)) (world s) (trace s)).
  destruct (twp_elim _ _ _ (run_begin_offline s0 Hn Hi Hc))
    as (p1 & s1 & Hbegin & -> & Ht1 & Hi1 & Hs1 & Hb1 & Hc1 & Hn1 & _).
  assert (Hr : offline_ready s1).
  { unfold offline_ready. rewrite Hs1, Hb1. cbn. eauto 10. }
  destruct (offline_run E (Z.to_nat (remaining s1)) Hn Hfl Hd false s1 Hr
              ltac:(lia))
    as (n & y & Hx & Hp & Hcy & Hdy & Hsy & G1 & G2 & _ & _ & G5).
  pose proof (exec_count E is_ServerClear _ _ _ ok_worker_no_clear
                ok_controller_no_clear Hx) as G6.
  assert (Hloop : run_render_loop E (S (S n)) (AtLoopHead false false) s1
                  = Some (Returned, st y)).
  { rewrite run_render_loop_exec, Hx, Hp. reflexivity. }
  exists (S (S n)), (after_quiet_run_end (st y)).
  split; [apply (start_synchronous_through name f t _ s s1 _ Hn Hbegin Hloop Hcy)|].
  split.
  { intros k.
    apply (start_synchronous_through name f t _ s s1 _ Hn Hbegin); [|exact Hcy].
    apply run_render_loop_more, Hloop. }
  cbn [after_quiet_run_end sess trace st] in *.
  rewrite Ht1 in *. cbn [trace s0] in *.
  repeat split; try assumption.
  - cbn. rewrite Hsy, Hn1. reflexivity.
Qed.

(** With the target already met on entry, the offline loop still makes one
    full pass before it stops. *)
Lemma offline_single_pass (s1 : @St W) :
  never_cancels E -> never_fails E -> host_delivers E ->
  offline_ready s1 ->
  to_uint32 (samples (params (sess s1)))
  <= uiCurSamples (image_stat (params (sess s1))) ->
  exists s2,
    run_render_loop E 2 (AtLoopHead false false) s1 = Some (Returned, s2)
    /\ cancel (progress (sess s2)) = false
    /\ status (progress (sess s2))
       = (pass_name (sess s1) ++ " finished")%string
    /\ count is_StartRender (trace s2) = S (count is_StartRender (trace s1))
    /\ count is_RefreshBuffer (trace s2)
       = S (count is_RefreshBuffer (trace s1))
    /\ count is_UpdateRenderImg (trace s2)
       = S (count is_UpdateRenderImg (trace s1)).
Proof.
  intros Hn Hfl Hd Hr Hmet.
  pose proof Hr as (Hi & (sc & Hs) & (bs & Hb) & Hc).
  destruct (twp_elim _ _ _
              (offline_iteration E false s1 sc bs Hn Hfl Hd Hi Hs Hb Hc))
    as (p1 & st1 & Hstep & -> & Hf & Hgrow & H1 & _ & H3 & H4 & _).
  pose proof (offline_ready_frame _ _ _ Hf Hr) as (Hi1 & _ & _ & Hc1).
  assert (Hdone : done_now (sess st1) = true).
  { unfold done_now. rewrite Hi1, (frame_samples _ _ _ _ Hf). cbn.
    apply Z.leb_le. lia. }
  rewrite Hdone in Hstep.
  destruct (twp_elim _ _ _ (offline_exit_quiet E true st1 Hn Hi1 Hc1))
    as (p2 & st2 & Hexit & -> & Hf2 & Hst).
  exists st2. cbn [run_render_loop worker_step]. unfold bind at 1.
  rewrite Hstep. cbn [run_render_loop worker_step]. unfold bind at 1.
  rewrite Hexit. cbn [run_render_loop].
  pose proof (frame_trace_none _ _ _ Hf2) as Ht2.
  pose proof (fr_cancel_same _ _ _ _ Hf2 eq_refl) as Hc2.
  rewrite Ht2, Hst, (fr_pass_name _ _ _ _ Hf).
  repeat split; try assumption; try congruence.
Qed.


End SynchronousRun.

(** ** The sample target and the sleeping worker *)

Section SampleTarget.

Context {W : Type} (E : Collaborators W).

(** X11.  [set_samples] stores the new target and nothing else: it does
    not broadcast, so a worker asleep in the pause wait stays asleep; the
    pause flag, the cancellation flag and the trace are as before. *)
Theorem set_samples_does_not_wake :
  forall (n : Z) (y : @Sys W),
    asleep y ->
    exists y1,
      sys_step E (CallSetSamples n) y = Some y1
      /\ sys_step E Worker y1 = Some y1
      /\ asleep y1
      /\ samples (params (sess (st y1))) = n
      /\ pause (sess (st y1)) = pause (sess (st y))
      /\ pause_cond (sess (st y1)) = pause_cond (sess (st y))
      /\ cancel (progress (sess (st y1))) = cancel (progress (sess (st y)))
      /\ trace (st y1) = trace (st y).
Proof.
  intros n y (b & d & t & Hpc).
  assert (Hs : twp (set_samples n)
                   (fun _ s' =>
                      samples (params (sess s')) = n
                      /\ pause (sess s') = pause (sess (st y))
                      /\ pause_cond (sess s') = pause_cond (sess (st y))
                      /\ cancel (progress (sess s'))
                         = cancel (progress (sess (st y)))
                      /\ trace s' = trace (st y)) (st y)).
  { unfold set_samples. wp_steps; cbn; repeat split; auto.
    match goal with
    | H : negb (_ =? _) = false |- _ =>
        apply negb_false_iff, Z.eqb_eq in H; auto
    end. }
  destruct (twp_elim _ _ _ Hs) as ([] & s' & Hr & H1 & H2 & H3 & H4 & H5).
  assert (Ha : asleep (mkSys (pc y) s')).
  { exists b, d, t. cbn. rewrite H3. exact Hpc. }
  exists (mkSys (pc y) s').
  split; [cbn; unfold controller; rewrite Hr; reflexivity|].
  split; [apply worker_step_asleep, Ha|].
  split; [exact Ha|]. auto.
Qed.

End SampleTarget.

(** ** The loop and the scene *)

Section LoopNeedsScene.

Context {W : Type} (E : Collaborators W).

Lemma render_pass_without_scene b (st : @St W) :
  never_cancels E -> never_fails E ->
  scene (sess st) = None ->
  cancel (progress (sess st)) = false ->
  pause (sess st) = false ->
  loop_head E b false st = None.
Proof.
  intros Hn Hf Hs Hc Hp. unfold never_cancels, never_fails in *.
  apply wp_none.
  unfold loop_head, after_pause_block, render_pass, update_scene_to_server,
    update_render_buffer, cur_pass_id, server_error_check, get_cancel.
  destruct b; wp_steps.
Qed.

(** X17.  A worker slot is defined whenever a scene is attached.  Without
    a scene, a pass of a loop that is neither cancelled nor paused
    dereferences the null scene (in [update_scene_to_server] or in
    [update_render_buffer]) and is undefined. *)
Theorem render_loop_needs_scene :
  forall (b : bool) (pc0 : WorkerPC) (st : @St W),
    (scene (sess st) <> None ->
     exists pc' st', worker_step E pc0 st = Some (pc', st'))
    /\ (never_cancels E -> never_fails E ->
        scene (sess st) = None ->
        cancel (progress (sess st)) = false ->
        pause (sess st) = false ->
        worker_step E (AtLoopHead b false) st = None).
Proof.
  intros b pc0 st. split.
  - intros Hs.
    assert (H : twp (worker_step E pc0)
                    (fun _ st' => frame loose_mode ok_worker st st') st).
    { apply maintains_twp; [|exact Hs].
      apply worker_step_frame; try reflexivity. intros c Hc; exact Hc. }
    destruct (twp_elim _ _ _ H) as (pc' & st' & Hr & _). eauto.
  - intros Hn Hf Hs Hc Hp. cbn [worker_step].
    apply render_pass_without_scene; assumption.
Qed.

End LoopNeedsScene.

(** ** Cancellation and the pause wait *)

Section CancelAndPause.

Context {W : Type} (E : Collaborators W).

(** X8.  With cancellation requested: a worker at the loop test leaves
    the loop at once and calls nothing; a worker asleep in the pause wait
    stays asleep until a broadcast; woken with [pause] still set it goes
    back to sleep; woken with [pause] cleared it calls
    [pauseRender(false)] and leaves the loop.  Cancelling a paused render
    takes clearing [pause] too, as the destructor does. *)
Theorem cancel_reaches_worker_unless_paused :
  forall (b d : bool) (t : Z) (e : nat) (st : @St W),
    cancel (progress (sess st)) = true ->
    worker_step E (AtLoopHead b d) st = Some (Returned, st)
    /\ (pause_cond (sess st) = e ->
        worker_step E (InPauseWait b d t e) st
        = Some (InPauseWait b d t e, st))
    /\ (pause_cond (sess st) <> e -> pause (sess st) = true ->
        exists t1 st',
          worker_step E (InPauseWait b d t e) st
          = Some (InPauseWait b d t1 (pause_cond (sess st')), st')
          /\ cancel (progress (sess st')) = true
          /\ trace st' = PauseRender true :: trace st)
    /\ (pause_cond (sess st) <> e -> pause (sess st) = false ->
        exists st',
          worker_step E (InPauseWait b d t e) st = Some (Returned, st')
          /\ trace st' = PauseRender false :: trace st).
Proof.
  intros b d t e st Hc. split; [|split; [|split]].
  - cbn [worker_step]. apply loop_head_cancelled, Hc.
  - intros He. unfold worker_step, bind, get. rewrite He, Nat.eqb_refl.
    destruct st; reflexivity.
  - intros He Hp. rewrite worker_step_woken by exact He.
    destruct (twp_elim _ _ _ (pause_wait_resume_paused E b d t st Hp))
      as (pc' & st' & Hr & (t1 & ->) & Ht & _ & _ & _ & Hc' & _).
    exists t1, st'. rewrite Hc'. auto.
  - intros He Hp. rewrite worker_step_woken by exact He.
    destruct (twp_elim _ _ _ (pause_wait_resume_exiting E b d t st Hp Hc))
      as (pc' & st' & Hr & -> & _ & _ & _ & Ht).
    exists st'. auto.
Qed.

End CancelAndPause.

(** ** Drawing after new buffer parameters *)

Section StaleParameters.

Context {W : Type} (E : Collaborators W).

(** X19.  After [update(bp)] on a session with a display buffer, [draw]
    with [bp] goes on to the buffer's own draw step, and [draw] with any
    other parameters returns false without drawing and changes
    nothing. *)
Theorem draw_after_update_accepts_new_refuses_old :
  forall (bp old : BufferParams) (st : @St W) (d : DisplayBuffer),
    display (sess st) = Some d ->
    old <> bp ->
    exists st',
      update E bp st = Some (tt, st')
      /\ draw E bp st' = DisplayBuffer_draw E st'
      /\ draw E old st' = Some (false, st').
Proof.
  intros bp old st d Hd Hne.
  destruct (display_after_reset_params bp d) as (d' & Hd' & Hp).
  eexists. split; [apply update_eq|].
  assert (Hdisp : display (session_after_update E bp st) = Some d').
  { rewrite session_after_update_display, Hd. exact Hd'. }
  split.
  - apply (draw_match E) with (d := d'); [exact Hdisp|].
    rewrite Hp. apply modified_same.
  - apply (draw_mismatch E) with (d := d'); [exact Hdisp|].
    rewrite Hp. apply modified_true_iff. exact Hne.
Qed.

End StaleParameters.

(** ** Pushing the scene from the loop *)

Section LoopScenePush.

Context {W : Type} (E : Collaborators W).

Lemma update_scene_to_server_pushes f t (st : @St W) :
  wp (update_scene_to_server E f t)
     (fun _ st' =>
        frame strict_mode ok_scene st st'
        /\ (export_scene (params (sess st)) <> NONE ->
            count is_ScenePush (trace st')
            = S (count is_ScenePush (trace st)))) st.
Proof.
  eapply wpn_and with (N' := True).
  - apply maintains_wp, update_scene_to_server_frame. intros c Hc; exact Hc.
  - unfold update_scene_to_server.
    destruct (export_scene (params (sess st))) eqn:He; wp_steps;
      cbn [sess world trace]; rewrite ?count_cons; cbn; congruence.
Qed.

Lemma render_pass_scene_pushes b (st : @St W) :
  wp (render_pass E b false)
     (fun _ st' =>
        (interactive (params (sess st)) = false -> b = true ->
         count is_ScenePush (trace st') = count is_ScenePush (trace st))
        /\ (export_scene (params (sess st)) <> NONE ->
            b = false \/ interactive (params (sess st)) = true ->
            count is_ScenePush (trace st')
            = S (count is_ScenePush (trace st)))) st.
Proof.
  unfold render_pass, server_error_check, get_cancel.
  destruct b; destruct (interactive (params (sess st))) eqn:Hi.
  all: repeat first
    [ wp_step
    | wp_call update_scene_to_server_pushes; intros ? ? [? ?]
    | wp_framed (update_render_buffer_frame E clock_mode ok_buffer)
    | wp_framed (update_status_time_frame E strict_mode ok_none) ].
  all: count_facts is_ScenePush.
  all: cbn [sess world trace] in *; rewrite ?count_cons in *; cbn in *.
  all: split; [ intros; try congruence | intros Hx Hy ].
  all: try (destruct Hy; congruence).
  all: repeat match goal with
              | H : ?P -> _, H' : ?P |- _ => specialize (H H')
              end.
  all: congruence.
Qed.

(** X13.  A render pass of an offline loop that has started pushes no
    scene.  A first pass, and every pass of an interactive loop, calls
    [update_scene_to_server]: with an export type other than [NONE] it
    pushes the scene exactly once. *)
Theorem viewport_pushes_scene_every_pass_offline_only_first :
  forall (b : bool) (st : @St W) (pc' : WorkerPC) (st' : @St W),
    render_pass E b false st = Some (pc', st') ->
    (interactive (params (sess st)) = false -> b = true ->
     count is_ScenePush (trace st') = count is_ScenePush (trace st))
    /\ (export_scene (params (sess st)) <> NONE ->
        b = false \/ interactive (params (sess st)) = true ->
        count is_ScenePush (trace st')
        = S (count is_ScenePush (trace st))).
Proof.
  intros b st pc' st' Hr.
  exact (wpn_elim _ _ _ _ _ _ (render_pass_scene_pushes b st) Hr).
Qed.

End LoopScenePush.

(** ** Pausing and the engine client *)

Section PauseCalls.

Context {W : Type} (E : Collaborators W).

Lemma ok_controller_no_pause c :
  ok_controller c = true -> is_any_PauseRender c = false.
Proof. destruct c; cbv; congruence. Qed.

(** A loop that is not paused does not talk to the engine client about
    pausing. *)
Lemma loop_head_unpaused b (st : @St W) :
  pause (sess st) = false ->
  wp (loop_head E b false)
     (fun pc' st' =>
        not_waiting pc'
        /\ count is_any_PauseRender (trace st')
           = count is_any_PauseRender (trace st)) st.
Proof.
  intros Hp. unfold loop_head, get_cancel.
  destruct (interactive (params (sess st))) eqn:Hi.
  all: repeat first
    [ wp_step
    | eapply wpn_conseq;
      [ eapply wpn_and with (N' := True);
        [ first
            [ simple eapply (render_pass_frame E loose_mode ok_render)
            | simple eapply (after_pause_block_frame E loose_mode ok_render) ];
          [ reflexivity | reflexivity | intros ? Hc; exact Hc
          | apply frame_refl ]
        | first [ apply render_pass_not_waiting
                | apply after_pause_block_not_waiting ] ]
      | try tauto
      | cbv beta; intros ? ? [? ?] ] ].
  all: count_facts is_any_PauseRender.
  all: cbn [sess world trace] in *; rewrite ?count_cons in *; cbn in *.
  all: split; [ first [ exact I | assumption ] | congruence ].
Qed.

(** X10.  [set_pause(true)] followed by [set_pause(false)] before the
    worker looks again: two broadcasts, the flag is clear, and the
    worker's next slot makes its pass without any [pauseRender] call and
    does not go to sleep. *)
Theorem pause_withdrawn_before_the_look_is_never_sent :
  forall (b : bool) (y : @Sys W),
    pc y = AtLoopHead b false ->
    pause (sess (st y)) = false ->
    scene (sess (st y)) <> None ->
    exists y',
      exec E [CallSetPause true; CallSetPause false; Worker] y = Some y'
      /\ not_waiting (pc y')
      /\ pause (sess (st y')) = false
      /\ pause_cond (sess (st y')) = S (S (pause_cond (sess (st y))))
      /\ count is_any_PauseRender (trace (st y'))
         = count is_any_PauseRender (trace (st y)).
Proof.
  intros b y Hpc Hp Hs.
  set (s1 := mkSt (with_pause_cond (S (pause_cond (sess (st y))))
                                   (with_pause true (sess (st y))))
                  (world (st y)) (trace (st y))).
  set (s2 := mkSt (with_pause_cond (S (pause_cond (sess s1)))
                                   (with_pause false (sess s1)))
                  (world s1) (trace s1)).
  assert (H1 : set_pause true (st y) = Some (tt, s1)).
  { apply set_pause_changes. rewrite Hp. discriminate. }
  assert (H2 : set_pause false s1 = Some (tt, s2)).
  { apply set_pause_changes. cbn. discriminate. }
  assert (Hw : twp (loop_head E b false)
                   (fun pc' st' =>
                      frame loose_mode ok_loop_head s2 st'
                      /\ (not_waiting pc'
                          /\ count is_any_PauseRender (trace st')
                             = count is_any_PauseRender (trace s2))) s2).
  { eapply wpn_conseq;
      [ eapply wpn_and;
        [ apply (loop_head_frame E loose_mode ok_loop_head);
          [ reflexivity | reflexivity | intros c Hc; exact Hc
          | apply frame_refl ]
        | apply loop_head_unpaused; reflexivity ]
      | exact Hs
      | auto ]. }
  destruct (twp_elim _ _ _ Hw) as (pc' & st' & Hr & Hf & Hnw & Hc).
  exists (mkSys pc' st').
  cbn [exec sys_step]. unfold controller. rewrite H1. cbn [pc st].
  rewrite H2. cbn [pc st]. rewrite Hpc. cbn [worker_step]. rewrite Hr.
  split; [reflexivity|]. cbn [pc st].
  split; [exact Hnw|].
  split; [rewrite (fr_pause _ _ _ _ Hf); reflexivity|].
  split; [rewrite (fr_pause_cond _ _ _ _ Hf); reflexivity|].
  exact Hc.
Qed.

(** An offline loop never looks at the pause flag. *)
Lemma loop_head_offline b d (st : @St W) :
  interactive (params (sess st)) = false ->
  wp (loop_head E b d)
     (fun pc' st' =>
        not_waiting pc'
        /\ count is_any_PauseRender (trace st')
           = count is_any_PauseRender (trace st)) st.
Proof.
  intros Hi. unfold loop_head, get_cancel.
  repeat first
    [ wp_step
    | wp_framed (update_status_time_frame E strict_mode ok_none)
    | eapply wpn_conseq;
      [ eapply wpn_and with (N' := True);
        [ simple eapply (render_pass_frame E loose_mode ok_render);
          [ reflexivity | reflexivity | intros ? Hc; exact Hc
          | apply frame_refl ]
        | apply render_pass_not_waiting ]
      | try tauto
      | cbv beta; intros ? ? [? ?] ] ].
  all: count_facts is_any_PauseRender.
  all: cbn [sess world trace] in *; rewrite ?count_cons in *; cbn in *.
  all: split; [ first [ exact I | assumption ] | congruence ].
Qed.

Definition offline_inv (c0 : nat) (y : @Sys W) : Prop :=
  interactive (params (sess (st y))) = false
  /\ not_waiting (pc y)
  /\ count is_any_PauseRender (trace (st y)) = c0.

Lemma offline_inv_step c0 a (y y' : @Sys W) :
  offline_inv c0 y -> sys_step E a y = Some y' -> offline_inv c0 y'.
Proof.
  intros (Hi & Hw & Hc) Hs. destruct (action_cases a) as [-> | Ha].
  - pose proof (frame_interactive _ _ _ _ (worker_slot_frame E y y' Hs))
      as Hi'.
    rewrite Hi in Hi'. split; [exact Hi'|].
    revert Hs. cbn [sys_step].
    destruct (worker_step E (pc y) (st y)) as [[pc' st']|] eqn:Hr;
      [|discriminate].
    intros [= <-]. cbn [pc st].
    destruct (pc y) as [b d | b d t e |]; [ | contradiction | ].
    + cbn [worker_step] in Hr.
      destruct (wpn_elim _ _ _ _ _ _ (loop_head_offline b d (st y) Hi) Hr)
        as [Hn Hk].
      split; [exact Hn | congruence].
    + cbn in Hr. injection Hr as <- <-. split; [exact I | exact Hc].
  - destruct (controller_step E a y y' Ha Hs) as [Hpc Hk].
    unfold offline_inv. rewrite Hpc, (ck_interactive _ _ Hk).
    rewrite (ext_count _ is_any_PauseRender _ _ (ck_trace _ _ Hk)
               ok_controller_no_pause).
    auto.
Qed.

(** X6.  An offline loop never looks at [pause]: along any schedule,
    whatever [set_pause] stored, the worker is never in the pause wait
    and [pauseRender] is never called. *)
Theorem offline_loop_ignores_pause :
  forall (sched : list Action) (b d : bool) (st0 : @St W) (y : @Sys W),
    interactive (params (sess st0)) = false ->
    exec E sched (mkSys (AtLoopHead b d) st0) = Some y ->
    not_waiting (pc y)
    /\ count is_any_PauseRender (trace (st y))
       = count is_any_PauseRender (trace st0).
Proof.
  intros sched b d st0 y Hi Hx.
  assert (Hy : offline_inv (count is_any_PauseRender (trace st0)) y).
  { apply (exec_invariant E
             (offline_inv (count is_any_PauseRender (trace st0))))
      with (sched := sched) (y := mkSys (AtLoopHead b d) st0);
      [ intros a z z'; apply offline_inv_step | | exact Hx ].
    repeat split; auto. }
  destruct Hy as (_ & Hw & Hc). auto.
Qed.

End PauseCalls.

(** ** Writing the image when the session ends *)

Section SessionEnd.

Context {W : Type} (E : Collaborators W).

(** What no schedule changes: the mode, the output path, and whether
    there is a display buffer. *)
Definition end_inv (inter : bool) (path : string) (disp : bool)
                   (y : @Sys W) : Prop :=
  interactive (params (sess (st y))) = inter
  /\ output_path (params (sess (st y))) = path
  /\ has_display (sess (st y)) = disp.

Lemma end_inv_step inter path disp a (y y' : @Sys W) :
  end_inv inter path disp y -> sys_step E a y = Some y' ->
  end_inv inter path disp y'.
Proof.
  intros (Hi & Hp & Hd) Hs. unfold end_inv.
  rewrite (sys_step_has_display E a y y' Hs).
  split; [|split; [|exact Hd]].
  - destruct (action_cases a) as [-> | Ha].
    + rewrite (frame_interactive _ _ _ _ (worker_slot_frame E y y' Hs)).
      exact Hi.
    + destruct (controller_step E a y y' Ha Hs) as [_ Hk].
      rewrite (ck_interactive _ _ Hk). exact Hi.
  - destruct (action_cases a) as [-> | Ha].
    + pose proof (fr_params _ _ _ _ (worker_slot_frame E y y' Hs)) as Hc.
      unfold same_config in Hc. rewrite <- Hp, <- Hc. reflexivity.
    + destruct (controller_step E a y y' Ha Hs) as [_ Hk].
      rewrite (ck_output_path _ _ Hk). exact Hp.
Qed.

Lemma destroy_finish_result (s : @St W) :
  twp destroy_finish
      (fun r s' =>
         r = (if has_display (sess s)
                 && interactive (params (sess s))
                 && negb (string_empty (output_path (params (sess s))))
              then Some (output_path (params (sess s))) else None)
         /\ display (sess s') = None
         /\ scene (sess s') = None
         /\ trace s' = trace s
         /\ (r <> None -> status (progress (sess s')) = "Writing Image")
         /\ (r = None -> progress (sess s') = progress (sess s))) s.
Proof.
  unfold destroy_finish, has_display.
  wp_steps; cbn; rewrite_cases; cbn; repeat split; congruence.
Qed.

(** X22.  The second half of the destructor, after any history of a
    session made by the constructor: the image is written exactly when
    the session was constructed interactive with a non-empty output path
    (the test of the display buffer never decides), to that path and
    under the status "Writing Image"; an offline session never writes;
    display buffer and scene are gone afterwards. *)
Theorem destructor_writes_image_for_viewport_with_path :
  forall (p : SessionParams) (fresh : DisplayBuffer) (sched : list Action)
         (y y' : @Sys W),
    params (sess (st y)) = params (Session_new p fresh) ->
    display (sess (st y)) = display (Session_new p fresh) ->
    exec E sched y = Some y' ->
    exists r s',
      destroy_finish (st y') = Some (r, s')
      /\ r = (if interactive p && negb (string_empty (output_path p))
              then Some (output_path p) else None)
      /\ (interactive p = false -> r = None)
      /\ (r <> None -> status (progress (sess s')) = "Writing Image")
      /\ display (sess s') = None
      /\ scene (sess s') = None
      /\ trace s' = trace (st y').
Proof.
  intros p fresh sched y y' Hp Hd Hx.
  assert (Hy : end_inv (interactive p) (output_path p) (interactive p) y').
  { apply (exec_invariant E
             (end_inv (interactive p) (output_path p) (interactive p)))
      with (sched := sched) (y := y);
      [ intros a z z'; apply end_inv_step | | exact Hx ].
    unfold end_inv, has_display. rewrite Hp, Hd. cbn.
    destruct (interactive p); auto. }
  destruct Hy as (Hi & Ho & Hh).
  destruct (twp_elim _ _ _ (destroy_finish_result (st y')))
    as (r & s' & Hr & Hres & Hdn & Hsn & Ht & Hst & _).
  rewrite Hi, Ho, Hh in Hres.
  exists r, s'. split; [exact Hr|].
  split; [rewrite Hres; destruct (interactive p); reflexivity|].
  split; [intros Hf; rewrite Hres, Hf; reflexivity|].
  repeat split; assumption.
Qed.

End SessionEnd.

(** ** A pass of the viewport loop *)

Section ViewportPass.

Context {W : Type} (E : Collaborators W).

(** A buffer refresh in a world where nobody cancels leaves the
    cancellation flag as it was. *)
Lemma update_render_buffer_quiet (st : @St W) :
  never_cancels E ->
  wp (update_render_buffer E)
     (fun _ st' =>
        cancel (progress (sess st')) = cancel (progress (sess st))) st.
Proof.
  intros Hn. unfold never_cancels in Hn.
  unfold update_render_buffer, update_render_buffer_tail, update_img_sample,
    update_status_time, cur_pass_id, server_downloadImageBuffer, get_cancel.
  wp_steps; cbn; congruence.
Qed.

Lemma update_render_buffer_viewport (st : @St W) :
  never_cancels E ->
  interactive (params (sess st)) = true ->
  cancel (progress (sess st)) = false ->
  wp (update_render_buffer E)
     (fun _ st' =>
        frame clock_mode ok_buffer st st'
        /\ cancel (progress (sess st')) = false
        /\ count is_UpdateRenderImg (trace st')
           = count is_UpdateRenderImg (trace st)
        /\ (1 + count is_Download (trace st)
            <= count is_Download (trace st')
            <= 2 + count is_Download (trace st))%nat) st.
Proof.
  intros Hn Hi Hc.
  eapply wpn_conseq;
    [ eapply wpn_and with (N' := True);
      [ eapply wpn_and with (N' := True);
        [ apply (maintains_wp clock_mode ok_buffer),
            update_render_buffer_frame;
            [ reflexivity | reflexivity | intros c Hok; exact Hok ]
        | apply (update_render_buffer_quiet st Hn) ]
      | apply (update_render_buffer_calls E st) ]
    | auto
    | ].
  cbv beta. intros _ st' [[Hf Hq] [Hcalls _]].
  destruct (Hcalls Hi) as (Hu & Hle & _ & Hge).
  rewrite Hc in Hq. specialize (Hge Hq).
  split; [exact Hf|]. split; [exact Hq|]. split; [exact Hu|]. lia.
Qed.

(** Notes what the frame just obtained says about cancellation. *)
Ltac note_cancel :=
  match goal with
  | H : frame strict_mode _ _ ?s |- _ =>
      let Hk := fresh "Hquiet" in
      pose proof (fr_cancel_same _ _ _ _ H eq_refl) as Hk;
      cbn [sess world trace] in Hk;
      match type of Hk with
      | _ = cancel (progress (sess ?x)) =>
          match goal with
          | Hx : cancel (progress (sess x)) = false |- _ => rewrite Hx in Hk
          end
      end
  end.

(** Turns every frame in the context into what it says about the calls
    counted in a pass. *)
Ltac pass_counts :=
  repeat match goal with
         | H : frame _ _ _ _ |- _ =>
             try (let Hc := fresh "Hstart" in
                  assert (Hc := frame_count _ _ is_StartRender _ _ H
                                  ltac:(let c := fresh "c" in
                                        intros c; destruct c; cbv;
                                        congruence)));
             try (let Hc := fresh "Hrefresh" in
                  assert (Hc := frame_count _ _ is_RefreshBuffer _ _ H
                                  ltac:(let c := fresh "c" in
                                        intros c; destruct c; cbv;
                                        congruence)));
             try (let Hc := fresh "Hpull" in
                  assert (Hc := frame_count _ _ is_Download _ _ H
                                  ltac:(let c := fresh "c" in
                                        intros c; destruct c; cbv;
                                        congruence)));
             try (let Hc := fresh "Hhost" in
                  assert (Hc := frame_count _ _ is_UpdateRenderImg _ _ H
                                  ltac:(let c := fresh "c" in
                                        intros c; destruct c; cbv;
                                        congruence)));
             try (let Hc := fresh "Hpause" in
                  assert (Hc := frame_count _ _ is_any_PauseRender _ _ H
                                  ltac:(let c := fresh "c" in
                                        intros c; destruct c; cbv;
                                        congruence)));
             let Hi := fresh "Hinter" in
             pose proof (frame_interactive _ _ _ _ H) as Hi;
             clear H
         end.

Lemma viewport_iteration b (st : @St W) :
  never_cancels E -> never_fails E ->
  interactive (params (sess st)) = true ->
  pause (sess st) = false ->
  cancel (progress (sess st)) = false ->
  wp (loop_head E b false)
     (fun pc' st' =>
        pc' = AtLoopHead true false
        /\ cancel (progress (sess st')) = false
        /\ count is_StartRender (trace st')
           = ((if b then 0 else 1) + count is_StartRender (trace st))%nat
        /\ count is_RefreshBuffer (trace st')
           = S (count is_RefreshBuffer (trace st))
        /\ (1 + count is_Download (trace st)
            <= count is_Download (trace st')
            <= 2 + count is_Download (trace st))%nat
        /\ count is_UpdateRenderImg (trace st')
           = count is_UpdateRenderImg (trace st)
        /\ count is_any_PauseRender (trace st')
           = count is_any_PauseRender (trace st)) st.
Proof.
  intros Hn Hfl Hi Hp Hcan. pose proof Hn as Hn'.
  unfold never_cancels, never_fails in Hn, Hfl.
  unfold loop_head, after_pause_block, render_pass, server_error_check,
    get_cancel.
  destruct b.
  all: repeat first
    [ wp_step
    | wp_framed (update_scene_to_server_frame E strict_mode ok_scene);
      note_cancel
    | wp_framed (update_status_time_frame E strict_mode ok_none);
      note_cancel
    | wp_call update_render_buffer_viewport;
      [ exact Hn'
      | cbn [sess world trace];
        repeat match goal with
               | H : frame _ _ _ ?s |- context [sess ?s] =>
                   rewrite (frame_interactive _ _ _ _ H)
               end;
        cbn [sess world trace]; assumption
      | cbn [sess world trace]; assumption
      | intros ? ? (? & ? & ? & ?) ] ].
  all: pass_counts.
  all: cbn [sess world trace] in *; rewrite ?count_cons in *;
    cbn [is_StartRender is_Download is_RefreshBuffer is_UpdateRenderImg
         is_any_PauseRender] in *.
  all: split;
    [ f_equal; unfold done_now; cbn [params with_progress];
      repeat match goal with
             | H : interactive _ = interactive _ |- _ => rewrite H; clear H
             end;
      rewrite Hi; reflexivity | ].
  all: cbn [progress with_progress cancel progress_set_update].
  all: repeat split; first [ assumption | lia ].
Qed.

(** The helpers of a pass signal no progress update themselves. *)
Lemma update_scene_to_server_updates f t (st : @St W) :
  wp (update_scene_to_server E f t)
     (fun _ st' =>
        updates (progress (sess st')) = updates (progress (sess st))) st.
Proof. unfold update_scene_to_server. wp_steps; reflexivity. Qed.

Lemma update_status_time_updates p d (st : @St W) :
  wp (update_status_time E p d)
     (fun _ st' =>
        updates (progress (sess st')) = updates (progress (sess st))) st.
Proof. unfold update_status_time. wp_steps; reflexivity. Qed.

Lemma update_render_buffer_updates (st : @St W) :
  wp (update_render_buffer E)
     (fun _ st' =>
        updates (progress (sess st')) = updates (progress (sess st))) st.
Proof.
  unfold update_render_buffer, update_render_buffer_tail, update_img_sample,
    update_status_time, cur_pass_id, server_downloadImageBuffer, get_cancel.
  wp_steps; reflexivity.
Qed.

(** A pass that comes back to the loop test has signalled exactly one
    progress update. *)
Lemma loop_head_updates b (st : @St W) :
  wp (loop_head E b false)
     (fun pc' st' =>
        forall b' d', pc' = AtLoopHead b' d' ->
                      updates (progress (sess st'))
                      = S (updates (progress (sess st)))) st.
Proof.
  unfold loop_head, after_pause_block, render_pass, server_error_check,
    get_cancel, pause_wait_enter.
  repeat first
    [ wp_step
    | wp_call update_scene_to_server_updates; intros ? ? ?
    | wp_call update_render_buffer_updates; intros ? ? ?
    | wp_call update_status_time_updates; intros ? ? ? ].
  all: intros b' d' Heq; try discriminate Heq.
  all: cbn [sess world trace] in *; cbn in *; congruence.
Qed.

(** X23.  A pass of an interactive loop that is neither paused nor
    cancelled, with a scene attached, in a world where nobody cancels and
    the engine client reports no error: the worker comes back to the loop
    test with [bStarted] set and [is_done] clear, having called
    [startRender] if this was the first pass, refreshed the buffer once,
    pulled the image once or twice, signalled exactly one progress
    update, and neither notified the host nor called [pauseRender];
    cancellation is still not requested. *)
Theorem viewport_pass_refreshes_once :
  forall (b : bool) (st : @St W) (sc : Scene),
    never_cancels E -> never_fails E ->
    interactive (params (sess st)) = true ->
    pause (sess st) = false ->
    cancel (progress (sess st)) = false ->
    scene (sess st) = Some sc ->
    exists st',
      worker_step E (AtLoopHead b false) st = Some (AtLoopHead true false, st')
      /\ cancel (progress (sess st')) = false
      /\ updates (progress (sess st')) = S (updates (progress (sess st)))
      /\ count is_StartRender (trace st')
         = ((if b then 0 else 1) + count is_StartRender (trace st))%nat
      /\ count is_RefreshBuffer (trace st')
         = S (count is_RefreshBuffer (trace st))
      /\ (1 + count is_Download (trace st)
          <= count is_Download (trace st')
          <= 2 + count is_Download (trace st))%nat
      /\ count is_UpdateRenderImg (trace st')
         = count is_UpdateRenderImg (trace st)
      /\ count is_any_PauseRender (trace st')
         = count is_any_PauseRender (trace st).
Proof.
  intros b st sc Hn Hfl Hi Hp Hc Hs.
  assert (Hdef : twp (loop_head E b false)
                     (fun _ st' => frame loose_mode ok_loop_head st st') st).
  { apply maintains_twp; [|rewrite Hs; discriminate].
    apply loop_head_frame; try reflexivity. intros c Hok; exact Hok. }
  destruct (twp_elim _ _ _ Hdef) as (pc' & st' & Hr & _).
  destruct (wpn_elim _ _ _ _ _ _ (viewport_iteration b st Hn Hfl Hi Hp Hc) Hr)
    as (-> & Hq & H).
  pose proof (wpn_elim _ _ _ _ _ _ (loop_head_updates b st) Hr true false
                eq_refl) as Hu.
  exists st'. split; [exact Hr|]. split; [exact Hq|].
  split; [exact Hu | exact H].
Qed.

End ViewportPass.

(** * Concrete runs *)

Definition bp_800x600 : BufferParams :=
  {| bp_width := 800; bp_height := 600; bp_passes := [] |}.

(** An interactive session that was constructed and given a scene. *)
Definition viewport_st : @St SimWorld := sim_st true 800 600 100 25.

(** An offline session with cancellation already requested. *)
Definition cancelled_st : @St SimWorld :=
  mkSt (with_progress (progress_set_cancel "Exiting" Progress_new)
          (sim_session false 800 600 100))
       (sim_world 25) [].

Lemma draw_checks_params_and_keeps_session_witness :
  display (sess viewport_st) = Some {| db_params := bp0 |}
  /\ bp_800x600 <> bp0
  /\ draw SimEngine bp_800x600 viewport_st = Some (false, viewport_st).
Proof.
  split; [reflexivity|]. split; [discriminate|].
  apply (proj1 (draw_checks_params_and_keeps_session
                  SimEngine bp_800x600 viewport_st {| db_params := bp0 |}
                  eq_refl)).
  discriminate.
Defined.

Lemma draw_after_reset_sees_new_params_witness :
  exists st' d',
    reset SimEngine bp_800x600 0.5%float viewport_st = Some (tt, st')
    /\ display (sess st') = Some d'
    /\ db_params d' = bp_800x600
    /\ modified bp_800x600 (db_params d') = false
    /\ draw SimEngine bp_800x600 st' = DisplayBuffer_draw SimEngine st'.
Proof.
  apply (draw_after_reset_sees_new_params
           SimEngine bp_800x600 0.5%float viewport_st
           {| db_params := bp0 |} sim_scene); reflexivity.
Defined.

Lemma update_is_reset_without_engine_reset_witness :
  exists su sr,
    update SimEngine bp_800x600 viewport_st = Some (tt, su)
    /\ reset SimEngine bp_800x600 0.5%float viewport_st = Some (tt, sr)
    /\ sess sr = sess su
    /\ trace sr = ServerReset NONE 1 0.5%float false :: trace su.
Proof.
  destruct (update_is_reset_without_engine_reset
              SimEngine bp_800x600 0.5%float viewport_st sim_scene eq_refl)
    as (su & sr & Hu & Hr & Hs & Ht & _).
  exists su, sr. auto.
Defined.

Lemma update_render_buffer_honours_cancel_witness :
  cancel (progress (sess cancelled_st)) = true
  /\ update_render_buffer SimEngine cancelled_st = Some (tt, cancelled_st).
Proof.
  split; [reflexivity|].
  apply (proj1 (update_render_buffer_honours_cancel SimEngine cancelled_st)).
  reflexivity.
Defined.

(** An offline session, and the same after the controller paused it and
    sent new buffer parameters. *)
Definition offline_sys : @Sys SimWorld :=
  mkSys (AtLoopHead false false) (sim_st false 800 600 100 25).

Definition offline_sys_updated : @Sys SimWorld :=
  Eval vm_compute in
    match exec SimEngine [CallSetPause true; CallUpdate bp_800x600]
               offline_sys with
    | Some y => y
    | None => offline_sys
    end.

Lemma draw_defined_iff_constructed_interactive_witness :
  exec SimEngine [CallSetPause true; CallUpdate bp_800x600] offline_sys
  = Some offline_sys_updated
  /\ draw SimEngine bp_800x600 (st offline_sys_updated) = None.
Proof.
  assert (H : exec SimEngine [CallSetPause true; CallUpdate bp_800x600]
                   offline_sys
              = Some offline_sys_updated) by (vm_compute; reflexivity).
  split; [exact H|].
  apply (proj2 (proj2 (draw_defined_iff_constructed_interactive
                         SimEngine (sim_params false 800 600 100)
                         {| db_params := bp0 |}
                         [CallSetPause true; CallUpdate bp_800x600]
                         offline_sys offline_sys_updated bp_800x600
                         eq_refl H))).
  reflexivity.
Defined.

(** *** An offline render of 100 samples, 25 per refresh *)

Definition or_else {A} (o : option A) (d : A) : A :=
  match o with Some a => a | None => d end.

(** After four iterations the sample count has reached the target. *)
Definition offline_done : @Sys SimWorld :=
  Eval vm_compute in
    or_else (exec_from (sim_start false 800 600 100 25) (repeat Worker 4))
            offline_sys.

(** The fifth worker slot leaves the loop. *)
Definition offline_stopped : @Sys SimWorld :=
  Eval vm_compute in
    or_else (exec_from (sim_start false 800 600 100 25) (repeat Worker 5))
            offline_sys.

(** C1 as stated fails here: the done predicate holds after the fourth
    iteration, the loop then stops, and between these two points the
    buffer is refreshed zero times, not once. *)
Lemma one_more_refresh_counterexample :
  exec_from (sim_start false 800 600 100 25) (repeat Worker 4)
  = Some offline_done
  /\ pc offline_done = AtLoopHead true true
  /\ done_now (sess (st offline_done)) = true
  /\ uiCurSamples (image_stat (params (sess (st offline_done)))) = 100
  /\ exec SimEngine [Worker] offline_done = Some offline_stopped
  /\ pc offline_stopped = Returned
  /\ status (progress (sess (st offline_stopped))) = "Beauty finished"
  /\ count is_RefreshBuffer (trace (st offline_done)) = 4%nat
  /\ count is_RefreshBuffer (trace (st offline_stopped)) = 4%nat
  /\ count is_RefreshBuffer (trace (st offline_stopped))
     <> S (count is_RefreshBuffer (trace (st offline_done))).
Proof.
  repeat split; try (vm_compute; reflexivity).
  vm_compute. discriminate.
Qed.

Lemma offline_done_stops_without_refresh_witness :
  interactive (params (sess (st offline_done))) = false
  /\ (exists st',
        worker_step SimEngine (AtLoopHead true true) (st offline_done)
        = Some (Returned, st')
        /\ trace st' = trace (st offline_done)
        /\ count is_RefreshBuffer (trace st')
           = count is_RefreshBuffer (trace (st offline_done))
        /\ count is_StartRender (trace st')
           = count is_StartRender (trace (st offline_done))
        /\ image_stat (params (sess st'))
           = image_stat (params (sess (st offline_done)))
        /\ (cancel (progress (sess st')) = false ->
            status (progress (sess st'))
            = (pass_name (sess (st offline_done)) ++ " finished")%string))
  /\ worker_step SimEngine (AtLoopHead true true) (st offline_done)
     = Some (Returned,
             mkSt (with_progress
                     (progress_set_status "Beauty finished" EmptyString
                        (progress (sess (st offline_done))))
                     (sess (st offline_done)))
                  (status_world SimEngine
                     (snd (poll_cancel SimEngine (world (st offline_done)))))
                  (trace (st offline_done))).
Proof.
  split; [reflexivity|].
  pose proof (offline_done_stops_without_refresh
                SimEngine true (st offline_done) eq_refl) as (H1 & H2 & _).
  split; [exact H1|]. exact (H2 eq_refl eq_refl).
Defined.


Lemma steady_never_cancels g : never_cancels (SteadyEngine g).
Proof. intros w. reflexivity. Qed.

Lemma steady_never_fails g : never_fails (SteadyEngine g).
Proof. intros w. reflexivity. Qed.

Lemma steady_host_delivers g : host_delivers (SteadyEngine g).
Proof. intros i w. cbn. lia. Qed.


(** *** Pausing a viewport render *)

Definition steady_viewport : @Sys Z :=
  mkSys (AtLoopHead true false) (steady_st true 800 600 100).

Lemma set_pause_acts_only_on_change_witness :
  exists y',
    exec (SteadyEngine 25)
         [CallSetPause true; Worker; CallSetPause true; Worker]
         steady_viewport
    = Some y'
    /\ count is_any_PauseRender (trace (st y')) = 1%nat
    /\ count (is_PauseRender true) (trace (st y')) = 1%nat
    /\ pause (sess (st y')) = true
    /\ pause_cond (sess (st y')) = 1%nat.
Proof.
  assert (Hall : Forall (fun a => a = Worker \/ a = CallSetPause true)
                        [Worker; CallSetPause true; Worker]).
  { constructor; [left; reflexivity|].
    constructor; [right; reflexivity|].
    constructor; [left; reflexivity|]. constructor. }
  apply (proj2 (set_pause_acts_only_on_change
                  (SteadyEngine 25) true steady_viewport true false
                  [Worker; CallSetPause true; Worker]
                  (steady_never_cancels 25) eq_refl eq_refl eq_refl eq_refl
                  Hall (or_introl eq_refl))).
Defined.

(** The first [set_pause(true)] is overtaken between its critical section
    and its broadcast: the worker finds the flag set and goes to sleep,
    the broadcast wakes it, it finds the flag still set.  Then the second,
    redundant [set_pause(true)]. *)
Definition late_broadcast : @M Z WorkerPC :=
  bind (set_pause_locked true) (fun notify =>
  bind (worker_step (SteadyEngine 25) (AtLoopHead true false)) (fun pc1 =>
  bind (set_pause_notify notify) (fun _ =>
  bind (worker_step (SteadyEngine 25) pc1) (fun pc2 =>
  bind (set_pause true) (fun _ =>
  worker_step (SteadyEngine 25) pc2))))).

Definition late_broadcast_end : WorkerPC * @St Z :=
  Eval vm_compute in
    or_else (late_broadcast (steady_st true 800 600 100))
            (Returned, steady_st true 800 600 100).

(** C4 as stated fails here: [set_pause(true)] was called twice and the
    engine client's [pauseRender] was invoked twice. *)
Lemma pause_twice_counterexample :
  late_broadcast (steady_st true 800 600 100) = Some late_broadcast_end
  /\ pause (sess (snd late_broadcast_end)) = true
  /\ rev (filter is_any_PauseRender (trace (snd late_broadcast_end)))
     = [PauseRender true; PauseRender true]
  /\ count is_any_PauseRender (trace (snd late_broadcast_end)) = 2%nat
  /\ count is_any_PauseRender (trace (snd late_broadcast_end)) <> 1%nat.
Proof.
  repeat split; try (vm_compute; reflexivity).
  vm_compute. discriminate.
Qed.

(** The viewport render paused, the worker asleep. *)
Definition steady_paused : @Sys Z :=
  Eval vm_compute in
    or_else (exec (SteadyEngine 25) [CallSetPause true; Worker]
                  steady_viewport)
            steady_viewport.


(** *** Resuming after the clock was set back *)

Definition rewound_viewport : @Sys Z :=
  mkSys (AtLoopHead true false) (mkSt (sim_session true 800 600 100) 0 []).

Definition rewound_paused : @Sys Z :=
  Eval vm_compute in
    or_else (exec RewindingEngine [CallSetPause true; Worker]
                  rewound_viewport)
            rewound_viewport.

Definition rewound_resumed : @Sys Z :=
  Eval vm_compute in
    or_else (exec RewindingEngine [CallSetPause false; Worker]
                  rewound_paused)
            rewound_paused.


(** *** An engine error *)

(** An offline session whose engine client has an error pending. *)
Definition failing_st : @St SimWorld :=
  mkSt (sim_session false 800 600 100)
       {| sim_clock := 0; sim_gain := 25; sim_error := "out of memory";
          sim_cancel_in := None; sim_has_image := true |}
       [].

(** The same session right before the loop's first look at the error
    message. *)
Definition failing_first_look : @St SimWorld :=
  Eval vm_compute in
    match pass_prefix SimEngine false failing_st with
    | Some (_, s) => s
    | None => failing_st
    end.

(** An offline session whose engine client fails while the host pulls
    the image, and the session right before the loop's second look. *)
Definition late_error_st : @St string :=
  mkSt (sim_session false 800 600 100) EmptyString [].

Definition late_second_look : @St string :=
  Eval vm_compute in
    match until_second_look LateErrorEngine false late_error_st with
    | Some (_, s) => s
    | None => late_error_st
    end.

Lemma engine_error_becomes_cancellation_witness :
  (pass_prefix SimEngine false failing_st = Some (tt, failing_first_look)
   /\ fst (getServerErrorMessage SimEngine (world failing_first_look))
      = "out of memory"
   /\ render_pass SimEngine false false failing_st
      = Some (Returned, error_seen SimEngine failing_first_look)
   /\ cancel (progress (sess (error_seen SimEngine failing_first_look)))
      = true
   /\ cancel_message
        (progress (sess (error_seen SimEngine failing_first_look)))
      = "ERROR! Check console for detailed error messages."
   /\ count is_RefreshBuffer
        (trace (error_seen SimEngine failing_first_look)) = 0%nat)
  /\ (fst (getServerErrorMessage LateErrorEngine (world late_error_st))
      = EmptyString
      /\ until_second_look LateErrorEngine false late_error_st
         = Some (true, late_second_look)
      /\ fst (getServerErrorMessage LateErrorEngine (world late_second_look))
         = "device lost"
      /\ cancel (progress (sess late_second_look)) = false
      /\ exists d' st',
          render_pass LateErrorEngine false false late_error_st
          = Some (AtLoopHead true d', st')
          /\ cancel (progress (sess st')) = true
          /\ cancel_message (progress (sess st'))
             = "ERROR! Check console for detailed error messages."
          /\ trace st' = ClearServerErrorMessage :: trace late_second_look
          /\ count is_RefreshBuffer (trace st') = 1%nat
          /\ worker_step LateErrorEngine (AtLoopHead true d') st'
             = Some (Returned, st')).
Proof.
  split.
  - assert (Hp : pass_prefix SimEngine false failing_st
                 = Some (tt, failing_first_look))
      by (vm_compute; reflexivity).
    assert (He : fst (getServerErrorMessage SimEngine
                        (world failing_first_look)) <> EmptyString)
      by (vm_compute; discriminate).
    destruct (proj1 (engine_error_becomes_cancellation
                       SimEngine false failing_st)
                    failing_first_look Hp He) as (H1 & H2 & H3 & _).
    split; [exact Hp|]. split; [vm_compute; reflexivity|].
    split; [exact H1|]. split; [exact H2|]. split; [exact H3|].
    vm_compute. reflexivity.
  - assert (Hp : until_second_look LateErrorEngine false late_error_st
                 = Some (true, late_second_look))
      by (vm_compute; reflexivity).
    assert (He : fst (getServerErrorMessage LateErrorEngine
                        (world late_second_look)) <> EmptyString)
      by (vm_compute; discriminate).
    destruct (proj1 (proj2 (engine_error_becomes_cancellation
                              LateErrorEngine false late_error_st))
                    late_second_look Hp He)
      as (d' & st' & H1 & H2 & H3 & H4 & H5 & _).
    split; [reflexivity|]. split; [exact Hp|].
    split; [vm_compute; reflexivity|]. split; [vm_compute; reflexivity|].
    exists d', st'.
    split; [exact H1|]. split; [exact H2|]. split; [exact H3|].
    split; [exact H4|]. split; [|exact H5].
    rewrite H4. vm_compute. reflexivity.
Defined.

(** *** Other runs *)

(** A viewport render: two iterations, pause, resume.  The calls in the
    order they were made. *)
Example viewport_history :
  option_map (fun y => rev (trace (st y)))
    (exec (SteadyEngine 25)
          [Worker; Worker; CallSetPause true; Worker; CallSetPause false;
           Worker]
          (mkSys (AtLoopHead false false) (steady_st true 800 600 100)))
  = Some [TimeSleep; CameraTagUpdate; SceneServerUpdate true 1 1;
          StartRender 800 600 IMAGE_8BIT false 0 0; RefreshBuffer;
          DownloadImageBuffer IMAGE_8BIT 0;
          TimeSleep; SceneServerUpdate true 1 1; RefreshBuffer;
          DownloadImageBuffer IMAGE_8BIT 0;
          PauseRender true; PauseRender false;
          TimeSleep; SceneServerUpdate true 1 1; RefreshBuffer;
          DownloadImageBuffer IMAGE_8BIT 0].
Proof. vm_compute. reflexivity. Qed.

(** An offline session where the cancellation request arrives between the
    two looks of [update_render_buffer]: the host is not notified. *)
Example cancel_between_the_looks :
  let st0 := mkSt (sim_session false 800 600 100)
                  {| sim_clock := 0; sim_gain := 25;
                     sim_error := EmptyString; sim_cancel_in := Some 1%nat;
                     sim_has_image := true |} [] in
  option_map (fun r => (cancel_message (progress (sess (snd r))),
                        trace (snd r),
                        uiCurSamples (image_stat (params (sess (snd r))))))
             (update_render_buffer SimEngine st0)
  = Some ("Cancelled by user", [], 0).
Proof. vm_compute. reflexivity. Qed.

(** A negative sample target is compared as an unsigned number and is
    never reached by a small count. *)
Example negative_target_is_huge :
  done_now (with_params
              (set_image_stat (set_uiCurSamples 1000 stat0)
                              (sim_params false 800 600 (-1)))
              (sim_session false 800 600 (-1)))
  = false.
Proof. vm_compute. reflexivity. Qed.

(** *** A cancelled run, a run to the end, a run for no samples *)

Lemma run_cancelled_before_start_only_clears_witness :
  cancel (progress (sess cancelled_st)) = true
  /\ run SimEngine 3 cancelled_st
     = Some (true,
             mkSt (with_progress
                     (progress_set_status "Cancel" "Exiting"
                                          (progress (sess cancelled_st)))
                     (sess cancelled_st))
                  (sim_world 25) [ServerClear]).
Proof.
  split; [reflexivity|].
  apply (run_cancelled_before_start_only_clears SimEngine 3 cancelled_st).
  reflexivity.
Defined.

Lemma synchronous_offline_start_renders_to_completion_witness :
  exists fuel s',
    start_synchronous (SteadyEngine 25) "Combined" 1 1 fuel
                      (steady_st false 800 600 100)
    = Some (true, s')
    /\ (forall k,
          start_synchronous (SteadyEngine 25) "Combined" 1 1 (fuel + k)
                            (steady_st false 800 600 100)
          = Some (true, s'))
    /\ status (progress (sess s')) = "Combined finished"
    /\ cancel (progress (sess s')) = false
    /\ done_now (sess s') = true
    /\ count is_StartRender (trace s') = 1%nat
    /\ (count is_ScenePush (trace s') <= 1)%nat
    /\ count is_Download (trace s') = 0%nat
    /\ count is_ServerClear (trace s') = 0%nat.
Proof.
  apply (synchronous_offline_start_renders_to_completion
           (SteadyEngine 25) "Combined" 1 1 (steady_st false 800 600 100)
           sim_scene {| bs_interactive := false |}
           (steady_never_cancels 25) (steady_never_fails 25)
           (steady_host_delivers 25) eq_refl eq_refl eq_refl eq_refl).
Defined.


(** *** A viewport session through pause, reset and resume *)

Definition fresh_viewport : @Sys Z :=
  mkSys (AtLoopHead false false) (steady_st true 800 600 100).

Definition viewport_schedule : list Action :=
  [Worker; CallSetPause true; Worker; CallReset bp_800x600 0.5%float; Worker;
   CallSetSamples 200; CallSetPause false; Worker; Worker].

Definition viewport_end : @Sys Z :=
  Eval vm_compute in
    or_else (exec (SteadyEngine 25) viewport_schedule fresh_viewport)
            fresh_viewport.

Lemma viewport_schedule_runs :
  exec (SteadyEngine 25) viewport_schedule fresh_viewport = Some viewport_end.
Proof. vm_compute. reflexivity. Qed.

Lemma startRender_at_most_once_per_run_witness :
  (0 <= count is_StartRender (trace (st viewport_end)) <= 1)%nat
  /\ (forall b d,
        flags (pc viewport_end) = Some (b, d) ->
        count is_StartRender (trace (st viewport_end))
        = (0 + if b then 1 else 0)%nat).
Proof.
  exact (startRender_at_most_once_per_run
           (SteadyEngine 25) viewport_schedule false
           (steady_st true 800 600 100) viewport_end viewport_schedule_runs).
Defined.

Definition viewport_destroyed : @Sys Z :=
  Eval vm_compute in
    or_else (exec (SteadyEngine 25) [CallDestroy; Worker] viewport_end)
            viewport_end.

Lemma viewport_schedule_destroyed :
  exec (SteadyEngine 25) (viewport_schedule ++ [CallDestroy; Worker])
       fresh_viewport
  = Some viewport_destroyed.
Proof. vm_compute. reflexivity. Qed.

Lemma interactive_loop_ends_only_by_cancel_witness :
  pc viewport_destroyed = Returned
  /\ cancel (progress (sess (st viewport_destroyed))) = true.
Proof.
  split; [reflexivity|].
  apply (proj1 (interactive_loop_ends_only_by_cancel
                  (SteadyEngine 25) (viewport_schedule ++ [CallDestroy; Worker])
                  false (steady_st true 800 600 100) viewport_destroyed
                  eq_refl viewport_schedule_destroyed)).
  reflexivity.
Defined.

Lemma steady_paused_reached :
  exec (SteadyEngine 25) [CallSetPause true; Worker] steady_viewport
  = Some steady_paused.
Proof. vm_compute. reflexivity. Qed.


Definition first_slot : WorkerPC * @St Z :=
  Eval vm_compute in
    or_else (worker_step (SteadyEngine 25) (AtLoopHead false false)
                         (steady_st true 800 600 100))
            (Returned, steady_st true 800 600 100).

Lemma first_slot_runs :
  worker_step (SteadyEngine 25) (AtLoopHead false false)
              (steady_st true 800 600 100)
  = Some (fst first_slot, snd first_slot).
Proof. vm_compute. reflexivity. Qed.

Lemma worker_leaves_controller_state_alone_witness :
  display (sess (snd first_slot))
  = display (sess (steady_st true 800 600 100))
  /\ pause_cond (sess (snd first_slot)) = 0%nat
  /\ count is_ServerReset (trace (snd first_slot)) = 0%nat
  /\ count is_ServerClear (trace (snd first_slot)) = 0%nat.
Proof.
  pose proof (worker_leaves_controller_state_alone
                (SteadyEngine 25) (AtLoopHead false false)
                (steady_st true 800 600 100) (fst first_slot)
                (snd first_slot) first_slot_runs) as H.
  repeat split; apply H.
Defined.

Lemma woken_while_paused_sleeps_again_witness :
  exists t1 st',
    worker_step (SteadyEngine 25) (InPauseWait true false 0 0)
                (st steady_paused)
    = Some (InPauseWait true false t1 (pause_cond (sess st')), st')
    /\ trace st' = PauseRender true :: trace (st steady_paused)
    /\ paused_time (sess st')
       = paused_time (sess (st steady_paused))
         + (fst (time_dt (SteadyEngine 25) (world (st steady_paused))) - 0).
Proof.
  destruct (woken_while_paused_sleeps_again
              (SteadyEngine 25) true false 0 0%nat (st steady_paused)
              eq_refl ltac:(discriminate))
    as (t1 & st' & H1 & H2 & H3 & _).
  exists t1, st'. repeat split; assumption.
Defined.

Lemma update_during_pause_keeps_counting_pause_time_witness :
  exists y1 y2,
    sys_step (SteadyEngine 25) (CallUpdate bp_800x600) steady_paused
    = Some y1
    /\ sys_step (SteadyEngine 25) Worker y1 = Some y2
    /\ asleep y2
    /\ trace (st y2) = PauseRender true :: trace (st y1)
    /\ paused_time (sess (st y1)) = 0
    /\ paused_time (sess (st y2))
       = fst (time_dt (SteadyEngine 25) (world (st y1))) - 0.
Proof.
  destruct (update_during_pause_keeps_counting_pause_time
              (SteadyEngine 25) true false 0 bp_800x600 steady_paused
              eq_refl eq_refl)
    as (y1 & y2 & H1 & H2 & H3 & H4 & H5 & H6 & _).
  exists y1, y2. repeat split; assumption.
Defined.

Lemma set_samples_does_not_wake_witness :
  exists y1,
    sys_step (SteadyEngine 25) (CallSetSamples 500) steady_paused = Some y1
    /\ sys_step (SteadyEngine 25) Worker y1 = Some y1
    /\ samples (params (sess (st y1))) = 500.
Proof.
  assert (Ha : asleep steady_paused) by (exists true, false, 0; reflexivity).
  destruct (set_samples_does_not_wake (SteadyEngine 25) 500 steady_paused Ha)
    as (y1 & H1 & H2 & _ & H3 & _).
  exists y1. repeat split; assumption.
Defined.

(** *** One refresh of the viewport buffer, one push of the scene *)

Definition viewport_refreshed : @St SimWorld :=
  Eval vm_compute in
    match update_render_buffer SimEngine viewport_st with
    | Some (_, s) => s
    | None => viewport_st
    end.

Lemma viewport_refresh_runs :
  update_render_buffer SimEngine viewport_st = Some (tt, viewport_refreshed).
Proof. vm_compute. reflexivity. Qed.

Lemma update_render_buffer_pulls_or_notifies_witness :
  count is_UpdateRenderImg (trace viewport_refreshed) = 0%nat
  /\ (count is_Download (trace viewport_refreshed) <= 2)%nat.
Proof.
  destruct (proj1 (update_render_buffer_pulls_or_notifies
                     SimEngine viewport_st tt viewport_refreshed
                     viewport_refresh_runs) eq_refl)
    as (H1 & H2 & _).
  split; [exact H1 | exact H2].
Defined.

Lemma update_scene_to_server_syncs_camera_witness :
  exists st1 st2 sc1,
    update_scene_to_server SimEngine 1 1 viewport_st = Some (tt, st1)
    /\ scene (sess st1) = Some sc1
    /\ cam_width sc1 = 800
    /\ cam_height sc1 = 600
    /\ update_scene_to_server SimEngine 2 1 st1 = Some (tt, st2)
    /\ count is_CameraTagUpdate (trace st2)
       = count is_CameraTagUpdate (trace st1).
Proof.
  destruct (update_scene_to_server_syncs_camera
              SimEngine 1 1 2 1 viewport_st sim_scene eq_refl)
    as (st1 & st2 & sc1 & H1 & H2 & H3 & H4 & _ & _ & _ & H8 & H9).
  exists st1, st2, sc1. repeat split; assumption.
Defined.

(** *** A session that has no scene yet *)

Definition sceneless_st : @St Z :=
  mkSt (Session_new (sim_params true 800 600 100) {| db_params := bp0 |})
       0 [].

Lemma update_total_reset_needs_scene_witness :
  reset (SteadyEngine 25) bp_800x600 0.5%float sceneless_st = None.
Proof.
  apply (proj1 (proj2 (update_total_reset_needs_scene
                         (SteadyEngine 25) sceneless_st bp_800x600
                         0.5%float))).
  reflexivity.
Defined.

Lemma render_loop_needs_scene_witness :
  worker_step (SteadyEngine 25) (AtLoopHead false false) sceneless_st = None.
Proof.
  apply (proj2 (render_loop_needs_scene
                  (SteadyEngine 25) false Returned sceneless_st)
               (steady_never_cancels 25) (steady_never_fails 25));
    reflexivity.
Defined.

(** *** Cancelling, stale parameters, the scene, the pause flag *)

Lemma cancel_reaches_worker_unless_paused_witness :
  cancel (progress (sess cancelled_st)) = true
  /\ worker_step SimEngine (AtLoopHead false false) cancelled_st
     = Some (Returned, cancelled_st).
Proof.
  split; [reflexivity|].
  apply (proj1 (cancel_reaches_worker_unless_paused
                  SimEngine false false 0 0%nat cancelled_st eq_refl)).
Defined.

Lemma draw_after_update_accepts_new_refuses_old_witness :
  exists st',
    update SimEngine bp_800x600 viewport_st = Some (tt, st')
    /\ draw SimEngine bp_800x600 st' = DisplayBuffer_draw SimEngine st'
    /\ draw SimEngine bp0 st' = Some (false, st').
Proof.
  apply (draw_after_update_accepts_new_refuses_old
           SimEngine bp_800x600 bp0 viewport_st {| db_params := bp0 |}
           eq_refl).
  discriminate.
Defined.

Definition later_offline_pass : WorkerPC * @St Z :=
  Eval vm_compute in
    or_else (render_pass (SteadyEngine 25) true false
                         (steady_st false 800 600 100))
            (Returned, steady_st false 800 600 100).

Lemma later_offline_pass_runs :
  render_pass (SteadyEngine 25) true false (steady_st false 800 600 100)
  = Some (fst later_offline_pass, snd later_offline_pass).
Proof. vm_compute. reflexivity. Qed.

Lemma viewport_pushes_scene_every_pass_offline_only_first_witness :
  count is_ScenePush (trace (snd later_offline_pass)) = 0%nat.
Proof.
  apply (proj1 (viewport_pushes_scene_every_pass_offline_only_first
                  (SteadyEngine 25) true (steady_st false 800 600 100)
                  (fst later_offline_pass) (snd later_offline_pass)
                  later_offline_pass_runs));
    reflexivity.
Defined.

Lemma pause_withdrawn_before_the_look_is_never_sent_witness :
  exists y',
    exec (SteadyEngine 25) [CallSetPause true; CallSetPause false; Worker]
         steady_viewport
    = Some y'
    /\ not_waiting (pc y')
    /\ pause (sess (st y')) = false
    /\ pause_cond (sess (st y')) = 2%nat
    /\ count is_any_PauseRender (trace (st y')) = 0%nat.
Proof.
  apply (pause_withdrawn_before_the_look_is_never_sent
           (SteadyEngine 25) true steady_viewport eq_refl eq_refl).
  discriminate.
Defined.

Definition offline_paused_schedule : list Action :=
  [CallSetPause true; Worker; CallUpdate bp_800x600; Worker].

Definition offline_paused_end : @Sys Z :=
  Eval vm_compute in
    or_else (exec (SteadyEngine 25) offline_paused_schedule
                  (mkSys (AtLoopHead false false)
                         (steady_st false 800 600 100)))
            (mkSys Returned (steady_st false 800 600 100)).

Lemma offline_paused_schedule_runs :
  exec (SteadyEngine 25) offline_paused_schedule
       (mkSys (AtLoopHead false false) (steady_st false 800 600 100))
  = Some offline_paused_end.
Proof. vm_compute. reflexivity. Qed.

Lemma offline_loop_ignores_pause_witness :
  pause (sess (st offline_paused_end)) = true
  /\ not_waiting (pc offline_paused_end)
  /\ count is_any_PauseRender (trace (st offline_paused_end)) = 0%nat.
Proof.
  split; [reflexivity|].
  exact (offline_loop_ignores_pause
           (SteadyEngine 25) offline_paused_schedule false false
           (steady_st false 800 600 100) offline_paused_end eq_refl
           offline_paused_schedule_runs).
Defined.

(** *** The end of a viewport session, and one pass of its loop *)

Definition saving_viewport : @Sys Z :=
  mkSys (AtLoopHead false false)
        (mkSt (with_scene
                 (Some sim_scene)
                 (Session_new
                    {| interactive := true; width := 800; height := 600;
                       samples := 100; hdr_tonemapped := false;
                       export_scene := NONE; out_of_core_enabled := false;
                       out_of_core_mem_limit := 0;
                       out_of_core_gpu_headroom := 0; deep_image := false;
                       output_path := "/tmp/out.png"; image_stat := stat0 |}
                    {| db_params := bp0 |}))
              0 []).

Definition saving_viewport_end : @Sys Z :=
  Eval vm_compute in
    or_else (exec (SteadyEngine 25) [Worker; CallDestroy; Worker]
                  saving_viewport)
            saving_viewport.

Lemma saving_viewport_runs :
  exec (SteadyEngine 25) [Worker; CallDestroy; Worker] saving_viewport
  = Some saving_viewport_end.
Proof. vm_compute. reflexivity. Qed.

Lemma destructor_writes_image_for_viewport_with_path_witness :
  exists r s',
    destroy_finish (st saving_viewport_end) = Some (r, s')
    /\ r = Some "/tmp/out.png"
    /\ status (progress (sess s')) = "Writing Image"
    /\ display (sess s') = None.
Proof.
  destruct (destructor_writes_image_for_viewport_with_path
              (SteadyEngine 25)
              (params (sess (st saving_viewport))) {| db_params := bp0 |}
              [Worker; CallDestroy; Worker]
              saving_viewport saving_viewport_end
              eq_refl eq_refl saving_viewport_runs)
    as (r & s' & H1 & H2 & _ & H4 & H5 & _).
  exists r, s'. split; [exact H1|]. split; [exact H2|].
  split; [|exact H5]. apply H4. rewrite H2. discriminate.
Defined.

Lemma viewport_pass_refreshes_once_witness :
  exists st',
    worker_step (SteadyEngine 25) (AtLoopHead true false) (st steady_viewport)
    = Some (AtLoopHead true false, st')
    /\ updates (progress (sess (st steady_viewport))) = 0%nat
    /\ updates (progress (sess st')) = 1%nat
    /\ count is_RefreshBuffer (trace st') = 1%nat
    /\ (1 <= count is_Download (trace st') <= 2)%nat
    /\ count is_UpdateRenderImg (trace st') = 0%nat.
Proof.
  destruct (viewport_pass_refreshes_once
              (SteadyEngine 25) true (st steady_viewport) sim_scene
              (steady_never_cancels 25) (steady_never_fails 25)
              eq_refl eq_refl eq_refl eq_refl)
    as (st' & H1 & _ & Hu & _ & H5 & H6 & H7 & _).
  exists st'. split; [exact H1|]. split; [reflexivity|]. split; [exact Hu|].
  split; [exact H5|]. split; [exact H6 | exact H7].
Defined.
